(** * Gold trading simulator: the backtest loop and its metrics

    A shallow embedding of [runSimulation] and its helpers (the
    [TradingSimulator] component) and of [calculatePerformanceMetrics] and
    [calculateMaxConsecutiveLosses] (utils.ts).

    Numbers.  The engine only adds, subtracts, multiplies, divides and
    compares JavaScript numbers.  Its accounting properties are identities
    of exact arithmetic, so the engine is embedded over the rationals [Q]:
    rounding is abstracted away, and a quotient by zero is [0] in [Q] where
    JavaScript gives NaN or an infinity, so those statements are about runs
    whose values stay finite, up to rounding.  The metrics of utils.ts are
    about what happens when a divisor IS zero, so they are embedded over
    [number]: the rationals extended with NaN and the two infinities.

    Rounding cannot be abstracted away where a statement says what a
    comparison decides at its boundary, what the last digits of a recorded
    value are, or what NaN does.  For those the helpers and the day loop
    are embedded a second time in module [Binary64], over the kernel's
    binary64 floats, which compute as JavaScript numbers do: the stop
    test, the entry code and the validation of the parameters are stated
    there, and so are the runs on which rounding shows.

    The price series [goldPriceHistory], a module-level constant of the
    component, is a parameter of [runSimulation] here. *)

From Stdlib Require Import PrimFloat SpecFloat FloatOps FloatAxioms.
From Stdlib Require Import QArith Qminmax Qabs String List Bool Arith Lia Lqa.
From Stdlib Require Import Permutation Sorted.
Import ListNotations.
Open Scope Q_scope.

(** ** Comparisons of numbers, as booleans *)

Definition Qgeb (a b : Q) : bool := Qle_bool b a.
Definition Qgtb (a b : Q) : bool := negb (Qle_bool a b).
Definition Qltb (a b : Q) : bool := negb (Qle_bool b a).
Definition Qleb (a b : Q) : bool := Qle_bool a b.

Definition ofNat (n : nat) : Q := inject_Z (Z.of_nat n).

(** ** Data model of the simulator component *)

(** [GoldPriceDataType]: one row of [goldPriceHistory]. *)
Module Price.
Record t := mk {
  currentPrice : Q;
  openingPrice : Q;
  highestPrice : Q;
  lowestPrice : Q;
  date : string
}.
End Price.

(** [SimulationParams]. *)
Module Params.
Record t := mk {
  investmentCapital : Q;
  positionSizePercent : Q;
  leverage : Q;
  stopLossDollar : Q;
  minPriceMovement : Q;
  dailyFeePercent : Q;
  useTrailingStop : bool
}.
End Params.

(** An element of [activePositions]. *)
Module Pos.
Record t := mk {
  entryPrice : Q;
  entryDate : string;
  highestPrice : Q;
  baseAmount : Q;
  leveragedAmount : Q;
  accumulatedFees : Q;
  lastFeeDate : string;
  remainingCapitalAtEntry : Q
}.

Definition setHighestPrice (p : t) (h : Q) : t :=
  mk (entryPrice p) (entryDate p) h (baseAmount p) (leveragedAmount p)
     (accumulatedFees p) (lastFeeDate p) (remainingCapitalAtEntry p).

Definition addFees (p : t) (f : Q) : t :=
  mk (entryPrice p) (entryDate p) (highestPrice p) (baseAmount p)
     (leveragedAmount p) (accumulatedFees p + f) (lastFeeDate p)
     (remainingCapitalAtEntry p).

Definition setLastFeeDate (p : t) (d : string) : t :=
  mk (entryPrice p) (entryDate p) (highestPrice p) (baseAmount p)
     (leveragedAmount p) (accumulatedFees p) d (remainingCapitalAtEntry p).
End Pos.

(** [TradeData]: an entry of the trade ledger. *)
Module Trade.
Record t := mk {
  entry : string;
  exit : string;
  entryPrice : Q;
  exitPrice : Q;
  highestPrice : Q;
  baseAmount : Q;
  leveragedAmount : Q;
  pnl : Q;
  fees : Q;
  daysHeld : Q;
  remainingCapital : Q;
  capitalAtEntry : Q
}.
End Trade.

(** [OpenPosition]: the positions still open at the end, for display. *)
Module Open.
Record t := mk {
  entryDate : string;
  entryPrice : Q;
  currentPrice : Q;
  highestPrice : Q;
  baseAmount : Q;
  leveragedAmount : Q;
  unrealizedPnl : Q;
  accumulatedFees : Q;
  capitalAtEntry : Q
}.
End Open.

Module Equity.
Record t := mk { date : string; equity : Q }.
End Equity.

(** [SimulationResults]. *)
Module Results.
Record t := mk {
  finalCapital : Q;
  totalProfitLoss : Q;
  totalTrades : nat;
  totalFees : Q;
  equityCurve : list Equity.t;
  tradeHistory : list Trade.t;
  successRate : Q;
  maxDrawdown : Q;
  maxConsecutiveLosses : nat;
  avgProfitPerTrade : Q;
  openPositions : list Open.t;
  skippedTrades : nat
}.
End Results.

(** The local variables of [runSimulation] that the day loop mutates. *)
Module St.
Record t := mk {
  currentCapital : Q;
  totalProfitLoss : Q;
  tradesExecuted : nat;
  totalFees : Q;
  consecutiveLosses : nat;
  maxConsecutiveLosses : nat;
  skippedTrades : nat;
  equityCurve : list Equity.t;
  tradeHistory : list Trade.t;
  activePositions : list Pos.t;
  currentDate : option string
}.

Definition setFees (s : t) (cap fees : Q) (ps : list Pos.t) (d : string) : t :=
  mk cap (totalProfitLoss s) (tradesExecuted s) fees (consecutiveLosses s)
     (maxConsecutiveLosses s) (skippedTrades s) (equityCurve s)
     (tradeHistory s) ps (Some d).

Definition setActive (s : t) (ps : list Pos.t) : t :=
  mk (currentCapital s) (totalProfitLoss s) (tradesExecuted s) (totalFees s)
     (consecutiveLosses s) (maxConsecutiveLosses s) (skippedTrades s)
     (equityCurve s) (tradeHistory s) ps (currentDate s).

Definition closeTrade (s : t) (cap tpl : Q) (tr : Trade.t) (cl mcl : nat) : t :=
  mk cap tpl (tradesExecuted s) (totalFees s) cl mcl (skippedTrades s)
     (equityCurve s) (tradeHistory s ++ [tr]) (activePositions s)
     (currentDate s).

Definition openTrade (s : t) (cap : Q) (p : Pos.t) : t :=
  mk cap (totalProfitLoss s) (S (tradesExecuted s)) (totalFees s)
     (consecutiveLosses s) (maxConsecutiveLosses s) (skippedTrades s)
     (equityCurve s) (tradeHistory s) (activePositions s ++ [p])
     (currentDate s).

Definition skipTrade (s : t) : t :=
  mk (currentCapital s) (totalProfitLoss s) (tradesExecuted s) (totalFees s)
     (consecutiveLosses s) (maxConsecutiveLosses s) (S (skippedTrades s))
     (equityCurve s) (tradeHistory s) (activePositions s) (currentDate s).

Definition pushEquity (s : t) (e : Equity.t) : t :=
  mk (currentCapital s) (totalProfitLoss s) (tradesExecuted s) (totalFees s)
     (consecutiveLosses s) (maxConsecutiveLosses s) (skippedTrades s)
     (equityCurve s ++ [e]) (tradeHistory s) (activePositions s)
     (currentDate s).
End St.

(** What a call of [runSimulation] does: reject the parameters (the alert),
    throw (reading a field of [goldPriceHistory[-1]], which is [undefined]),
    or store a result. *)
Inductive Outcome :=
| InvalidParameters
| TypeError
| Completed (r : Results.t).

(** ** utils.ts: performance metrics over JavaScript numbers *)

Module Utils.

(** A JavaScript number: a finite value (kept exact), or one of the
    special values.  The sign of zero is not modelled. *)
Inductive number :=
| Fin (q : Q)
| PosInf
| NegInf
| NaN.

Definition nneg (x : number) : number :=
  match x with
  | Fin q => Fin (- q)
  | PosInf => NegInf
  | NegInf => PosInf
  | NaN => NaN
  end.

Definition nadd (x y : number) : number :=
  match x, y with
  | NaN, _ | _, NaN => NaN
  | Fin a, Fin b => Fin (a + b)
  | PosInf, NegInf | NegInf, PosInf => NaN
  | PosInf, _ | _, PosInf => PosInf
  | NegInf, _ | _, NegInf => NegInf
  end.

Definition nsub (x y : number) : number := nadd x (nneg y).

(** An infinity of the sign of [c] (NaN when [c] is zero). *)
Definition infOfSign (c : comparison) : number :=
  match c with Gt => PosInf | Lt => NegInf | Eq => NaN end.

Definition flipSign (c : comparison) : comparison := CompOpp c.

Definition nmul (x y : number) : number :=
  match x, y with
  | NaN, _ | _, NaN => NaN
  | Fin a, Fin b => Fin (a * b)
  | PosInf, Fin b | Fin b, PosInf => infOfSign (b ?= 0)
  | NegInf, Fin b | Fin b, NegInf => infOfSign (flipSign (b ?= 0))
  | PosInf, PosInf | NegInf, NegInf => PosInf
  | PosInf, NegInf | NegInf, PosInf => NegInf
  end.

(** Division: [0/0] and [Infinity/Infinity] are NaN, [x/0] is an infinity
    of the sign of [x]. *)
Definition ndiv (x y : number) : number :=
  match x with
  | NaN => NaN
  | Fin a =>
      match y with
      | NaN => NaN
      | Fin b =>
          if Qeq_bool b 0 then infOfSign (a ?= 0) else Fin (a / b)
      | PosInf | NegInf => Fin 0
      end
  | PosInf =>
      match y with
      | Fin b => if Qltb b 0 then NegInf else PosInf
      | _ => NaN
      end
  | NegInf =>
      match y with
      | Fin b => if Qltb b 0 then PosInf else NegInf
      | _ => NaN
      end
  end.

Definition nabs (x : number) : number :=
  match x with
  | Fin q => Fin (Qabs.Qabs q)
  | PosInf | NegInf => PosInf
  | NaN => NaN
  end.

(** [x > y]; every comparison with NaN is false. *)
Definition ngt (x y : number) : bool :=
  match x, y with
  | NaN, _ | _, NaN => false
  | Fin a, Fin b => Qgtb a b
  | PosInf, PosInf => false
  | PosInf, _ => true
  | _, NegInf => match x with NegInf => false | _ => true end
  | _, _ => false
  end.

Definition nlt (x y : number) : bool := ngt y x.

Definition ofLength {A} (l : list A) : number := Fin (ofNat (length l)).

(** [TradeRecord] of lib/types.ts. *)
Record TradeRecord := mkTradeRecord {
  entry : string;
  exit : string;
  pnl : number;
  type : string;
  priceChange : string;
  marketExposure : number;
  entryPrice : number;
  exitPrice : number;
  holdingPeriod : number
}.

Record EquityPoint := mkEquityPoint { date : string; equity : number }.

(** [PerformanceMetrics] of lib/types.ts. *)
Record PerformanceMetrics := mkPerformanceMetrics {
  maxDrawdown : number;
  sharpeRatio : number;
  winRate : number;
  averageWin : number;
  averageLoss : number;
  profitFactor : number;
  maxConsecutiveLosses : nat;
  dailyReturnVolatility : number
}.

(** The [forEach] of [calculateMaxConsecutiveLosses], with its two
    counters [maxConsecutive] and [current]. *)
Fixpoint consecutiveLossesFrom (maxConsecutive current : nat)
         (tradeHistory : list TradeRecord) : nat :=
  match tradeHistory with
  | [] => maxConsecutive
  | trade :: rest =>
      if nlt (pnl trade) (Fin 0)
      then consecutiveLossesFrom (Nat.max maxConsecutive (S current))
                                 (S current) rest
      else consecutiveLossesFrom maxConsecutive 0%nat rest
  end.

Definition calculateMaxConsecutiveLosses (tradeHistory : list TradeRecord)
  : nat :=
  consecutiveLossesFrom 0 0 tradeHistory.

Definition sumPnl (ts : list TradeRecord) : number :=
  fold_left (fun sum t => nadd sum (pnl t)) ts (Fin 0).

(** The drawdown [forEach]: the pair is ([maxDrawdown], [peak]). *)
Definition drawdownStep (acc : number * number) (point : EquityPoint)
  : number * number :=
  let '(maxDrawdown, peak) := acc in
  let peak := if ngt (equity point) peak then equity point else peak in
  let drawdown := ndiv (nsub peak (equity point)) peak in
  (if ngt drawdown maxDrawdown then drawdown else maxDrawdown, peak).

(** [equityCurve.map((point, i, arr) => i === 0 ? 0 : ...)]: [prev] is
    [arr[i - 1]], absent at index 0. *)
Fixpoint returnsFrom (prev : option EquityPoint) (curve : list EquityPoint)
  : list number :=
  match curve with
  | [] => []
  | point :: rest =>
      match prev with
      | None => Fin 0
      | Some before =>
          ndiv (nsub (equity point) (equity before)) (equity before)
      end :: returnsFrom (Some point) rest
  end.

Section WithSqrt.
(** [Math.sqrt], left abstract. *)
Variable sqrt : number -> number.

Definition calculatePerformanceMetrics
           (tradeHistory : list TradeRecord)
           (equityCurve : list EquityPoint) : PerformanceMetrics :=
  let wins := filter (fun t => ngt (pnl t) (Fin 0)) tradeHistory in
  let losses := filter (fun t => nlt (pnl t) (Fin 0)) tradeHistory in
  let winRate := ndiv (ofLength wins) (ofLength tradeHistory) in
  let averageWin :=
    if (0 <? length wins)%nat
    then ndiv (sumPnl wins) (ofLength wins) else Fin 0 in
  let averageLoss :=
    if (0 <? length losses)%nat
    then nabs (ndiv (sumPnl losses) (ofLength losses)) else Fin 0 in
  let maxDrawdown :=
    fst (fold_left drawdownStep equityCurve (Fin 0, NegInf)) in
  let returns := returnsFrom None equityCurve in
  let meanReturn :=
    ndiv (fold_left nadd returns (Fin 0)) (ofLength returns) in
  let stdReturn :=
    sqrt (ndiv (fold_left
                  (fun a b =>
                     nadd a (nmul (nsub b meanReturn) (nsub b meanReturn)))
                  returns (Fin 0))
               (ofLength returns)) in
  let sharpeRatio := nmul (ndiv meanReturn stdReturn) (sqrt (Fin 252)) in
  mkPerformanceMetrics
    maxDrawdown sharpeRatio winRate averageWin averageLoss
    (ndiv (nmul averageWin winRate)
          (nmul averageLoss (nsub (Fin 1) winRate)))
    (calculateMaxConsecutiveLosses tradeHistory)
    (nmul (nmul stdReturn (sqrt (Fin 252))) (Fin 100)).
End WithSqrt.

(** [x <= y]; false when either is NaN. *)
Definition nle (x y : number) : bool :=
  match x, y with
  | NaN, _ | _, NaN => false
  | Fin a, Fin b => Qleb a b
  | NegInf, _ => true
  | _, PosInf => true
  | _, _ => false
  end.

(** [SimulationParams] of lib/types.ts. *)
Record SimulationParams := mkSimulationParams {
  investmentCapital : number;
  positionSize : number;
  leverage : number;
  stopLoss : number;
  profitTarget : number;
  tradeFrequency : number;
  dailyFees : number;
  maxDailyLoss : number;
  maxPositionHoldingHours : number;
  volatilityAdjustment : bool
}.

Definition validateRiskManagement (capital marketValue : number)
           (params : SimulationParams) : bool :=
  if nle capital (Fin 0) then false
  else
    let currentLeverage := ndiv marketValue capital in
    if ngt currentLeverage (leverage params) then false
    else
      let maxPositionSize :=
        nmul capital (ndiv (positionSize params) (Fin 100)) in
      if ngt marketValue (nmul maxPositionSize (leverage params)) then false
      else true.

End Utils.

(** ** The simulator component: helpers of [runSimulation] *)

Definition validateParams (params : Params.t) : bool :=
  if Qleb (Params.investmentCapital params) 0 then false
  else if Qleb (Params.positionSizePercent params) 0
          || Qgtb (Params.positionSizePercent params) 100 then false
  else if Qleb (Params.leverage params) 0
          || Qgtb (Params.leverage params) 200 then false
  else if Qleb (Params.stopLossDollar params) 0 then false
  else if Qltb (Params.minPriceMovement params) 0 then false
  else if Qltb (Params.dailyFeePercent params) 0 then false
  else true.

Definition shouldOpenPosition (currentPrice previousPrice threshold : Q)
  : bool :=
  let priceMovement := ((currentPrice - previousPrice) / previousPrice) * 100 in
  Qgeb priceMovement threshold.

Definition isStopLossTriggered
           (currentPrice highestPrice leveragedAmount stopLossAmount : Q)
           (useTrailing : bool) : bool :=
  if negb useTrailing then false
  else
    let percentageDropFromHighest :=
      (highestPrice - currentPrice) / highestPrice in
    let dollarLoss := leveragedAmount * percentageDropFromHighest in
    Qgeb dollarLoss stopLossAmount.

Definition calculateStopLossPrice
           (highestPrice leveragedAmount stopLossAmount : Q) : Q :=
  let percentageDrop := stopLossAmount / leveragedAmount in
  highestPrice * (1 - percentageDrop).

(** The loop of [calculateDrawdown]: the pair is ([maxDrawdown], [peak]). *)
Definition drawdownStep (acc : Q * Q) (point : Equity.t) : Q * Q :=
  let '(maxDrawdown, peak) := acc in
  if Qgtb (Equity.equity point) peak
  then (maxDrawdown, Equity.equity point)
  else (Qmax maxDrawdown ((peak - Equity.equity point) / peak), peak).

Definition calculateDrawdown (equityCurve : list Equity.t) : Q :=
  match equityCurve with
  | [] => 0
  | first :: _ =>
      fst (fold_left drawdownStep equityCurve (0, Equity.equity first))
  end.

(** [currentDate !== date], where [currentDate] starts as [null]. *)
Definition dateChanged (currentDate : option string) (date : string) : bool :=
  match currentDate with
  | None => true
  | Some d => negb (String.eqb d date)
  end.

(** The fee loop over [activePositions] on a new date.  It returns the
    positions (mutated in place in the source), [currentCapital] and
    [totalFees].  The [break] leaves the positions after the current one
    untouched. *)
Fixpoint feeLoop (dailyFeePercent : Q) (date : string) (ps : list Pos.t)
         (currentCapital totalFees : Q) : list Pos.t * Q * Q :=
  match ps with
  | [] => ([], currentCapital, totalFees)
  | position :: rest =>
      if negb (String.eqb (Pos.lastFeeDate position) date) then
        let dailyFee := (dailyFeePercent / 100) * Pos.baseAmount position in
        if Qgeb currentCapital dailyFee then
          let '(rest', capital', fees') :=
            feeLoop dailyFeePercent date rest
                    (currentCapital - dailyFee) (totalFees + dailyFee) in
          (Pos.setLastFeeDate (Pos.addFees position dailyFee) date :: rest',
           capital', fees')
        else
          let feePaid := currentCapital in
          (Pos.addFees position feePaid :: rest, 0, totalFees + feePaid)
      else
        let '(rest', capital', fees') :=
          feeLoop dailyFeePercent date rest currentCapital totalFees in
        (position :: rest', capital', fees')
  end.

Definition feeStage (params : Params.t) (date : string) (st : St.t) : St.t :=
  if dateChanged (St.currentDate st) date then
    let '(ps, capital, fees) :=
      feeLoop (Params.dailyFeePercent params) date (St.activePositions st)
              (St.currentCapital st) (St.totalFees st) in
    St.setFees st capital fees ps date
  else st.

(** Sum of the un-leveraged amounts committed to a list of positions. *)
Definition sumBase (ps : list Pos.t) : Q :=
  fold_right (fun p acc => Pos.baseAmount p + acc) 0 ps.

(** Sum of the [pnl] of a ledger. *)
Definition sumPnl (ts : list Trade.t) : Q :=
  fold_right (fun t acc => Trade.pnl t + acc) 0 ts.

(** The value pushed on [equityCurve]: cash plus, for each open position,
    its base amount and its unrealized P&L at the day's close. *)
Definition equityOf (currentPrice : Q) (st : St.t) : Q :=
  St.currentCapital st
  + fold_left
      (fun sum pos =>
         let unrealizedPnL :=
           Pos.leveragedAmount pos
           * ((currentPrice - Pos.entryPrice pos) / Pos.entryPrice pos) in
         sum + Pos.baseAmount pos + unrealizedPnL)
      (St.activePositions st) 0.

Definition equityStage (currentData : Price.t) (st : St.t) : St.t :=
  St.pushEquity st
    (Equity.mk (Price.date currentData)
               (equityOf (Price.currentPrice currentData) st)).

(** The position pushed by the entry code, when it pushes one. *)
Definition newPosition (params : Params.t) (currentData : Price.t)
           (currentCapital : Q) : Pos.t :=
  let baseAmount :=
    Qmin ((Params.positionSizePercent params / 100) * currentCapital)
         currentCapital in
  let leveragedAmount := baseAmount * Params.leverage params in
  Pos.mk (Price.openingPrice currentData) (Price.date currentData)
         (Price.highestPrice currentData) baseAmount leveragedAmount 0
         (Price.date currentData) currentCapital.

Definition MIN_TRADING_CAPITAL : Q := 100.

(** The entry code of one day: [Some p] when position [p] is opened. *)
Definition entryDecision (params : Params.t)
           (previousData currentData : Price.t) (st : St.t) : option Pos.t :=
  if Qgeb (St.currentCapital st) MIN_TRADING_CAPITAL then
    if shouldOpenPosition (Price.openingPrice currentData)
                          (Price.openingPrice previousData)
                          (Params.minPriceMovement params)
    then
      let p := newPosition params currentData (St.currentCapital st) in
      if Qgeb (Pos.baseAmount p) 1 then Some p else None
    else None
  else None.

Definition entryStage (params : Params.t)
           (previousData currentData : Price.t) (st : St.t) : St.t :=
  if Qgeb (St.currentCapital st) MIN_TRADING_CAPITAL then
    if shouldOpenPosition (Price.openingPrice currentData)
                          (Price.openingPrice previousData)
                          (Params.minPriceMovement params)
    then
      let p := newPosition params currentData (St.currentCapital st) in
      if Qgeb (Pos.baseAmount p) 1
      then St.openTrade st (St.currentCapital st - Pos.baseAmount p) p
      else st
    else st
  else if shouldOpenPosition (Price.openingPrice currentData)
                             (Price.openingPrice previousData)
                             (Params.minPriceMovement params)
  then St.skipTrade st
  else st.

Definition initialState (params : Params.t) : St.t :=
  St.mk (Params.investmentCapital params) 0 0 0 0 0 0 [] [] [] None.

(** The guard at the top of the day loop: no capital and no positions. *)
Definition exhausted (st : St.t) : bool :=
  Qleb (St.currentCapital st) 0
  && (List.length (St.activePositions st) =? 0)%nat.

Definition successRateOf (tradeHistory : list Trade.t) : Q :=
  if (0 <? List.length tradeHistory)%nat
  then ofNat (List.length
                (filter (fun t => Qgtb (Trade.pnl t) 0) tradeHistory))
       / ofNat (List.length tradeHistory)
  else 0.

(** [tradesExecuted || 1]. *)
Definition orOne (n : nat) : Q :=
  match n with O => 1 | _ => ofNat n end.

(** Longest run of consecutive losing trades of a ledger, in ledger order. *)
Fixpoint lossRunFrom (best current : nat) (ts : list Trade.t) : nat :=
  match ts with
  | [] => best
  | t :: rest =>
      if Qltb (Trade.pnl t) 0
      then lossRunFrom (Nat.max best (S current)) (S current) rest
      else lossRunFrom best 0%nat rest
  end.

Definition longestLossRun (ts : list Trade.t) : nat := lossRunFrom 0 0 ts.

(** ** [runSimulation] *)

Section Simulation.

(** [calculateDaysHeld] parses its two dates with [new Date]; it only
    fills the [daysHeld] column and is left abstract. *)
Variable calculateDaysHeld : string -> string -> Q.

(** The position as it is after the high-water update of the exit loop. *)
Definition updateHighest (currentData : Price.t) (p : Pos.t) : Pos.t :=
  if Qgtb (Price.highestPrice currentData) (Pos.highestPrice p)
  then Pos.setHighestPrice p (Price.highestPrice currentData)
  else p.

(** The ledger entry pushed when [position] is closed at [exitPrice] on
    [date], [currentCapital] being the cash after the close. *)
Definition tradeOf (position : Pos.t) (date : string)
           (exitPrice pnl currentCapital : Q) : Trade.t :=
  Trade.mk (Pos.entryDate position) date (Pos.entryPrice position) exitPrice
           (Pos.highestPrice position) (Pos.baseAmount position)
           (Pos.leveragedAmount position) pnl (Pos.accumulatedFees position)
           (calculateDaysHeld (Pos.entryDate position) date)
           currentCapital (Pos.remainingCapitalAtEntry position).

(** Body of the exit loop for one position: [None] when the position is
    spliced out of [activePositions], [Some] of the (updated) position
    when it stays. *)
Definition exitBody (params : Params.t) (currentData : Price.t)
           (p : Pos.t) (st : St.t) : option Pos.t * St.t :=
  let position := updateHighest currentData p in
  let stopLossTriggered :=
    isStopLossTriggered (Price.lowestPrice currentData)
                        (Pos.highestPrice position)
                        (Pos.leveragedAmount position)
                        (Params.stopLossDollar params)
                        (Params.useTrailingStop params) in
  if stopLossTriggered then
    let exitPrice :=
      calculateStopLossPrice (Pos.highestPrice position)
                             (Pos.leveragedAmount position)
                             (Params.stopLossDollar params) in
    let percentageChange :=
      (exitPrice - Pos.entryPrice position) / Pos.entryPrice position in
    let pnl := Pos.leveragedAmount position * percentageChange in
    let amountToReturn := Pos.baseAmount position + pnl in
    let currentCapital := St.currentCapital st + amountToReturn in
    let totalProfitLoss := St.totalProfitLoss st + pnl in
    let trade :=
      tradeOf position (Price.date currentData) exitPrice pnl
              currentCapital in
    let consecutiveLosses :=
      if Qltb pnl 0 then S (St.consecutiveLosses st) else 0%nat in
    let maxConsecutiveLosses :=
      if Qltb pnl 0
      then Nat.max (St.maxConsecutiveLosses st) consecutiveLosses
      else St.maxConsecutiveLosses st in
    (None,
     St.closeTrade st currentCapital totalProfitLoss trade
                   consecutiveLosses maxConsecutiveLosses)
  else (Some position, st).

(** The exit loop runs from the last index down to 0 and splices closed
    positions out: the tail of the list is processed before its head. *)
Fixpoint exitLoop (params : Params.t) (currentData : Price.t)
         (ps : list Pos.t) (st : St.t) : list Pos.t * St.t :=
  match ps with
  | [] => ([], st)
  | p :: rest =>
      let '(rest', st1) := exitLoop params currentData rest st in
      match exitBody params currentData p st1 with
      | (None, st2) => (rest', st2)
      | (Some position, st2) => (position :: rest', st2)
      end
  end.

Definition exitStage (params : Params.t) (currentData : Price.t)
           (st : St.t) : St.t :=
  let '(ps, st') :=
    exitLoop params currentData (St.activePositions st) st in
  St.setActive st' ps.

(** One iteration of the day loop, after its guard. *)
Definition dayStep (params : Params.t) (previousData currentData : Price.t)
           (st : St.t) : St.t :=
  let st1 := feeStage params (Price.date currentData) st in
  let st2 := exitStage params currentData st1 in
  let st3 := entryStage params previousData currentData st2 in
  equityStage currentData st3.

(** [for (let index = 1; ...)]: [previousData] is the row before the head
    of [rows]. *)
Fixpoint dayLoop (params : Params.t) (previousData : Price.t)
         (rows : list Price.t) (st : St.t) : St.t :=
  match rows with
  | [] => st
  | currentData :: rest =>
      if exhausted st then st
      else dayLoop params currentData rest
                   (dayStep params previousData currentData st)
  end.

(** Body of the final [activePositions.forEach]: the accumulator holds
    [currentCapital], [totalProfitLoss], [tradeHistory], [openPositions]. *)
Definition closeAtEnd (lastPrice : Q) (lastDate : string)
           (acc : Q * Q * list Trade.t * list Open.t) (position : Pos.t)
  : Q * Q * list Trade.t * list Open.t :=
  let '(currentCapital, totalProfitLoss, tradeHistory, openPositions) :=
    acc in
  let percentageChange :=
    (lastPrice - Pos.entryPrice position) / Pos.entryPrice position in
  let pnl := Pos.leveragedAmount position * percentageChange in
  let amountToReturn := Pos.baseAmount position + pnl in
  let currentCapital := currentCapital + amountToReturn in
  (currentCapital,
   totalProfitLoss + pnl,
   tradeHistory ++ [tradeOf position lastDate lastPrice pnl currentCapital],
   openPositions
     ++ [Open.mk (Pos.entryDate position) (Pos.entryPrice position)
                 lastPrice (Pos.highestPrice position)
                 (Pos.baseAmount position) (Pos.leveragedAmount position)
                 pnl (Pos.accumulatedFees position)
                 (Pos.remainingCapitalAtEntry position)]).

(** The state when the day loop is left. *)
Definition loopFinal (params : Params.t) (first : Price.t)
           (rest : list Price.t) : St.t :=
  dayLoop params first rest (initialState params).

Definition runSimulation (params : Params.t)
           (goldPriceHistory : list Price.t) : Outcome :=
  if negb (validateParams params) then InvalidParameters
  else
    match goldPriceHistory with
    | [] => TypeError
    | first :: rest =>
        let st := loopFinal params first rest in
        let lastData := List.last goldPriceHistory first in
        let lastPrice := Price.currentPrice lastData in
        let lastDate := Price.date lastData in
        let '(currentCapital, totalProfitLoss, tradeHistory,
              openPositions) :=
          fold_left (closeAtEnd lastPrice lastDate) (St.activePositions st)
                    (St.currentCapital st, St.totalProfitLoss st,
                     St.tradeHistory st, []) in
        Completed
          (Results.mk currentCapital totalProfitLoss (St.tradesExecuted st)
                      (St.totalFees st) (St.equityCurve st) tradeHistory
                      (successRateOf tradeHistory)
                      (calculateDrawdown (St.equityCurve st))
                      (St.maxConsecutiveLosses st)
                      (totalProfitLoss / orOne (St.tradesExecuted st))
                      openPositions (St.skippedTrades st))
    end.

(** The rows the day loop processes (it stops at the first row at which
    cash is gone and nothing is open), each with the state after it. *)
Fixpoint trace (params : Params.t) (previousData : Price.t)
         (rows : list Price.t) (st : St.t) : list (Price.t * St.t) :=
  match rows with
  | [] => []
  | currentData :: rest =>
      if exhausted st then []
      else
        let st' := dayStep params previousData currentData st in
        (currentData, st') :: trace params currentData rest st'
  end.

(** The positions the day loop opens, in the order it opens them. *)
Fixpoint openedPositions (params : Params.t) (previousData : Price.t)
         (rows : list Price.t) (st : St.t) : list Pos.t :=
  match rows with
  | [] => []
  | currentData :: rest =>
      if exhausted st then []
      else
        let st2 :=
          exitStage params currentData
                    (feeStage params (Price.date currentData) st) in
        match entryDecision params previousData currentData st2 with
        | Some p => [p]
        | None => []
        end
        ++ openedPositions params currentData rest
             (dayStep params previousData currentData st)
  end.

End Simulation.

(** The loop of the second component's [calculateDrawdown], which reports
    a percentage: the drawdown is computed at every point. *)
Definition drawdownPercentStep (acc : Q * Q) (point : Equity.t) : Q * Q :=
  let '(maxDrawdown, peak) := acc in
  let peak :=
    if Qgtb (Equity.equity point) peak then Equity.equity point else peak in
  let drawdown := ((peak - Equity.equity point) / peak) * 100 in
  (Qmax maxDrawdown drawdown, peak).

(** The second component's [calculateDrawdown]: it reads
    [equityCurve[0].equity] first, which throws on an empty curve. *)
Definition calculateDrawdownPercent (equityCurve : list Equity.t)
  : option Q :=
  match equityCurve with
  | [] => None
  | first :: _ =>
      Some (fst (fold_left drawdownPercentStep equityCurve
                           (0, Equity.equity first)))
  end.

(** ** The second simulator component

    The second [TradingSimulator] of the same file: fees are summed over
    the positions before they are taken from cash, a position is also
    closed when its fees have eaten its value, a close returns
    [max(0, baseAmount + pnl - accumulatedFees)], and the drawdown is a
    percentage. *)

Module Second.

Definition validateParams (params : Params.t) : bool :=
  if Qleb (Params.investmentCapital params) 0 then false
  else if Qleb (Params.positionSizePercent params) 0
          || Qgtb (Params.positionSizePercent params) 100 then false
  else if Qleb (Params.leverage params) 0
          || Qgtb (Params.leverage params) 100 then false
  else if Qleb (Params.stopLossDollar params) 0 then false
  else if Qltb (Params.minPriceMovement params) 0 then false
  else if Qltb (Params.dailyFeePercent params) 0 then false
  else true.

(** The loop over [activePositions] on a new date: every position not yet
    charged on [date] has its fee added to [totalDailyFees] and to its own
    accumulator, and is marked as charged. *)
Fixpoint feeMarks (dailyFeePercent : Q) (date : string) (ps : list Pos.t)
         (totalDailyFees : Q) : list Pos.t * Q :=
  match ps with
  | [] => ([], totalDailyFees)
  | position :: rest =>
      if negb (String.eqb (Pos.lastFeeDate position) date) then
        let dailyFee := (dailyFeePercent / 100) * Pos.baseAmount position in
        let '(rest', total) :=
          feeMarks dailyFeePercent date rest (totalDailyFees + dailyFee) in
        (Pos.setLastFeeDate (Pos.addFees position dailyFee) date :: rest',
         total)
      else
        let '(rest', total) :=
          feeMarks dailyFeePercent date rest totalDailyFees in
        (position :: rest', total)
  end.

Definition feeStage (params : Params.t) (date : string) (st : St.t) : St.t :=
  if dateChanged (St.currentDate st) date then
    let '(ps, totalDailyFees) :=
      feeMarks (Params.dailyFeePercent params) date (St.activePositions st)
               0 in
    if Qgeb (St.currentCapital st) totalDailyFees then
      St.setFees st (St.currentCapital st - totalDailyFees)
                 (St.totalFees st + totalDailyFees) ps date
    else if Qgtb (St.currentCapital st) 0 then
      St.setFees st 0 (St.totalFees st + St.currentCapital st) ps date
    else St.setFees st (St.currentCapital st) (St.totalFees st) ps date
  else st.

(** [Math.max(0, baseAmount + pnl - accumulatedFees)]. *)
Definition amountToReturn (position : Pos.t) (pnl : Q) : Q :=
  Qmax 0 (Pos.baseAmount position + pnl - Pos.accumulatedFees position).

Definition equityOf (currentPrice : Q) (st : St.t) : Q :=
  St.currentCapital st
  + fold_left
      (fun sum pos =>
         let unrealizedPnL :=
           Pos.leveragedAmount pos
           * ((currentPrice - Pos.entryPrice pos) / Pos.entryPrice pos) in
         sum + amountToReturn pos unrealizedPnL)
      (St.activePositions st) 0.

Definition equityStage (currentData : Price.t) (st : St.t) : St.t :=
  St.pushEquity st
    (Equity.mk (Price.date currentData)
               (equityOf (Price.currentPrice currentData) st)).

(** The position pushed by the entry code: its high-water mark starts at
    the entry price. *)
Definition newPosition (params : Params.t) (currentData : Price.t)
           (currentCapital : Q) : Pos.t :=
  let baseAmount :=
    Qmin ((Params.positionSizePercent params / 100) * currentCapital)
         currentCapital in
  let leveragedAmount := baseAmount * Params.leverage params in
  Pos.mk (Price.openingPrice currentData) (Price.date currentData)
         (Price.openingPrice currentData) baseAmount leveragedAmount 0
         (Price.date currentData) currentCapital.

Definition entryStage (params : Params.t)
           (previousData currentData : Price.t) (st : St.t) : St.t :=
  if Qgeb (St.currentCapital st) MIN_TRADING_CAPITAL then
    if shouldOpenPosition (Price.openingPrice currentData)
                          (Price.openingPrice previousData)
                          (Params.minPriceMovement params)
    then
      let p := newPosition params currentData (St.currentCapital st) in
      if Qgeb (Pos.baseAmount p) 1
      then St.openTrade st (St.currentCapital st - Pos.baseAmount p) p
      else st
    else st
  else if shouldOpenPosition (Price.openingPrice currentData)
                             (Price.openingPrice previousData)
                             (Params.minPriceMovement params)
  then St.skipTrade st
  else st.

Section Simulation.

Variable calculateDaysHeld : string -> string -> Q.

Definition exitBody (params : Params.t) (currentData : Price.t)
           (p : Pos.t) (st : St.t) : option Pos.t * St.t :=
  let position := updateHighest currentData p in
  let currentPnL :=
    Pos.leveragedAmount position
    * ((Price.currentPrice currentData - Pos.entryPrice position)
       / Pos.entryPrice position) in
  let totalPositionValue := Pos.baseAmount position + currentPnL in
  let netPositionValue :=
    totalPositionValue - Pos.accumulatedFees position in
  let stopLossTriggered :=
    isStopLossTriggered (Price.lowestPrice currentData)
                        (Pos.highestPrice position)
                        (Pos.leveragedAmount position)
                        (Params.stopLossDollar params)
                        (Params.useTrailingStop params) in
  if stopLossTriggered || Qleb netPositionValue 0 then
    let '(exitPrice, pnl) :=
      if stopLossTriggered then
        let percentageDrop :=
          Params.stopLossDollar params / Pos.leveragedAmount position in
        let exitPrice := Pos.highestPrice position * (1 - percentageDrop) in
        (exitPrice,
         Pos.leveragedAmount position
         * ((exitPrice - Pos.entryPrice position)
            / Pos.entryPrice position))
      else (Price.currentPrice currentData, currentPnL) in
    let currentCapital :=
      St.currentCapital st + amountToReturn position pnl in
    let totalProfitLoss := St.totalProfitLoss st + pnl in
    let trade :=
      tradeOf calculateDaysHeld position (Price.date currentData) exitPrice
              pnl currentCapital in
    let consecutiveLosses :=
      if Qltb pnl 0 then S (St.consecutiveLosses st) else 0%nat in
    let maxConsecutiveLosses :=
      if Qltb pnl 0
      then Nat.max (St.maxConsecutiveLosses st) consecutiveLosses
      else St.maxConsecutiveLosses st in
    (None,
     St.closeTrade st currentCapital totalProfitLoss trade
                   consecutiveLosses maxConsecutiveLosses)
  else (Some position, st).

Fixpoint exitLoop (params : Params.t) (currentData : Price.t)
         (ps : list Pos.t) (st : St.t) : list Pos.t * St.t :=
  match ps with
  | [] => ([], st)
  | p :: rest =>
      let '(rest', st1) := exitLoop params currentData rest st in
      match exitBody params currentData p st1 with
      | (None, st2) => (rest', st2)
      | (Some position, st2) => (position :: rest', st2)
      end
  end.

Definition exitStage (params : Params.t) (currentData : Price.t)
           (st : St.t) : St.t :=
  let '(ps, st') :=
    exitLoop params currentData (St.activePositions st) st in
  St.setActive st' ps.

(** The day loop: here the test for no capital and no positions sits after
    the exits, so the row at which it fires has its fees and exits
    processed but gets no entry and no equity point. *)
Fixpoint dayLoop (params : Params.t) (previousData : Price.t)
         (rows : list Price.t) (st : St.t) : St.t :=
  match rows with
  | [] => st
  | currentData :: rest =>
      let st2 :=
        exitStage params currentData
                  (feeStage params (Price.date currentData) st) in
      if exhausted st2 then st2
      else dayLoop params currentData rest
                   (equityStage currentData
                      (entryStage params previousData currentData st2))
  end.

Definition closeAtEnd (lastPrice : Q) (lastDate : string)
           (acc : Q * Q * list Trade.t * list Open.t) (position : Pos.t)
  : Q * Q * list Trade.t * list Open.t :=
  let '(currentCapital, totalProfitLoss, tradeHistory, openPositions) :=
    acc in
  let percentageChange :=
    (lastPrice - Pos.entryPrice position) / Pos.entryPrice position in
  let pnl := Pos.leveragedAmount position * percentageChange in
  let currentCapital := currentCapital + amountToReturn position pnl in
  (currentCapital,
   totalProfitLoss + pnl,
   tradeHistory
     ++ [tradeOf calculateDaysHeld position lastDate lastPrice pnl
                 currentCapital],
   openPositions
     ++ [Open.mk (Pos.entryDate position) (Pos.entryPrice position)
                 lastPrice (Pos.highestPrice position)
                 (Pos.baseAmount position) (Pos.leveragedAmount position)
                 pnl (Pos.accumulatedFees position)
                 (Pos.remainingCapitalAtEntry position)]).

Definition loopFinal (params : Params.t) (first : Price.t)
           (rest : list Price.t) : St.t :=
  dayLoop params first rest (initialState params).

(** [runSimulation] of the second component.  Its [calculateDrawdown]
    reads [equityCurve[0].equity] and throws when the curve is empty. *)
Definition runSimulation (params : Params.t)
           (goldPriceHistory : list Price.t) : Outcome :=
  if negb (validateParams params) then InvalidParameters
  else
    match goldPriceHistory with
    | [] => TypeError
    | first :: rest =>
        let st := loopFinal params first rest in
        let lastData := List.last goldPriceHistory first in
        let lastPrice := Price.currentPrice lastData in
        let lastDate := Price.date lastData in
        let '(currentCapital, totalProfitLoss, tradeHistory,
              openPositions) :=
          fold_left (closeAtEnd lastPrice lastDate) (St.activePositions st)
                    (St.currentCapital st, St.totalProfitLoss st,
                     St.tradeHistory st, []) in
        match calculateDrawdownPercent (St.equityCurve st) with
        | None => TypeError
        | Some maxDrawdown =>
            Completed
              (Results.mk currentCapital totalProfitLoss
                          (St.tradesExecuted st) (St.totalFees st)
                          (St.equityCurve st) tradeHistory
                          (successRateOf tradeHistory) maxDrawdown
                          (St.maxConsecutiveLosses st)
                          (totalProfitLoss / orOne (St.tradesExecuted st))
                          openPositions (St.skippedTrades st))
        end
    end.

End Simulation.

End Second.

(** ** The day loop over binary64

    JavaScript numbers are IEEE 754 binary64 values, and so are the
    kernel's primitive floats: [+], [-], [*] and [/] round to nearest (ties
    to even), a quotient by zero is an infinity or NaN, and every
    comparison with NaN is false.  This module repeats the helpers and the
    day loop of the first component over them, operation for operation and
    in the order the source performs them.  It is used where a statement
    depends on what a comparison decides, or on the last digits of a
    recorded value. *)

Module Binary64.

Local Open Scope float_scope.

(** [a >= b] and [a > b]; false when either side is NaN. *)
Definition geb (a b : float) : bool := b <=? a.
Definition gtb (a b : float) : bool := b <? a.

(** [Math.min]: NaN when either argument is NaN, and [-0] below [+0]. *)
Definition min (a b : float) : float :=
  if PrimFloat.is_nan a then a
  else if PrimFloat.is_nan b then b
  else if a <? b then a
  else if b <? a then b
  else if PrimFloat.get_sign a then a else b.

Module Price.
Record t := mk {
  currentPrice : float;
  openingPrice : float;
  highestPrice : float;
  lowestPrice : float;
  date : string
}.
End Price.

Module Params.
Record t := mk {
  investmentCapital : float;
  positionSizePercent : float;
  leverage : float;
  stopLossDollar : float;
  minPriceMovement : float;
  dailyFeePercent : float;
  useTrailingStop : bool
}.
End Params.

Module Pos.
Record t := mk {
  entryPrice : float;
  entryDate : string;
  highestPrice : float;
  baseAmount : float;
  leveragedAmount : float;
  accumulatedFees : float;
  lastFeeDate : string;
  remainingCapitalAtEntry : float
}.

Definition setHighestPrice (p : t) (h : float) : t :=
  mk (entryPrice p) (entryDate p) h (baseAmount p) (leveragedAmount p)
     (accumulatedFees p) (lastFeeDate p) (remainingCapitalAtEntry p).

Definition addFees (p : t) (f : float) : t :=
  mk (entryPrice p) (entryDate p) (highestPrice p) (baseAmount p)
     (leveragedAmount p) (accumulatedFees p + f) (lastFeeDate p)
     (remainingCapitalAtEntry p).

Definition setLastFeeDate (p : t) (d : string) : t :=
  mk (entryPrice p) (entryDate p) (highestPrice p) (baseAmount p)
     (leveragedAmount p) (accumulatedFees p) d (remainingCapitalAtEntry p).
End Pos.

Module Trade.
Record t := mk {
  entry : string;
  exit : string;
  entryPrice : float;
  exitPrice : float;
  highestPrice : float;
  baseAmount : float;
  leveragedAmount : float;
  pnl : float;
  fees : float;
  daysHeld : float;
  remainingCapital : float;
  capitalAtEntry : float
}.
End Trade.

Module Equity.
Record t := mk { date : string; equity : float }.
End Equity.

(** The local variables of [runSimulation] that the day loop mutates. *)
Module St.
Record t := mk {
  currentCapital : float;
  totalProfitLoss : float;
  tradesExecuted : nat;
  totalFees : float;
  consecutiveLosses : nat;
  maxConsecutiveLosses : nat;
  skippedTrades : nat;
  equityCurve : list Equity.t;
  tradeHistory : list Trade.t;
  activePositions : list Pos.t;
  currentDate : option string
}.

Definition setFees (s : t) (cap fees : float) (ps : list Pos.t) (d : string)
  : t :=
  mk cap (totalProfitLoss s) (tradesExecuted s) fees (consecutiveLosses s)
     (maxConsecutiveLosses s) (skippedTrades s) (equityCurve s)
     (tradeHistory s) ps (Some d).

Definition setActive (s : t) (ps : list Pos.t) : t :=
  mk (currentCapital s) (totalProfitLoss s) (tradesExecuted s) (totalFees s)
     (consecutiveLosses s) (maxConsecutiveLosses s) (skippedTrades s)
     (equityCurve s) (tradeHistory s) ps (currentDate s).

Definition closeTrade (s : t) (cap tpl : float) (tr : Trade.t)
           (cl mcl : nat) : t :=
  mk cap tpl (tradesExecuted s) (totalFees s) cl mcl (skippedTrades s)
     (equityCurve s) (tradeHistory s ++ [tr]) (activePositions s)
     (currentDate s).

Definition openTrade (s : t) (cap : float) (p : Pos.t) : t :=
  mk cap (totalProfitLoss s) (S (tradesExecuted s)) (totalFees s)
     (consecutiveLosses s) (maxConsecutiveLosses s) (skippedTrades s)
     (equityCurve s) (tradeHistory s) (activePositions s ++ [p])
     (currentDate s).

Definition skipTrade (s : t) : t :=
  mk (currentCapital s) (totalProfitLoss s) (tradesExecuted s) (totalFees s)
     (consecutiveLosses s) (maxConsecutiveLosses s) (S (skippedTrades s))
     (equityCurve s) (tradeHistory s) (activePositions s) (currentDate s).

Definition pushEquity (s : t) (e : Equity.t) : t :=
  mk (currentCapital s) (totalProfitLoss s) (tradesExecuted s) (totalFees s)
     (consecutiveLosses s) (maxConsecutiveLosses s) (skippedTrades s)
     (equityCurve s ++ [e]) (tradeHistory s) (activePositions s)
     (currentDate s).
End St.

Definition validateParams (params : Params.t) : bool :=
  if Params.investmentCapital params <=? 0 then false
  else if (Params.positionSizePercent params <=? 0)
          || gtb (Params.positionSizePercent params) 100 then false
  else if (Params.leverage params <=? 0)
          || gtb (Params.leverage params) 200 then false
  else if Params.stopLossDollar params <=? 0 then false
  else if Params.minPriceMovement params <? 0 then false
  else if Params.dailyFeePercent params <? 0 then false
  else true.

Definition shouldOpenPosition (currentPrice previousPrice threshold : float)
  : bool :=
  let priceMovement := ((currentPrice - previousPrice) / previousPrice) * 100 in
  geb priceMovement threshold.

Definition isStopLossTriggered
           (currentPrice highestPrice leveragedAmount stopLossAmount : float)
           (useTrailing : bool) : bool :=
  if negb useTrailing then false
  else
    let percentageDropFromHighest :=
      (highestPrice - currentPrice) / highestPrice in
    let dollarLoss := leveragedAmount * percentageDropFromHighest in
    geb dollarLoss stopLossAmount.

Definition calculateStopLossPrice
           (highestPrice leveragedAmount stopLossAmount : float) : float :=
  let percentageDrop := stopLossAmount / leveragedAmount in
  highestPrice * (1 - percentageDrop).

Fixpoint feeLoop (dailyFeePercent : float) (date : string) (ps : list Pos.t)
         (currentCapital totalFees : float) : list Pos.t * float * float :=
  match ps with
  | [] => ([], currentCapital, totalFees)
  | position :: rest =>
      if negb (String.eqb (Pos.lastFeeDate position) date) then
        let dailyFee := (dailyFeePercent / 100) * Pos.baseAmount position in
        if geb currentCapital dailyFee then
          let '(rest', capital', fees') :=
            feeLoop dailyFeePercent date rest
                    (currentCapital - dailyFee) (totalFees + dailyFee) in
          (Pos.setLastFeeDate (Pos.addFees position dailyFee) date :: rest',
           capital', fees')
        else
          let feePaid := currentCapital in
          (Pos.addFees position feePaid :: rest, 0, totalFees + feePaid)
      else
        let '(rest', capital', fees') :=
          feeLoop dailyFeePercent date rest currentCapital totalFees in
        (position :: rest', capital', fees')
  end.

Definition feeStage (params : Params.t) (date : string) (st : St.t) : St.t :=
  if dateChanged (St.currentDate st) date then
    let '(ps, capital, fees) :=
      feeLoop (Params.dailyFeePercent params) date (St.activePositions st)
              (St.currentCapital st) (St.totalFees st) in
    St.setFees st capital fees ps date
  else st.

Definition equityOf (currentPrice : float) (st : St.t) : float :=
  St.currentCapital st
  + fold_left
      (fun sum pos =>
         let unrealizedPnL :=
           Pos.leveragedAmount pos
           * ((currentPrice - Pos.entryPrice pos) / Pos.entryPrice pos) in
         sum + Pos.baseAmount pos + unrealizedPnL)
      (St.activePositions st) 0.

Definition equityStage (currentData : Price.t) (st : St.t) : St.t :=
  St.pushEquity st
    (Equity.mk (Price.date currentData)
               (equityOf (Price.currentPrice currentData) st)).

Definition newPosition (params : Params.t) (currentData : Price.t)
           (currentCapital : float) : Pos.t :=
  let baseAmount :=
    min ((Params.positionSizePercent params / 100) * currentCapital)
        currentCapital in
  let leveragedAmount := baseAmount * Params.leverage params in
  Pos.mk (Price.openingPrice currentData) (Price.date currentData)
         (Price.highestPrice currentData) baseAmount leveragedAmount 0
         (Price.date currentData) currentCapital.

Definition MIN_TRADING_CAPITAL : float := 100.

Definition entryStage (params : Params.t)
           (previousData currentData : Price.t) (st : St.t) : St.t :=
  if geb (St.currentCapital st) MIN_TRADING_CAPITAL then
    if shouldOpenPosition (Price.openingPrice currentData)
                          (Price.openingPrice previousData)
                          (Params.minPriceMovement params)
    then
      let p := newPosition params currentData (St.currentCapital st) in
      if geb (Pos.baseAmount p) 1
      then St.openTrade st (St.currentCapital st - Pos.baseAmount p) p
      else st
    else st
  else if shouldOpenPosition (Price.openingPrice currentData)
                             (Price.openingPrice previousData)
                             (Params.minPriceMovement params)
  then St.skipTrade st
  else st.

Definition initialState (params : Params.t) : St.t :=
  St.mk (Params.investmentCapital params) 0 0 0 0 0 0 [] [] [] None.

Definition exhausted (st : St.t) : bool :=
  (St.currentCapital st <=? 0)
  && (List.length (St.activePositions st) =? 0)%nat.

Section Simulation.

Variable calculateDaysHeld : string -> string -> float.

Definition updateHighest (currentData : Price.t) (p : Pos.t) : Pos.t :=
  if gtb (Price.highestPrice currentData) (Pos.highestPrice p)
  then Pos.setHighestPrice p (Price.highestPrice currentData)
  else p.

Definition tradeOf (position : Pos.t) (date : string)
           (exitPrice pnl currentCapital : float) : Trade.t :=
  Trade.mk (Pos.entryDate position) date (Pos.entryPrice position) exitPrice
           (Pos.highestPrice position) (Pos.baseAmount position)
           (Pos.leveragedAmount position) pnl (Pos.accumulatedFees position)
           (calculateDaysHeld (Pos.entryDate position) date)
           currentCapital (Pos.remainingCapitalAtEntry position).

Definition exitBody (params : Params.t) (currentData : Price.t)
           (p : Pos.t) (st : St.t) : option Pos.t * St.t :=
  let position := updateHighest currentData p in
  let stopLossTriggered :=
    isStopLossTriggered (Price.lowestPrice currentData)
                        (Pos.highestPrice position)
                        (Pos.leveragedAmount position)
                        (Params.stopLossDollar params)
                        (Params.useTrailingStop params) in
  if stopLossTriggered then
    let exitPrice :=
      calculateStopLossPrice (Pos.highestPrice position)
                             (Pos.leveragedAmount position)
                             (Params.stopLossDollar params) in
    let percentageChange :=
      (exitPrice - Pos.entryPrice position) / Pos.entryPrice position in
    let pnl := Pos.leveragedAmount position * percentageChange in
    let amountToReturn := Pos.baseAmount position + pnl in
    let currentCapital := St.currentCapital st + amountToReturn in
    let totalProfitLoss := St.totalProfitLoss st + pnl in
    let trade :=
      tradeOf position (Price.date currentData) exitPrice pnl
              currentCapital in
    let consecutiveLosses :=
      if pnl <? 0 then S (St.consecutiveLosses st) else 0%nat in
    let maxConsecutiveLosses :=
      if pnl <? 0
      then Nat.max (St.maxConsecutiveLosses st) consecutiveLosses
      else St.maxConsecutiveLosses st in
    (None,
     St.closeTrade st currentCapital totalProfitLoss trade
                   consecutiveLosses maxConsecutiveLosses)
  else (Some position, st).

Fixpoint exitLoop (params : Params.t) (currentData : Price.t)
         (ps : list Pos.t) (st : St.t) : list Pos.t * St.t :=
  match ps with
  | [] => ([], st)
  | p :: rest =>
      let '(rest', st1) := exitLoop params currentData rest st in
      match exitBody params currentData p st1 with
      | (None, st2) => (rest', st2)
      | (Some position, st2) => (position :: rest', st2)
      end
  end.

Definition exitStage (params : Params.t) (currentData : Price.t)
           (st : St.t) : St.t :=
  let '(ps, st') :=
    exitLoop params currentData (St.activePositions st) st in
  St.setActive st' ps.

Definition dayStep (params : Params.t) (previousData currentData : Price.t)
           (st : St.t) : St.t :=
  let st1 := feeStage params (Price.date currentData) st in
  let st2 := exitStage params currentData st1 in
  let st3 := entryStage params previousData currentData st2 in
  equityStage currentData st3.

Fixpoint dayLoop (params : Params.t) (previousData : Price.t)
         (rows : list Price.t) (st : St.t) : St.t :=
  match rows with
  | [] => st
  | currentData :: rest =>
      if exhausted st then st
      else dayLoop params currentData rest
                   (dayStep params previousData currentData st)
  end.

(** The state when the day loop is left. *)
Definition loopFinal (params : Params.t) (first : Price.t)
           (rest : list Price.t) : St.t :=
  dayLoop params first rest (initialState params).

End Simulation.

(** *** Concrete inputs *)

Definition noDays : string -> string -> float := fun _ _ => 0.

Definition priceRow (d : string) (o h l c : float) : Price.t :=
  Price.mk c o h l d.

(** The parameters the component starts with.  [0.3] and [0.1] are not
    binary64 values; JavaScript reads the literals as the nearest ones,
    which are the correctly rounded quotients [3 / 10] and [1 / 10]. *)
Definition defaultParams : Params.t :=
  Params.mk 10000 1 100 200 (3 / 10) (1 / 10) true.

Definition noTrailingParams : Params.t :=
  Params.mk 10000 1 100 200 (3 / 10) (1 / 10) false.

(** A position is opened on d1 at 100; the low of d2 is 90. *)
Definition crashSeries : list Price.t :=
  [priceRow "d0" 99 99 99 99;
   priceRow "d1" 100 100 100 100;
   priceRow "d2" 100 100 90 95].

(** A position is opened on d1 at 12, the day's high; the low of d2 is 11,
    and d3 is one more day.  Every row opens at a positive price that is
    not above its high. *)
Definition dipSeries : list Price.t :=
  [priceRow "d0" 11 11 11 11;
   priceRow "d1" 12 12 12 12;
   priceRow "d2" 12 12 11 11.5;
   priceRow "d3" 11.5 11.5 11.5 11.5].

(** All the capital goes into one position without leverage: exposure
    3300, entered on d1 at 22; the low of d2 is 19. *)
Definition boundaryParams : Params.t := Params.mk 3300 100 1 450 0 0 true.

Definition boundarySeries : list Price.t :=
  [priceRow "d0" 21 21 21 21;
   priceRow "d1" 22 22 22 22;
   priceRow "d2" 22 22 19 20].

(** Two positions are opened on d1 and d2. *)
Definition twoEntriesParams : Params.t := Params.mk 1000 50 10 1000 0 1 true.

(** The parameters of a form whose numeric fields are all empty. *)
Definition emptyForm : Params.t :=
  Params.mk PrimFloat.nan PrimFloat.nan PrimFloat.nan PrimFloat.nan
            PrimFloat.nan PrimFloat.nan true.

(** *** Predicates used in the statements *)

(** The stop test of the exit loop on a position whose high-water mark has
    been updated. *)
Definition triggered (params : Params.t) (currentData : Price.t)
           (q : Pos.t) : bool :=
  isStopLossTriggered (Price.lowestPrice currentData) (Pos.highestPrice q)
                      (Pos.leveragedAmount q) (Params.stopLossDollar params)
                      (Params.useTrailingStop params).

(** Ledger entry [t] records the stop exit, on [currentData], of the
    position whose updated form is [q].  The operations are those of the
    exit loop, in its order. *)
Definition stopExitOf (params : Params.t) (currentData : Price.t)
           (q : Pos.t) (t : Trade.t) : Prop :=
  Trade.entry t = Pos.entryDate q
  /\ Trade.exit t = Price.date currentData
  /\ Trade.entryPrice t = Pos.entryPrice q
  /\ Trade.exitPrice t
     = Pos.highestPrice q
       * (1 - Params.stopLossDollar params / Pos.leveragedAmount q)
  /\ Trade.pnl t
     = Pos.leveragedAmount q
       * ((Trade.exitPrice t - Pos.entryPrice q) / Pos.entryPrice q)
  /\ Trade.highestPrice t = Pos.highestPrice q
  /\ Trade.baseAmount t = Pos.baseAmount q
  /\ Trade.leveragedAmount t = Pos.leveragedAmount q
  /\ Trade.fees t = Pos.accumulatedFees q
  /\ Trade.capitalAtEntry t = Pos.remainingCapitalAtEntry q.

(** Cash after the closes of a list of ledger entries, in ledger order:
    each close adds [baseAmount + pnl]. *)
Definition cashAfter (closed : list Trade.t) (cash : float) : float :=
  fold_left (fun c t => c + (Trade.baseAmount t + Trade.pnl t)) closed cash.

(** The positions the entry code adds to [activePositions]: none or one. *)
Definition entered (params : Params.t) (previousData currentData : Price.t)
           (st : St.t) : list Pos.t :=
  if geb (St.currentCapital st) MIN_TRADING_CAPITAL
     && shouldOpenPosition (Price.openingPrice currentData)
                           (Price.openingPrice previousData)
                           (Params.minPriceMovement params)
     && geb (Pos.baseAmount
               (newPosition params currentData (St.currentCapital st))) 1
  then [newPosition params currentData (St.currentCapital st)]
  else [].

(** A record with one numeric field replaced. *)
Definition withCapital (r : Params.t) (x : float) : Params.t :=
  Params.mk x (Params.positionSizePercent r) (Params.leverage r)
            (Params.stopLossDollar r) (Params.minPriceMovement r)
            (Params.dailyFeePercent r) (Params.useTrailingStop r).

Definition withPositionSize (r : Params.t) (x : float) : Params.t :=
  Params.mk (Params.investmentCapital r) x (Params.leverage r)
            (Params.stopLossDollar r) (Params.minPriceMovement r)
            (Params.dailyFeePercent r) (Params.useTrailingStop r).

Definition withLeverage (r : Params.t) (x : float) : Params.t :=
  Params.mk (Params.investmentCapital r) (Params.positionSizePercent r) x
            (Params.stopLossDollar r) (Params.minPriceMovement r)
            (Params.dailyFeePercent r) (Params.useTrailingStop r).

Definition withStopLoss (r : Params.t) (x : float) : Params.t :=
  Params.mk (Params.investmentCapital r) (Params.positionSizePercent r)
            (Params.leverage r) x (Params.minPriceMovement r)
            (Params.dailyFeePercent r) (Params.useTrailingStop r).

Definition withPriceMovement (r : Params.t) (x : float) : Params.t :=
  Params.mk (Params.investmentCapital r) (Params.positionSizePercent r)
            (Params.leverage r) (Params.stopLossDollar r) x
            (Params.dailyFeePercent r) (Params.useTrailingStop r).

Definition withDailyFee (r : Params.t) (x : float) : Params.t :=
  Params.mk (Params.investmentCapital r) (Params.positionSizePercent r)
            (Params.leverage r) (Params.stopLossDollar r)
            (Params.minPriceMovement r) x (Params.useTrailingStop r).


(** The trigger condition as the specification writes it, evaluated from
    left to right: [stop <= exposure * (highest - low) / highest]. *)
Definition claimedTrigger (params : Params.t) (currentData : Price.t)
           (q : Pos.t) : bool :=
  Params.stopLossDollar params
  <=? Pos.leveragedAmount q
      * (Pos.highestPrice q - Price.lowestPrice currentData)
      / Pos.highestPrice q.

(** The P&L as the specification writes it, evaluated from left to right:
    [exposure * (exitPrice - entryPrice) / entryPrice]. *)
Definition claimedPnl (t : Trade.t) : float :=
  Trade.leveragedAmount t * (Trade.exitPrice t - Trade.entryPrice t)
  / Trade.entryPrice t.

(** "The entry rule is only evaluated when no position is open": with a
    position open, the entry code opens nothing. *)
Definition entryOnlyWhenFlat (params : Params.t)
           (previousData currentData : Price.t) (st : St.t) : Prop :=
  St.activePositions st <> [] ->
  entered params previousData currentData st = [].

(** A row whose open is a positive price, not above the day's high. *)
Definition plausibleRow (row : Price.t) : bool :=
  (0 <? Price.openingPrice row)
  && (Price.openingPrice row <=? Price.highestPrice row).

End Binary64.

(** ** Concrete inputs used below *)

(** A stand-in for [calculateDaysHeld] in concrete runs. *)
Definition noDays : string -> string -> Q := fun _ _ => 0.

(** A row from its date, open, high, low and close. *)
Definition priceRow (d : string) (o h l c : Q) : Price.t := Price.mk c o h l d.

(** The parameters the component starts with. *)
Definition defaultParams : Params.t := Params.mk 10000 1 100 200 0.3 0.1 true.

(** A run in which cash is overdrawn while a position is still open: two
    positions are opened on d1 and d2, the stop closes the first on d3 at a
    loss larger than the cash, and the fee of d4 is charged on the second. *)
Definition overdrawnParams : Params.t := Params.mk 1000 50 10 1000 0 1 true.

Definition overdrawnSeries : list Price.t :=
  [priceRow "d0" 100 100 100 100;
   priceRow "d1" 100 100 100 100;
   priceRow "d2" 100 100 100 100;
   priceRow "d3" 90 100 80 90;
   priceRow "d4" 90 90 90 90].

(** The default parameters with the trailing stop unticked. *)
Definition noTrailingParams : Params.t :=
  Params.mk 10000 1 100 200 0.3 0.1 false.

(** A position is opened on d1 at 100; the low of d2 is 90. *)
Definition crashSeries : list Price.t :=
  [priceRow "d0" 99 99 99 99;
   priceRow "d1" 100 100 100 100;
   priceRow "d2" 100 100 90 95].

(** A position is opened on the last row and closes below its entry. *)
Definition lateLossSeries : list Price.t :=
  [priceRow "d0" 100 100 100 100;
   priceRow "d1" 101 101 100.9 100.5].

(** A [TradeRecord] of utils.ts with the given [pnl]. *)
Definition recordWithPnl (x : Q) : Utils.TradeRecord :=
  Utils.mkTradeRecord "in" "out" (Utils.Fin x) "long" "0" (Utils.Fin 0)
                      (Utils.Fin 0) (Utils.Fin 0) (Utils.Fin 0).

(** A ledger entry of the component with the given [pnl]. *)
Definition tradeWithPnl (x : Q) : Trade.t :=
  Trade.mk "in" "out" 100 100 100 100 10000 x 0 0 0 0.

(** ** Predicates used in the statements *)

(** Two positions that differ at most in their fee bookkeeping. *)
Definition sameTrade (p q : Pos.t) : Prop :=
  Pos.entryPrice q = Pos.entryPrice p
  /\ Pos.entryDate q = Pos.entryDate p
  /\ Pos.highestPrice q = Pos.highestPrice p
  /\ Pos.baseAmount q = Pos.baseAmount p
  /\ Pos.leveragedAmount q = Pos.leveragedAmount p
  /\ Pos.remainingCapitalAtEntry q = Pos.remainingCapitalAtEntry p.

(** What identifies a position for its whole life, and the same columns of
    a ledger entry. *)
Definition keyOfPos (p : Pos.t) : string * Q * Q * Q * Q :=
  (Pos.entryDate p, Pos.entryPrice p, Pos.baseAmount p,
   Pos.leveragedAmount p, Pos.remainingCapitalAtEntry p).

Definition keyOfTrade (t : Trade.t) : string * Q * Q * Q * Q :=
  (Trade.entry t, Trade.entryPrice t, Trade.baseAmount t,
   Trade.leveragedAmount t, Trade.capitalAtEntry t).

(** The P&L formula shared by the stop exit and the final liquidation. *)
Definition realizedPnl (leveragedAmount exitPrice entryPrice : Q) : Q :=
  leveragedAmount * ((exitPrice - entryPrice) / entryPrice).

(** Ledger entry [t] records the stop exit of position [p] on
    [currentData]. *)
Definition stopExitOf (params : Params.t) (currentData : Price.t)
           (p : Pos.t) (t : Trade.t) : Prop :=
  let q := updateHighest currentData p in
  isStopLossTriggered (Price.lowestPrice currentData) (Pos.highestPrice q)
                      (Pos.leveragedAmount q)
                      (Params.stopLossDollar params)
                      (Params.useTrailingStop params) = true
  /\ Trade.exit t = Price.date currentData
  /\ Trade.exitPrice t
     = calculateStopLossPrice (Pos.highestPrice q) (Pos.leveragedAmount q)
                              (Params.stopLossDollar params)
  /\ Trade.pnl t
     = realizedPnl (Pos.leveragedAmount q) (Trade.exitPrice t)
                   (Pos.entryPrice q)
  /\ Trade.highestPrice t = Pos.highestPrice q
  /\ Trade.fees t = Pos.accumulatedFees p
  /\ keyOfTrade t = keyOfPos p.

(** Survivors of the exit loop are positions of the input, with their
    high-water mark updated. *)
Definition survivorOf (currentData : Price.t) (ps : list Pos.t)
           (q : Pos.t) : Prop :=
  exists p, In p ps /\ q = updateHighest currentData p.

(** The positions the entry code adds: none or one. *)
Definition entered (params : Params.t) (previousData currentData : Price.t)
           (st : St.t) : list Pos.t :=
  match entryDecision params previousData currentData st with
  | Some p => [p]
  | None => []
  end.

(** Cash plus the principal committed to open positions is the starting
    capital plus the realized P&L of the ledger minus the fees paid;
    [totalProfitLoss] is the P&L of the ledger. *)
Definition balanced (params : Params.t) (st : St.t) : Prop :=
  St.currentCapital st + sumBase (St.activePositions st)
  == Params.investmentCapital params + sumPnl (St.tradeHistory st)
     - St.totalFees st
  /\ St.totalProfitLoss st == sumPnl (St.tradeHistory st).

(** Ledger entry [t] records the liquidation of position [p] at the last
    price on the last date. *)
Definition liquidationOf (lastPrice : Q) (lastDate : string)
           (p : Pos.t) (t : Trade.t) : Prop :=
  Trade.exit t = lastDate
  /\ Trade.exitPrice t = lastPrice
  /\ Trade.pnl t
     = realizedPnl (Pos.leveragedAmount p) lastPrice (Pos.entryPrice p)
  /\ Trade.fees t = Pos.accumulatedFees p
  /\ keyOfTrade t = keyOfPos p.

(** The trailing-stop condition as the specification writes it, in exact
    arithmetic: the dollar loss of the exposure, measured from the
    high-water mark down to the day's low, reaches the stop. *)
Definition stopCondition (stopLossAmount leveragedAmount highest low : Q)
  : Prop :=
  stopLossAmount <= leveragedAmount * (highest - low) / highest.

(** The entry signal: the open rose by at least the threshold, in percent
    of the previous open. *)
Definition entrySignal (params : Params.t) (previousData currentData : Price.t)
  : Prop :=
  Params.minPriceMovement params
  <= (Price.openingPrice currentData - Price.openingPrice previousData)
     / Price.openingPrice previousData * 100.

(** Value of the open positions at price [close]: base amount plus
    unrealized P&L, summed. *)
Definition markToMarket (close : Q) (ps : list Pos.t) : Q :=
  fold_right
    (fun p acc =>
       (Pos.baseAmount p
        + Pos.leveragedAmount p * (close - Pos.entryPrice p)
          / Pos.entryPrice p) + acc)
    0 ps.

(** The equity point of a processed row, from the state after the row. *)
Definition pointOf (x : Price.t * St.t) : Equity.t :=
  Equity.mk (Price.date (fst x))
            (equityOf (Price.currentPrice (fst x)) (snd x)).

(** Ledger and open positions together, as keys. *)
Definition committed (st : St.t) : list (string * Q * Q * Q * Q) :=
  map keyOfTrade (St.tradeHistory st) ++ map keyOfPos (St.activePositions st).

(** A row whose open is a positive price, not above the day's high. *)
Definition plausibleRow (row : Price.t) : Prop :=
  0 < Price.openingPrice row
  /\ Price.openingPrice row <= Price.highestPrice row.



(** A run of consecutive elements of [l] that all satisfy [f]. *)
Definition isRunOf {A} (f : A -> bool) (l run : list A) : Prop :=
  (exists before after, l = before ++ run ++ after)
  /\ Forall (fun x => f x = true) run.

(** [n] is the length of the longest run of elements satisfying [f]. *)
Definition isLongestRun {A} (f : A -> bool) (l : list A) (n : nat) : Prop :=
  (exists run, isRunOf f l run /\ List.length run = n)
  /\ (forall run, isRunOf f l run -> (List.length run <= n)%nat).

(** The two-counter scan shared by [calculateMaxConsecutiveLosses] and the
    counters of [runSimulation]. *)
Fixpoint runFrom {A} (f : A -> bool) (best current : nat) (l : list A)
  : nat :=
  match l with
  | [] => best
  | x :: rest =>
      if f x then runFrom f (Nat.max best (S current)) (S current) rest
      else runFrom f best 0%nat rest
  end.

(** One update of the pair ([maxConsecutiveLosses], [consecutiveLosses]). *)
Definition lossStep (acc : nat * nat) (t : Trade.t) : nat * nat :=
  if Qltb (Trade.pnl t) 0
  then (Nat.max (fst acc) (S (snd acc)), S (snd acc))
  else (fst acc, 0%nat).

(** The counters of [runSimulation] are those of a scan of its ledger. *)
Definition tracksLosses (st : St.t) : Prop :=
  (St.maxConsecutiveLosses st, St.consecutiveLosses st)
  = fold_left lossStep (St.tradeHistory st) (0%nat, 0%nat).


(** Unrealized P&L of the open positions at price [close]. *)
Definition unrealized (close : Q) (ps : list Pos.t) : Q :=
  fold_right
    (fun p acc =>
       Pos.leveragedAmount p * (close - Pos.entryPrice p) / Pos.entryPrice p
       + acc)
    0 ps.

(** Number of rows of [rows] on which the entry signal fires, [previousData]
    being the row before the head. *)
Fixpoint signalCount (params : Params.t) (previousData : Price.t)
         (rows : list Price.t) : nat :=
  match rows with
  | [] => 0
  | currentData :: rest =>
      (if shouldOpenPosition (Price.openingPrice currentData)
                             (Price.openingPrice previousData)
                             (Params.minPriceMovement params)
       then 1 else 0)
      + signalCount params currentData rest
  end.

(** A state in which nothing was ever opened. *)
Definition idle (params : Params.t) (st : St.t) : Prop :=
  St.currentCapital st = Params.investmentCapital params
  /\ St.activePositions st = []
  /\ St.tradeHistory st = []
  /\ St.totalFees st = 0
  /\ St.totalProfitLoss st = 0
  /\ St.tradesExecuted st = 0%nat
  /\ St.maxConsecutiveLosses st = 0%nat.

(** What the entry code guarantees of a position, and the same of a ledger
    entry: cash at entry was at least the floor, the base amount is the
    configured share of it and at least 1, the exposure is the base amount
    times the leverage. *)
Definition sizedPos (params : Params.t) (p : Pos.t) : Prop :=
  MIN_TRADING_CAPITAL <= Pos.remainingCapitalAtEntry p
  /\ Pos.baseAmount p
     == Params.positionSizePercent params / 100
        * Pos.remainingCapitalAtEntry p
  /\ 1 <= Pos.baseAmount p
  /\ Pos.leveragedAmount p = Pos.baseAmount p * Params.leverage params.

Definition sizedTrade (params : Params.t) (t : Trade.t) : Prop :=
  MIN_TRADING_CAPITAL <= Trade.capitalAtEntry t
  /\ Trade.baseAmount t
     == Params.positionSizePercent params / 100 * Trade.capitalAtEntry t
  /\ 1 <= Trade.baseAmount t
  /\ Trade.leveragedAmount t = Trade.baseAmount t * Params.leverage params.

(** Finite parameters of utils.ts with the given position size and
    leverage. *)
Definition riskParams (positionSize leverage : Q) : Utils.SimulationParams :=
  Utils.mkSimulationParams
    (Utils.Fin 10000) (Utils.Fin positionSize) (Utils.Fin leverage)
    (Utils.Fin 100) (Utils.Fin 400) (Utils.Fin 0.5) (Utils.Fin 5)
    (Utils.Fin 500) (Utils.Fin 48) true.

(** The bounds [validateParams] checks. *)
Definition acceptable (params : Params.t) : Prop :=
  0 < Params.investmentCapital params
  /\ 0 < Params.positionSizePercent params
  /\ Params.positionSizePercent params <= 100
  /\ 0 < Params.leverage params
  /\ Params.leverage params <= 200
  /\ 0 < Params.stopLossDollar params
  /\ 0 <= Params.minPriceMovement params
  /\ 0 <= Params.dailyFeePercent params.

(** Nothing in the state is below zero: cash, fees paid, the base amounts
    of the open positions and the equity points. *)
Definition nonNegative (st : St.t) : Prop :=
  0 <= St.currentCapital st
  /\ 0 <= St.totalFees st
  /\ Forall (fun p => 0 <= Pos.baseAmount p) (St.activePositions st)
  /\ Forall (fun e => 0 <= Equity.equity e) (St.equityCurve st).

(** An equity point of the component as an equity point of utils.ts. *)
Definition finitePoint (e : Equity.t) : Utils.EquityPoint :=
  Utils.mkEquityPoint (Equity.date e) (Utils.Fin (Equity.equity e)).

(** ** Properties *)

(** *** Comparisons *)

Lemma Qgeb_true a b : Qgeb a b = true <-> b <= a.
Proof. unfold Qgeb. apply Qle_bool_iff. Qed.

Lemma Qgeb_false a b : Qgeb a b = false <-> a < b.
Proof.
  unfold Qgeb. rewrite <- not_true_iff_false, Qle_bool_iff.
  split; intro H; [apply Qnot_le_lt | apply Qlt_not_le]; exact H.
Qed.

Lemma Qltb_true a b : Qltb a b = true <-> a < b.
Proof. unfold Qltb. rewrite negb_true_iff. apply (Qgeb_false a b). Qed.

Lemma Qltb_false a b : Qltb a b = false <-> b <= a.
Proof. unfold Qltb. rewrite negb_false_iff. apply Qle_bool_iff. Qed.

Lemma Qgtb_true a b : Qgtb a b = true <-> b < a.
Proof. unfold Qgtb. rewrite negb_true_iff. apply (Qgeb_false b a). Qed.

Lemma Qgtb_false a b : Qgtb a b = false <-> a <= b.
Proof. unfold Qgtb. rewrite negb_false_iff. apply Qle_bool_iff. Qed.

(** What [validateParams] accepts. *)
Lemma validateParams_true params :
  validateParams params = true ->
  0 < Params.investmentCapital params
  /\ 0 < Params.positionSizePercent params <= 100
  /\ 0 < Params.leverage params <= 200
  /\ 0 < Params.stopLossDollar params
  /\ 0 <= Params.minPriceMovement params
  /\ 0 <= Params.dailyFeePercent params.
Proof.
  unfold validateParams.
  destruct (Qleb (Params.investmentCapital params) 0) eqn:E1; [discriminate|].
  destruct (Qleb (Params.positionSizePercent params) 0) eqn:E2; [discriminate|].
  destruct (Qgtb (Params.positionSizePercent params) 100) eqn:E3;
    [discriminate|].
  destruct (Qleb (Params.leverage params) 0) eqn:E4; [discriminate|].
  destruct (Qgtb (Params.leverage params) 200) eqn:E5; [discriminate|].
  destruct (Qleb (Params.stopLossDollar params) 0) eqn:E6; [discriminate|].
  destruct (Qltb (Params.minPriceMovement params) 0) eqn:E7; [discriminate|].
  destruct (Qltb (Params.dailyFeePercent params) 0) eqn:E8; [discriminate|].
  intros _. simpl.
  apply (Qgeb_false 0) in E1. apply (Qgeb_false 0) in E2.
  apply Qgtb_false in E3. apply (Qgeb_false 0) in E4.
  apply Qgtb_false in E5. apply (Qgeb_false 0) in E6.
  apply Qltb_false in E7. apply Qltb_false in E8.
  repeat split; assumption.
Qed.

(** *** Sums over positions and ledgers *)

Lemma sumBase_app ps qs : sumBase (ps ++ qs) == sumBase ps + sumBase qs.
Proof.
  induction ps as [|p ps IH]; simpl.
  - lra.
  - rewrite IH. lra.
Qed.

Lemma sumPnl_app ts us : sumPnl (ts ++ us) == sumPnl ts + sumPnl us.
Proof.
  induction ts as [|t ts IH]; simpl.
  - lra.
  - rewrite IH. lra.
Qed.

Lemma sameTrade_refl p : sameTrade p p.
Proof. repeat split. Qed.

Lemma sameTrade_sumBase ps qs :
  Forall2 sameTrade ps qs -> sumBase qs = sumBase ps.
Proof.
  induction 1 as [|p q ps qs Hpq _ IH]; simpl; [reflexivity|].
  destruct Hpq as (_ & _ & _ & Hb & _). rewrite Hb, IH. reflexivity.
Qed.

Lemma Forall2_sameTrade_refl ps : Forall2 sameTrade ps ps.
Proof. induction ps; constructor; auto using sameTrade_refl. Qed.

(** *** The fee loop *)

(** The fee loop moves money from cash to [totalFees] and touches nothing
    of a position but its fee bookkeeping. *)
Lemma feeLoop_spec pct date ps :
  forall capital fees ps' capital' fees',
    feeLoop pct date ps capital fees = (ps', capital', fees') ->
    capital' + fees' == capital + fees /\ Forall2 sameTrade ps ps'.
Proof.
  induction ps as [|p ps IH]; simpl; intros capital fees ps' capital' fees' H.
  - inversion H; subst. split; [lra | constructor].
  - destruct (negb (String.eqb (Pos.lastFeeDate p) date)).
    + destruct (Qgeb capital (pct / 100 * Pos.baseAmount p)).
      * destruct (feeLoop pct date ps _ _) as [[r c] f] eqn:E.
        inversion H; subst. apply IH in E as [E1 E2].
        split; [lra | constructor; [repeat split | exact E2]].
      * inversion H; subst.
        split; [lra | constructor;
                      [repeat split | apply Forall2_sameTrade_refl]].
    + destruct (feeLoop pct date ps _ _) as [[r c] f] eqn:E.
      inversion H; subst. apply IH in E as [E1 E2].
      split; [lra | constructor; [apply sameTrade_refl | exact E2]].
Qed.

(** *** The exit loop *)

Section Properties.

Variable daysHeld : string -> string -> Q.

Lemma updateHighest_sameKey currentData p :
  keyOfPos (updateHighest currentData p) = keyOfPos p
  /\ Pos.baseAmount (updateHighest currentData p) = Pos.baseAmount p
  /\ Pos.entryPrice (updateHighest currentData p) = Pos.entryPrice p
  /\ Pos.leveragedAmount (updateHighest currentData p)
     = Pos.leveragedAmount p
  /\ Pos.highestPrice p <= Pos.highestPrice (updateHighest currentData p).
Proof.
  unfold updateHighest.
  destruct (Qgtb (Price.highestPrice currentData) (Pos.highestPrice p))
    eqn:E; simpl; repeat split; try apply Qle_refl.
  apply Qgtb_true in E. apply Qlt_le_weak, E.
Qed.

(** The two outcomes of the loop body. *)
Lemma exitBody_cases params currentData p st :
  let q := updateHighest currentData p in
  (exitBody daysHeld params currentData p st = (Some q, st)
   /\ isStopLossTriggered (Price.lowestPrice currentData)
        (Pos.highestPrice q) (Pos.leveragedAmount q)
        (Params.stopLossDollar params) (Params.useTrailingStop params)
      = false)
  \/ (exists t cl mcl,
        exitBody daysHeld params currentData p st
        = (None,
           St.closeTrade st
             (St.currentCapital st + (Pos.baseAmount p + Trade.pnl t))
             (St.totalProfitLoss st + Trade.pnl t) t cl mcl)
        /\ stopExitOf params currentData p t
        /\ Trade.remainingCapital t
           = St.currentCapital st + (Pos.baseAmount p + Trade.pnl t)).
Proof.
  intro q. unfold exitBody. fold q.
  destruct (isStopLossTriggered _ _ _ _ _) eqn:E.
  - right.
    destruct (updateHighest_sameKey currentData p) as (_ & Hbase & _).
    fold q in Hbase.
    set (exitPrice :=
           calculateStopLossPrice (Pos.highestPrice q)
             (Pos.leveragedAmount q) (Params.stopLossDollar params)).
    set (pnl := Pos.leveragedAmount q
                * ((exitPrice - Pos.entryPrice q) / Pos.entryPrice q)).
    exists (tradeOf daysHeld q (Price.date currentData) exitPrice pnl
                    (St.currentCapital st + (Pos.baseAmount q + pnl))).
    eexists _, _. split; [|split].
    + simpl. rewrite Hbase. reflexivity.
    + unfold stopExitOf. fold q. simpl.
      destruct (updateHighest_sameKey currentData p) as (Hk & _).
      fold q in Hk. unfold keyOfPos in Hk. injection Hk as H1 H2 H3 H4 H5.
      repeat split; try assumption.
      * unfold updateHighest in q. subst q.
        destruct (Qgtb _ _); reflexivity.
      * unfold keyOfTrade, keyOfPos; simpl. congruence.
    + simpl. destruct (updateHighest_sameKey currentData p) as (_ & Hb & _).
      fold q in Hb. rewrite Hb. reflexivity.
  - left. split; reflexivity.
Qed.

Lemma exitLoop_spec params currentData ps :
  forall st ps' st',
    exitLoop daysHeld params currentData ps st = (ps', st') ->
    exists closed,
      St.tradeHistory st' = St.tradeHistory st ++ closed
      /\ St.currentCapital st' + sumBase ps'
         == St.currentCapital st + sumBase ps + sumPnl closed
      /\ St.totalProfitLoss st'
         == St.totalProfitLoss st + sumPnl closed
      /\ Permutation (map keyOfPos ps)
                     (map keyOfPos ps' ++ map keyOfTrade closed)
      /\ Forall (fun t => exists p,
                     In p ps /\ stopExitOf params currentData p t) closed
      /\ Forall (survivorOf currentData ps) ps'
      /\ St.totalFees st' = St.totalFees st
      /\ St.tradesExecuted st' = St.tradesExecuted st
      /\ St.skippedTrades st' = St.skippedTrades st
      /\ St.equityCurve st' = St.equityCurve st
      /\ St.currentDate st' = St.currentDate st.
Proof.
  induction ps as [|p ps IH]; simpl; intros st ps' st' H.
  - inversion H; subst. exists []. rewrite app_nil_r. simpl.
    repeat split; auto; lra.
  - destruct (exitLoop daysHeld params currentData ps st) as [rest' st1]
      eqn:E.
    destruct (IH _ _ _ E)
      as (closed & Hth & Hcap & Htpl & Hperm & Hcl & Hsv & Hf & Hn & Hs
          & He & Hd).
    assert (Hcl' : Forall (fun t => exists p0, In p0 (p :: ps)
                               /\ stopExitOf params currentData p0 t)
                          closed).
    { eapply Forall_impl; [|exact Hcl]. intros t (p0 & Hin & Hx).
      exists p0. split; [right; exact Hin | exact Hx]. }
    assert (Hsv' : Forall (survivorOf currentData (p :: ps)) rest').
    { eapply Forall_impl; [|exact Hsv]. intros q (p0 & Hin & Hq).
      exists p0. split; [right; exact Hin | exact Hq]. }
    destruct (exitBody_cases params currentData p st1)
      as [[Hb Htrig] | (t & cl & mcl & Hb & Hx & Hrc)];
      rewrite Hb in H; inversion H; subst; clear H.
    + exists closed.
      destruct (updateHighest_sameKey currentData p) as (Hk & Hbase & _).
      simpl. rewrite Hk, Hbase.
      repeat split; auto.
      * lra.
      * constructor; [exists p; split; [left|]; reflexivity | exact Hsv'].
    + exists (closed ++ [t]). simpl.
      repeat split; auto.
      * rewrite Hth, app_assoc. reflexivity.
      * rewrite sumPnl_app. simpl. lra.
      * rewrite sumPnl_app. simpl. lra.
      * rewrite map_app. simpl.
        destruct Hx as (_ & _ & _ & _ & _ & _ & Hk). rewrite Hk.
        rewrite app_assoc. apply Permutation_cons_app.
        rewrite app_nil_r. exact Hperm.
      * apply Forall_app. split; [exact Hcl'|].
        constructor; [|constructor].
        exists p. split; [left; reflexivity | exact Hx].
Qed.

(** *** The stages of one day *)

Lemma feeStage_spec params date st :
  let st' := feeStage params date st in
  St.currentCapital st' + St.totalFees st'
  == St.currentCapital st + St.totalFees st
  /\ Forall2 sameTrade (St.activePositions st) (St.activePositions st')
  /\ St.tradeHistory st' = St.tradeHistory st
  /\ St.totalProfitLoss st' = St.totalProfitLoss st
  /\ St.tradesExecuted st' = St.tradesExecuted st
  /\ St.skippedTrades st' = St.skippedTrades st
  /\ St.equityCurve st' = St.equityCurve st.
Proof.
  unfold feeStage. destruct (dateChanged (St.currentDate st) date).
  - destruct (feeLoop _ _ _ _ _) as [[ps c] f] eqn:E.
    apply feeLoop_spec in E as [E1 E2]. simpl. repeat split; auto.
  - simpl. repeat split; auto using Forall2_sameTrade_refl.
Qed.

Lemma exitStage_spec params currentData st :
  let st' := exitStage daysHeld params currentData st in
  exists closed,
    St.tradeHistory st' = St.tradeHistory st ++ closed
    /\ St.currentCapital st' + sumBase (St.activePositions st')
       == St.currentCapital st + sumBase (St.activePositions st)
          + sumPnl closed
    /\ St.totalProfitLoss st' == St.totalProfitLoss st + sumPnl closed
    /\ Permutation (map keyOfPos (St.activePositions st))
         (map keyOfPos (St.activePositions st') ++ map keyOfTrade closed)
    /\ Forall (fun t => exists p, In p (St.activePositions st)
                          /\ stopExitOf params currentData p t) closed
    /\ Forall (survivorOf currentData (St.activePositions st))
              (St.activePositions st')
    /\ St.totalFees st' = St.totalFees st
    /\ St.tradesExecuted st' = St.tradesExecuted st
    /\ St.skippedTrades st' = St.skippedTrades st
    /\ St.equityCurve st' = St.equityCurve st
    /\ St.currentDate st' = St.currentDate st.
Proof.
  unfold exitStage.
  destruct (exitLoop daysHeld params currentData (St.activePositions st) st)
    as [ps st1] eqn:E.
  apply exitLoop_spec in E. simpl. exact E.
Qed.

Lemma entryStage_spec params previousData currentData st :
  let st' := entryStage params previousData currentData st in
  let new := entered params previousData currentData st in
  St.activePositions st' = St.activePositions st ++ new
  /\ St.currentCapital st' == St.currentCapital st - sumBase new
  /\ St.tradesExecuted st' = (St.tradesExecuted st + List.length new)%nat
  /\ St.tradeHistory st' = St.tradeHistory st
  /\ St.totalProfitLoss st' = St.totalProfitLoss st
  /\ St.totalFees st' = St.totalFees st
  /\ St.equityCurve st' = St.equityCurve st.
Proof.
  unfold entryStage, entered, entryDecision.
  destruct (Qgeb (St.currentCapital st) MIN_TRADING_CAPITAL).
  - destruct (shouldOpenPosition _ _ _).
    + destruct (Qgeb (Pos.baseAmount _) 1); simpl;
        rewrite ?app_nil_r, ?Nat.add_0_r, ?Nat.add_1_r;
        repeat split; auto; lra.
    + simpl. rewrite app_nil_r, Nat.add_0_r. repeat split; auto; lra.
  - destruct (shouldOpenPosition _ _ _); simpl;
      rewrite app_nil_r, Nat.add_0_r; repeat split; auto; lra.
Qed.

(** *** The accounting invariant of the day loop *)

Lemma balanced_initial params : balanced params (initialState params).
Proof. unfold balanced; simpl. split; lra. Qed.

Lemma dayStep_balanced params previousData currentData st :
  balanced params st ->
  balanced params (dayStep daysHeld params previousData currentData st).
Proof.
  intros [Hw Hp]. unfold dayStep.
  set (st1 := feeStage params (Price.date currentData) st).
  set (st2 := exitStage daysHeld params currentData st1).
  set (st3 := entryStage params previousData currentData st2).
  destruct (feeStage_spec params (Price.date currentData) st)
    as (F1 & F2 & F3 & F4 & _). fold st1 in F1, F2, F3, F4.
  destruct (exitStage_spec params currentData st1)
    as (closed & X1 & X2 & X3 & _ & _ & _ & X4 & _).
  fold st2 in X1, X2, X3, X4.
  destruct (entryStage_spec params previousData currentData st2)
    as (N1 & N2 & _ & N3 & N4 & N5 & _).
  fold st3 in N1, N2, N3, N4, N5.
  apply sameTrade_sumBase in F2.
  unfold balanced, equityStage. simpl.
  rewrite N1, N3, N4, N5, X1, X4, F3, sumBase_app, sumPnl_app.
  rewrite F2, F4 in *. split; lra.
Qed.

(** An invariant of the day loop holds when the loop is left. *)
Lemma dayLoop_invariant (I : St.t -> Prop) (P : Price.t -> Prop) params :
  (forall previousData currentData st,
      P currentData -> I st ->
      I (dayStep daysHeld params previousData currentData st)) ->
  forall rows previousData st,
    Forall P rows -> I st ->
    I (dayLoop daysHeld params previousData rows st).
Proof.
  intros Hstep. induction rows as [|r rows IH]; simpl; intros prev st HP Hi.
  - exact Hi.
  - destruct (exhausted st); [exact Hi|].
    inversion HP; subst. apply IH; auto.
Qed.

Lemma Forall_True (rows : list Price.t) : Forall (fun _ => True) rows.
Proof. induction rows; constructor; auto. Qed.

(** *** The final liquidation *)

Lemma closeAtEnd_spec lastPrice lastDate ps :
  forall capital tpl th ops capital' tpl' th' ops',
    fold_left (closeAtEnd daysHeld lastPrice lastDate) ps
              (capital, tpl, th, ops) = (capital', tpl', th', ops') ->
    exists closed,
      th' = th ++ closed
      /\ capital' == capital + sumBase ps + sumPnl closed
      /\ tpl' == tpl + sumPnl closed
      /\ Forall2 (liquidationOf lastPrice lastDate) ps closed
      /\ List.length ops' = (List.length ops + List.length ps)%nat.
Proof.
  induction ps as [|p ps IH]; simpl;
    intros capital tpl th ops capital' tpl' th' ops' H.
  - inversion H; subst. exists []. rewrite app_nil_r, Nat.add_0_r. simpl.
    repeat split; auto; try lra.
  - apply IH in H as (closed & H1 & H2 & H3 & H4 & H5).
    rewrite length_app in H5. simpl in H5.
    rewrite <- app_assoc in H1. simpl in H1.
    eexists (_ :: closed).
    split; [exact H1|].
    split; [simpl; lra|].
    split; [simpl; lra|].
    split; [|lia].
    constructor; [|exact H4]. repeat split.
Qed.

(** *** The whole run *)

(** With accepted parameters and a non-empty series the run completes;
    its result is the state at the end of the day loop, with the open
    positions liquidated at the last row. *)
Lemma runSimulation_spec params first rest :
  validateParams params = true ->
  let st := loopFinal daysHeld params first rest in
  let lastData := List.last (first :: rest) first in
  exists r closed,
    runSimulation daysHeld params (first :: rest) = Completed r
    /\ Results.tradeHistory r = St.tradeHistory st ++ closed
    /\ Results.finalCapital r
       == St.currentCapital st + sumBase (St.activePositions st)
          + sumPnl closed
    /\ Results.totalProfitLoss r == St.totalProfitLoss st + sumPnl closed
    /\ Forall2 (liquidationOf (Price.currentPrice lastData)
                              (Price.date lastData))
               (St.activePositions st) closed
    /\ Results.totalTrades r = St.tradesExecuted st
    /\ Results.totalFees r = St.totalFees st
    /\ Results.equityCurve r = St.equityCurve st
    /\ Results.maxConsecutiveLosses r = St.maxConsecutiveLosses st
    /\ Results.skippedTrades r = St.skippedTrades st
    /\ List.length (Results.openPositions r)
       = List.length (St.activePositions st)
    /\ Results.successRate r = successRateOf (Results.tradeHistory r).
Proof.
  intros Hv st lastData. unfold runSimulation. rewrite Hv. simpl negb.
  cbv iota. fold st. fold lastData.
  destruct (fold_left _ _ _) as [[[c t] th] ops] eqn:E.
  apply closeAtEnd_spec in E as (closed & H1 & H2 & H3 & H4 & H5).
  exists (Results.mk c t (St.tradesExecuted st) (St.totalFees st)
                     (St.equityCurve st) th (successRateOf th)
                     (calculateDrawdown (St.equityCurve st))
                     (St.maxConsecutiveLosses st)
                     (t / orOne (St.tradesExecuted st)) ops
                     (St.skippedTrades st)), closed.
  simpl. repeat split; auto.
Qed.

Lemma loopFinal_balanced params first rest :
  balanced params (loopFinal daysHeld params first rest).
Proof.
  unfold loopFinal.
  apply (dayLoop_invariant (balanced params) (fun _ => True)).
  - intros prev cur st _. apply dayStep_balanced.
  - apply Forall_True.
  - apply balanced_initial.
Qed.

(** C1.  For accepted parameters and a non-empty price series the run
    completes, and its final capital is the starting capital plus the sum
    of [pnl] over the final trade ledger minus the total fees: a fee is
    taken from cash once, when it accrues, and a close returns
    [baseAmount + pnl] without taking it again.  [totalProfitLoss] is
    that same sum of [pnl].  (Exact arithmetic stands for "up to
    floating-point tolerance".) *)
Theorem final_capital_accounting params goldPriceHistory :
  validateParams params = true ->
  goldPriceHistory <> [] ->
  exists r,
    runSimulation daysHeld params goldPriceHistory = Completed r
    /\ Results.finalCapital r
       == Params.investmentCapital params
          + sumPnl (Results.tradeHistory r) - Results.totalFees r
    /\ Results.totalProfitLoss r == sumPnl (Results.tradeHistory r).
Proof.
  intros Hv Hne. destruct goldPriceHistory as [|first rest]; [congruence|].
  destruct (runSimulation_spec params first rest Hv)
    as (r & closed & Hr & Hth & Hcap & Htpl & _ & _ & Hfees & _).
  destruct (loopFinal_balanced params first rest) as [Hw Hp].
  exists r. split; [exact Hr|].
  rewrite Hth, Hfees, sumPnl_app. split; lra.
Qed.

Lemma Qmul_div_assoc a b c : a * b / c == a * (b / c).
Proof. unfold Qdiv. ring. Qed.

(** *** Every opened position reaches the ledger *)

Lemma sameTrade_keys ps qs :
  Forall2 sameTrade ps qs -> map keyOfPos qs = map keyOfPos ps.
Proof.
  induction 1 as [|p q ps qs Hpq _ IH]; simpl; [reflexivity|].
  destruct Hpq as (H1 & H2 & _ & H3 & H4 & H5).
  unfold keyOfPos at 1. rewrite H1, H2, H3, H4, H5, IH. reflexivity.
Qed.

Lemma liquidation_keys lastPrice lastDate ps closed :
  Forall2 (liquidationOf lastPrice lastDate) ps closed ->
  map keyOfTrade closed = map keyOfPos ps.
Proof.
  induction 1 as [|p t ps closed Hpt _ IH]; simpl; [reflexivity|].
  destruct Hpt as (_ & _ & _ & _ & Hk). rewrite Hk, IH. reflexivity.
Qed.

Lemma dayStep_committed params previousData currentData st :
  let st2 :=
    exitStage daysHeld params currentData
              (feeStage params (Price.date currentData) st) in
  let new := entered params previousData currentData st2 in
  let st' := dayStep daysHeld params previousData currentData st in
  Permutation (committed st') (committed st ++ map keyOfPos new)
  /\ St.tradesExecuted st' = (St.tradesExecuted st + List.length new)%nat.
Proof.
  intros st2 new st'. unfold st', dayStep. fold st2.
  set (st1 := feeStage params (Price.date currentData) st) in *.
  destruct (feeStage_spec params (Price.date currentData) st)
    as (_ & F2 & F3 & _ & F5 & _). fold st1 in F2, F3, F5.
  destruct (exitStage_spec params currentData st1)
    as (closed & X1 & _ & _ & X4 & _ & _ & _ & X8 & _).
  fold st2 in X1, X4, X8.
  destruct (entryStage_spec params previousData currentData st2)
    as (N1 & _ & N3 & N4 & _). fold new in N1, N3.
  apply sameTrade_keys in F2.
  unfold committed, equityStage. simpl.
  rewrite N1, N3, N4, X1, X8, F3, F5, !map_app. split; [|reflexivity].
  rewrite F2 in X4. rewrite <- !app_assoc.
  apply Permutation_app_head. rewrite app_assoc.
  apply Permutation_app_tail.
  rewrite X4. apply Permutation_app_comm.
Qed.

Lemma dayLoop_committed params rows :
  forall previousData st,
    let st' := dayLoop daysHeld params previousData rows st in
    let opened := openedPositions daysHeld params previousData rows st in
    Permutation (committed st') (committed st ++ map keyOfPos opened)
    /\ St.tradesExecuted st'
       = (St.tradesExecuted st + List.length opened)%nat.
Proof.
  induction rows as [|r rows IH]; simpl; intros prev st.
  - rewrite app_nil_r, Nat.add_0_r. split; reflexivity.
  - destruct (exhausted st).
    + simpl. rewrite app_nil_r, Nat.add_0_r. split; reflexivity.
    + destruct (IH r (dayStep daysHeld params prev r st)) as [P1 C1].
      destruct (dayStep_committed params prev r st) as [P2 C2].
      fold (entered params prev r
              (exitStage daysHeld params r
                 (feeStage params (Price.date r) st))).
      rewrite map_app, length_app. split.
      * rewrite P1, P2, <- app_assoc. reflexivity.
      * rewrite C1, C2. lia.
Qed.

(** C3.  When the price series is exhausted every position still open is
    closed at the last row's price and date with the P&L formula of the
    stop exit, and appended to the ledger.  So the final ledger holds,
    once each, exactly the positions the run opened (compared by entry
    date, entry price, base amount, exposure and capital at entry), and
    its length is the executed-trade count. *)
Theorem every_position_in_ledger params first rest :
  validateParams params = true ->
  let st := loopFinal daysHeld params first rest in
  let lastData := List.last (first :: rest) first in
  exists r closed,
    runSimulation daysHeld params (first :: rest) = Completed r
    /\ Results.tradeHistory r = St.tradeHistory st ++ closed
    /\ Forall2
         (fun p t =>
            Trade.exit t = Price.date lastData
            /\ Trade.exitPrice t = Price.currentPrice lastData
            /\ Trade.pnl t
               = realizedPnl (Pos.leveragedAmount p)
                             (Price.currentPrice lastData)
                             (Pos.entryPrice p)
            /\ keyOfTrade t = keyOfPos p)
         (St.activePositions st) closed
    /\ Permutation
         (map keyOfTrade (Results.tradeHistory r))
         (map keyOfPos
              (openedPositions daysHeld params first rest
                               (initialState params)))
    /\ List.length (Results.tradeHistory r) = Results.totalTrades r.
Proof.
  intros Hv st lastData.
  destruct (runSimulation_spec params first rest Hv)
    as (r & closed & Hr & Hth & _ & _ & Hliq & Hn & _).
  fold st in Hth, Hliq, Hn. fold lastData in Hliq.
  exists r, closed. split; [exact Hr|]. split; [exact Hth|].
  destruct (dayLoop_committed params rest first (initialState params))
    as [HP HC].
  fold (loopFinal daysHeld params first rest) in HP, HC. fold st in HP, HC.
  unfold committed in HP. simpl in HP, HC.
  pose proof (liquidation_keys _ _ _ _ Hliq) as Hk.
  split; [|split].
  - eapply Forall2_impl; [|exact Hliq].
    intros p t (H1 & H2 & H3 & _ & H5). repeat split; assumption.
  - rewrite Hth, map_app, Hk. exact HP.
  - rewrite Hn, HC. apply Permutation_length in HP.
    rewrite length_app, !length_map in HP.
    rewrite Hth, length_app, <- (length_map keyOfTrade closed), Hk,
      length_map.
    exact HP.
Qed.

(** *** Entry and sizing *)

Lemma shouldOpenPosition_signal params previousData currentData :
  shouldOpenPosition (Price.openingPrice currentData)
                     (Price.openingPrice previousData)
                     (Params.minPriceMovement params) = true
  <-> entrySignal params previousData currentData.
Proof. unfold shouldOpenPosition, entrySignal. apply Qgeb_true. Qed.

(** C6.  When an entry signal is acted on (cash at least 100),
    [baseAmount] is the smaller of [positionSizePercent / 100 * cash] and
    the cash.  Below 1 the signal is dropped: no position is opened and
    nothing changes.  Otherwise the position is opened at the day's open
    with [leveragedAmount = baseAmount * leverage], [baseAmount] leaves
    cash at once and the trade counter goes up by one.  The amount comes
    back with a close: a stop exit and the final liquidation both add
    [baseAmount + pnl] to cash, and a day on which the stop does not
    trigger leaves cash alone. *)
Theorem position_sizing params previousData currentData st :
  entrySignal params previousData currentData ->
  MIN_TRADING_CAPITAL <= St.currentCapital st ->
  let cash := St.currentCapital st in
  let baseAmount :=
    Qmin (Params.positionSizePercent params / 100 * cash) cash in
  let st' := entryStage params previousData currentData st in
  (baseAmount < 1 -> st' = st)
  /\ (1 <= baseAmount ->
      exists p,
        St.activePositions st' = St.activePositions st ++ [p]
        /\ Pos.baseAmount p = baseAmount
        /\ Pos.leveragedAmount p = baseAmount * Params.leverage params
        /\ Pos.entryPrice p = Price.openingPrice currentData
        /\ Pos.accumulatedFees p = 0
        /\ St.currentCapital st' = cash - baseAmount
        /\ St.tradesExecuted st' = S (St.tradesExecuted st)
        /\ St.tradeHistory st' = St.tradeHistory st)
  /\ (forall day q s,
         (exists s', exitBody daysHeld params day q s = (Some (updateHighest day q), s')
                     /\ St.currentCapital s' = St.currentCapital s)
         \/ (exists t s', exitBody daysHeld params day q s = (None, s')
                          /\ St.tradeHistory s' = St.tradeHistory s ++ [t]
                          /\ St.currentCapital s'
                             = St.currentCapital s
                               + (Pos.baseAmount q + Trade.pnl t)))
  /\ (forall lastPrice lastDate q capital tpl th ops,
         exists t tpl' ops',
           closeAtEnd daysHeld lastPrice lastDate (capital, tpl, th, ops) q
           = (capital + (Pos.baseAmount q + Trade.pnl t), tpl',
              th ++ [t], ops')).
Proof.
  intros Hs Hc cash baseAmount st'.
  apply shouldOpenPosition_signal in Hs. apply Qgeb_true in Hc.
  unfold st', entryStage. rewrite Hs, Hc.
  change (Pos.baseAmount (newPosition params currentData
                                      (St.currentCapital st)))
    with baseAmount.
  split; [|split; [|split]].
  - intro Hb. apply Qgeb_false in Hb. rewrite Hb. reflexivity.
  - intro Hb. apply Qgeb_true in Hb. rewrite Hb.
    exists (newPosition params currentData (St.currentCapital st)).
    repeat split.
  - intros day q s.
    destruct (exitBody_cases params day q s)
      as [[Hb _] | (t & cl & mcl & Hb & _)].
    + left. exists s. split; [exact Hb | reflexivity].
    + right. eexists t, _. split; [exact Hb|]. split; reflexivity.
  - intros lastPrice lastDate q capital tpl th ops.
    eexists (tradeOf daysHeld q lastDate lastPrice _ _), _, _.
    unfold closeAtEnd. simpl. reflexivity.
Qed.

(** *** The equity curve *)

Lemma fold_left_equity close ps :
  forall acc,
    fold_left
      (fun sum pos =>
         sum + Pos.baseAmount pos
         + Pos.leveragedAmount pos
           * ((close - Pos.entryPrice pos) / Pos.entryPrice pos))
      ps acc
    == acc + markToMarket close ps.
Proof.
  induction ps as [|p ps IH]; simpl; intro acc.
  - lra.
  - rewrite IH, Qmul_div_assoc. lra.
Qed.

Lemma equityOf_markToMarket close st :
  equityOf close st
  == St.currentCapital st + markToMarket close (St.activePositions st).
Proof. unfold equityOf. rewrite fold_left_equity. lra. Qed.

Lemma dayStep_equity params previousData currentData st :
  let st' := dayStep daysHeld params previousData currentData st in
  St.equityCurve st' = St.equityCurve st ++ [pointOf (currentData, st')].
Proof.
  unfold dayStep.
  set (st1 := feeStage params (Price.date currentData) st).
  set (st2 := exitStage daysHeld params currentData st1).
  set (st3 := entryStage params previousData currentData st2).
  destruct (feeStage_spec params (Price.date currentData) st)
    as (_ & _ & _ & _ & _ & _ & F). fold st1 in F.
  destruct (exitStage_spec params currentData st1)
    as (closed & _ & _ & _ & _ & _ & _ & _ & _ & _ & X & _). fold st2 in X.
  destruct (entryStage_spec params previousData currentData st2)
    as (_ & _ & _ & _ & _ & _ & N). fold st3 in N.
  unfold equityStage, pointOf. simpl. rewrite N, X, F. reflexivity.
Qed.

Lemma dayLoop_equity params rows :
  forall previousData st,
    St.equityCurve (dayLoop daysHeld params previousData rows st)
    = St.equityCurve st
      ++ map pointOf (trace daysHeld params previousData rows st).
Proof.
  induction rows as [|r rows IH]; simpl; intros prev st.
  - rewrite app_nil_r. reflexivity.
  - destruct (exhausted st); simpl.
    + rewrite app_nil_r. reflexivity.
    + rewrite IH, dayStep_equity, <- app_assoc. reflexivity.
Qed.

Lemma trace_prefix params rows :
  forall previousData st,
    exists unprocessed,
      rows = map fst (trace daysHeld params previousData rows st)
             ++ unprocessed.
Proof.
  induction rows as [|r rows IH]; simpl; intros prev st.
  - exists []. reflexivity.
  - destruct (exhausted st); simpl.
    + exists (r :: rows). reflexivity.
    + destruct (IH r (dayStep daysHeld params prev r st)) as [u Hu].
      exists u. rewrite <- Hu. reflexivity.
Qed.

Lemma StronglySorted_prefix {A} (R : A -> A -> Prop) (l l' : list A) :
  StronglySorted R (l ++ l') -> StronglySorted R l.
Proof.
  induction l as [|a l IH]; simpl; intro H; [constructor|].
  inversion H as [|? ? Hs Hf]; subst. constructor; [apply IH, Hs|].
  apply Forall_app in Hf. apply Hf.
Qed.

Lemma points_formula (xs : list (Price.t * St.t)) :
  Forall2
    (fun x e =>
       Equity.date e = Price.date (fst x)
       /\ Equity.equity e
          == St.currentCapital (snd x)
             + markToMarket (Price.currentPrice (fst x))
                            (St.activePositions (snd x)))
    xs (map pointOf xs).
Proof.
  induction xs as [|x xs IH]; simpl; constructor; [|exact IH].
  split; [reflexivity | apply equityOf_markToMarket].
Qed.

(** C7.  Each processed row appends exactly one equity point, after the
    fees, exits and entries of that row: the curve is the list of points of
    the processed rows, in their order, the processed rows being the rows
    after the first up to the row at which the loop stops.  The point of a
    row is cash plus, over the positions open after the row,
    [baseAmount + leveragedAmount * (close - entryPrice) / entryPrice];
    accumulated fees do not enter it.  So when the dates of the series are
    distinct the curve has one point per date, and when they are ordered so
    are the dates of the curve. *)
Theorem equity_curve_points params first rest :
  validateParams params = true ->
  let processed := trace daysHeld params first rest (initialState params) in
  exists r unprocessed,
    runSimulation daysHeld params (first :: rest) = Completed r
    /\ Results.equityCurve r = map pointOf processed
    /\ List.length (Results.equityCurve r) = List.length processed
    /\ rest = map fst processed ++ unprocessed
    /\ map Price.date rest
       = map Equity.date (Results.equityCurve r)
         ++ map Price.date unprocessed
    /\ Forall2
         (fun x e =>
            Equity.date e = Price.date (fst x)
            /\ Equity.equity e
               == St.currentCapital (snd x)
                  + markToMarket (Price.currentPrice (fst x))
                                 (St.activePositions (snd x)))
         processed (Results.equityCurve r)
    /\ (NoDup (map Price.date (first :: rest)) ->
        NoDup (map Equity.date (Results.equityCurve r)))
    /\ (forall le : string -> string -> Prop,
           StronglySorted le (map Price.date (first :: rest)) ->
           StronglySorted le (map Equity.date (Results.equityCurve r))).
Proof.
  intros Hv processed.
  destruct (runSimulation_spec params first rest Hv)
    as (r & closed & Hr & _ & _ & _ & _ & _ & _ & Heq & _).
  unfold loopFinal in Heq. rewrite dayLoop_equity in Heq. simpl in Heq.
  fold processed in Heq.
  destruct (trace_prefix params rest first (initialState params))
    as [unprocessed Hu]. fold processed in Hu.
  assert (Hdates : map Price.date rest
                   = map Equity.date (Results.equityCurve r)
                     ++ map Price.date unprocessed).
  { rewrite Hu at 1. rewrite Heq, map_app, !map_map. reflexivity. }
  exists r, unprocessed.
  split; [exact Hr|]. split; [exact Heq|].
  split; [rewrite Heq; apply length_map|].
  split; [exact Hu|]. split; [exact Hdates|].
  split; [|split].
  - rewrite Heq. apply points_formula.
  - simpl. intro Hnd. apply NoDup_cons_iff in Hnd as [_ Hnd'].
    rewrite Hdates in Hnd'. apply NoDup_app_remove_r in Hnd'. exact Hnd'.
  - simpl. intros le Hs. apply StronglySorted_inv in Hs as [Hs' _].
    rewrite Hdates in Hs'. apply StronglySorted_prefix in Hs'. exact Hs'.
Qed.

(** *** The stop caps the loss *)






End Properties.

(** ** Concrete runs *)

(** Comparisons of concrete rationals, by computation. *)
Ltac qcompute :=
  lazymatch goal with
  | |- (_ < _)%Q => apply Qlt_alt; vm_compute; reflexivity
  | |- (_ <= _)%Q => apply Qle_bool_iff; vm_compute; reflexivity
  | |- (_ == _)%Q => apply Qeq_bool_iff; vm_compute; reflexivity
  | |- ~ (_ <= _)%Q => apply Qlt_not_le, Qlt_alt; vm_compute; reflexivity
  end.


Lemma final_capital_accounting_witness :
  validateParams overdrawnParams = true
  /\ overdrawnSeries <> []
  /\ exists r,
      runSimulation noDays overdrawnParams overdrawnSeries = Completed r
      /\ Results.finalCapital r
         == Params.investmentCapital overdrawnParams
            + sumPnl (Results.tradeHistory r) - Results.totalFees r
      /\ Results.totalProfitLoss r == sumPnl (Results.tradeHistory r).
Proof.
  split; [reflexivity|]. split; [discriminate|].
  apply (final_capital_accounting noDays overdrawnParams overdrawnSeries);
    [reflexivity | discriminate].
Defined.

Lemma every_position_in_ledger_witness :
  validateParams overdrawnParams = true
  /\ exists r,
      runSimulation noDays overdrawnParams overdrawnSeries = Completed r
      /\ List.length (Results.tradeHistory r) = Results.totalTrades r.
Proof.
  split; [reflexivity|].
  destruct (every_position_in_ledger noDays overdrawnParams
              (priceRow "d0" 100 100 100 100) (tl overdrawnSeries)
              eq_refl)
    as (r & closed & Hr & _ & _ & _ & Hlen).
  exists r. split; [exact Hr | exact Hlen].
Defined.

(** C4 fails on [overdrawnSeries].  On d3 the stop closes the first
    position (exposure 5000, entry and high 100, low 80) at the synthetic
    price 80 with pnl -1000; cash goes from 240.025 to -259.975 while the
    second position stays open.  On d4 the fee of that position (2.475) is
    more than the cash, so the partial-payment branch books the cash
    itself, -259.975, as the fee paid: [totalFees] drops from 12.475 to
    -247.5 and cash is reset to 0. *)
Theorem fees_negative_when_overdrawn :
  validateParams overdrawnParams = true
  /\ (let st3 := loopFinal noDays overdrawnParams
                           (priceRow "d0" 100 100 100 100)
                           (firstn 3 (tl overdrawnSeries)) in
      St.currentCapital st3 == - 259.975
      /\ St.totalFees st3 == 12.475
      /\ List.length (St.activePositions st3) = 1%nat
      /\ exists ps,
          feeLoop (Params.dailyFeePercent overdrawnParams) "d4"
                  (St.activePositions st3) (St.currentCapital st3)
                  (St.totalFees st3)
          = (ps, 0, St.totalFees st3 + St.currentCapital st3))
  /\ exists r,
      runSimulation noDays overdrawnParams overdrawnSeries = Completed r
      /\ Results.totalFees r == - 247.5
      /\ Results.totalFees r < 0.
Proof.
  split; [reflexivity|]. split.
  - cbv zeta. split; [qcompute|]. split; [qcompute|].
    split; [reflexivity|]. eexists. vm_compute. reflexivity.
  - eexists. split; [vm_compute; reflexivity|]. simpl. split; qcompute.
Qed.

Lemma position_sizing_witness :
  let d0 := priceRow "d0" 99 99 99 99 in
  let d1 := priceRow "d1" 100 100 100 100 in
  let st := initialState defaultParams in
  entrySignal defaultParams d0 d1
  /\ MIN_TRADING_CAPITAL <= St.currentCapital st
  /\ St.currentCapital (entryStage defaultParams d0 d1 st) == 9900.
Proof.
  intros d0 d1 st.
  assert (Hs : entrySignal defaultParams d0 d1)
    by (unfold entrySignal; qcompute).
  assert (Hc : MIN_TRADING_CAPITAL <= St.currentCapital st) by qcompute.
  split; [exact Hs|]. split; [exact Hc|].
  destruct (position_sizing noDays defaultParams d0 d1 st Hs Hc)
    as (_ & Hopen & _).
  destruct Hopen as (p & _ & _ & _ & _ & _ & Hcash & _); [qcompute|].
  rewrite Hcash. qcompute.
Defined.

Lemma equity_curve_points_witness :
  validateParams overdrawnParams = true
  /\ exists r,
      runSimulation noDays overdrawnParams overdrawnSeries = Completed r
      /\ map Equity.date (Results.equityCurve r)
         = ["d1"; "d2"; "d3"; "d4"]%string.
Proof.
  split; [reflexivity|].
  destruct (equity_curve_points noDays overdrawnParams
              (priceRow "d0" 100 100 100 100) (tl overdrawnSeries) eq_refl)
    as (r & u & Hr & Heq & _).
  exists r. split; [exact Hr|]. rewrite Heq. reflexivity.
Defined.


(** C8.  [calculateMaxConsecutiveLosses] of utils.ts is the longest run of
    losses of the ledger it is given: 2 on the pattern win, loss, loss,
    win, loss.  The counter [runSimulation] reports is only updated by the
    stop exit, not by the final liquidation: on [lateLossSeries] the only
    trade of the ledger is a liquidation at a loss (pnl about -49.5), the
    longest run of losses of the ledger is 1, and the run reports 0. *)
Theorem liquidation_loss_not_counted :
  Utils.calculateMaxConsecutiveLosses
    (map recordWithPnl [10; -10; -10; 10; -10]) = 2%nat
  /\ longestLossRun (map tradeWithPnl [10; -10; -10; 10; -10]) = 2%nat
  /\ validateParams defaultParams = true
  /\ exists r t,
      runSimulation noDays defaultParams lateLossSeries = Completed r
      /\ Results.tradeHistory r = [t]
      /\ Trade.exit t = "d1"%string
      /\ Trade.pnl t == - (5000 # 101)
      /\ longestLossRun (Results.tradeHistory r) = 1%nat
      /\ Results.maxConsecutiveLosses r = 0%nat.
Proof.
  split; [reflexivity|]. split; [reflexivity|]. split; [reflexivity|].
  eexists. eexists. split; [vm_compute; reflexivity|]. simpl.
  split; [reflexivity|]. split; [reflexivity|]. split; [qcompute|].
  split; reflexivity.
Qed.

(** C9.  The success rate of [runSimulation] is guarded: 0 on an empty
    ledger, 3/4 on three wins and a loss, and a run over a single row
    reports 0 for success rate, drawdown and average profit.
    [calculatePerformanceMetrics] of utils.ts is not: on an empty ledger
    and an empty equity curve [winRate] is 0/0, and [winRate],
    [profitFactor] and [sharpeRatio] are NaN; on a ledger of one winning
    trade [profitFactor] divides by zero and is Infinity. *)
Theorem metrics_on_empty_ledger (sqrt : Utils.number -> Utils.number) :
  successRateOf [] == 0
  /\ successRateOf (map tradeWithPnl [10; 10; 10; -10]) == 0.75
  /\ (exists r,
        runSimulation noDays defaultParams [priceRow "d0" 100 100 100 100]
        = Completed r
        /\ Results.tradeHistory r = []
        /\ Results.equityCurve r = []
        /\ Results.successRate r == 0
        /\ Results.maxDrawdown r == 0
        /\ Results.avgProfitPerTrade r == 0)
  /\ (let m := Utils.calculatePerformanceMetrics sqrt [] [] in
      Utils.winRate m = Utils.NaN
      /\ Utils.profitFactor m = Utils.NaN
      /\ Utils.sharpeRatio m = Utils.NaN
      /\ Utils.averageWin m = Utils.Fin 0
      /\ Utils.averageLoss m = Utils.Fin 0
      /\ Utils.maxDrawdown m = Utils.Fin 0
      /\ Utils.maxConsecutiveLosses m = 0%nat)
  /\ Utils.profitFactor
       (Utils.calculatePerformanceMetrics sqrt [recordWithPnl 10] [])
     = Utils.PosInf.
Proof.
  split; [qcompute|]. split; [qcompute|]. split.
  - eexists. split; [vm_compute; reflexivity|]. simpl.
    split; [reflexivity|]. split; [reflexivity|]. repeat split; qcompute.
  - split; [|reflexivity]. cbv zeta. repeat split.
Qed.

(** * The day loop over binary64 *)

(** ** Comparisons of binary64 values

    [<?] and [<=?] are specified by [SFcompare] on the decoded values.
    When [x < y] holds, [y <= x] does not. *)

Lemma SFcompare_Lt_Gt x y :
  SFcompare x y = Some Lt -> SFcompare y x = Some Gt.
Proof.
  destruct x as [sx | sx | | sx mx ex], y as [sy | sy | | sy my ey];
    simpl; try discriminate;
    try (destruct sx; try destruct sy; simpl; congruence);
    try (destruct sy; simpl; congruence).
  assert (Hm : Pos.compare_cont Eq my mx
               = CompOpp (Pos.compare_cont Eq mx my)).
  { rewrite (Pos.compare_cont_antisym mx my Eq). reflexivity. }
  destruct sx, sy; try congruence; intro H; injection H as H; f_equal;
    rewrite (Z.compare_antisym ex ey), Hm;
    destruct (Z.compare ex ey); simpl in *; try congruence;
    destruct (Pos.compare_cont Eq mx my); simpl in *; congruence.
Qed.

Lemma binary64_ltb_not_leb (x y : float) :
  (x <? y)%float = true -> (y <=? x)%float = false.
Proof.
  rewrite ltb_spec, leb_spec. unfold SFltb, SFleb.
  destruct (SFcompare (Prim2SF x) (Prim2SF y)) as [[| |]|] eqn:E;
    try discriminate.
  intros _. rewrite (SFcompare_Lt_Gt _ _ E). reflexivity.
Qed.

Section Binary64Properties.

Import Binary64.
Local Open Scope float_scope.

Variable daysHeld : string -> string -> float.

(** ** The exit loop *)

(** The stop test is the flag and the comparison the source makes. *)
Lemma binary64_triggered params currentData q :
  triggered params currentData q
  = Params.useTrailingStop params
    && (Params.stopLossDollar params
        <=? Pos.leveragedAmount q
            * ((Pos.highestPrice q - Price.lowestPrice currentData)
               / Pos.highestPrice q)).
Proof.
  unfold triggered, isStopLossTriggered, geb.
  destruct (Params.useTrailingStop params); reflexivity.
Qed.

(** The two outcomes of the loop body. *)
Lemma binary64_exitBody_cases params currentData p st :
  let q := updateHighest currentData p in
  (triggered params currentData q = false
   /\ exitBody daysHeld params currentData p st = (Some q, st))
  \/ (triggered params currentData q = true
      /\ exists t st',
          exitBody daysHeld params currentData p st = (None, st')
          /\ stopExitOf params currentData q t
          /\ St.tradeHistory st' = St.tradeHistory st ++ [t]
          /\ St.currentCapital st'
             = St.currentCapital st + (Trade.baseAmount t + Trade.pnl t)
          /\ St.totalFees st' = St.totalFees st
          /\ St.tradesExecuted st' = St.tradesExecuted st
          /\ St.skippedTrades st' = St.skippedTrades st
          /\ St.equityCurve st' = St.equityCurve st
          /\ St.currentDate st' = St.currentDate st).
Proof.
  intro q. unfold exitBody. fold q.
  change (isStopLossTriggered (Price.lowestPrice currentData)
            (Pos.highestPrice q) (Pos.leveragedAmount q)
            (Params.stopLossDollar params) (Params.useTrailingStop params))
    with (triggered params currentData q).
  destruct (triggered params currentData q).
  - right. split; [reflexivity|]. eexists. eexists.
    split; [reflexivity|]. unfold stopExitOf, calculateStopLossPrice.
    repeat split; reflexivity.
  - left. split; reflexivity.
Qed.

(** The exit loop closes exactly the positions at which the stop test
    fires, from the last one to the first, and keeps the others in order. *)
Lemma binary64_exitLoop_spec params currentData ps :
  forall st,
    let marked := map (updateHighest currentData) ps in
    let hit := triggered params currentData in
    let st' := snd (exitLoop daysHeld params currentData ps st) in
    fst (exitLoop daysHeld params currentData ps st)
    = filter (fun q => negb (hit q)) marked
    /\ exists closed,
        St.tradeHistory st' = St.tradeHistory st ++ closed
        /\ Forall2 (stopExitOf params currentData)
                   (rev (filter hit marked)) closed
        /\ St.currentCapital st' = cashAfter closed (St.currentCapital st)
        /\ St.totalFees st' = St.totalFees st
        /\ St.tradesExecuted st' = St.tradesExecuted st
        /\ St.skippedTrades st' = St.skippedTrades st
        /\ St.equityCurve st' = St.equityCurve st
        /\ St.currentDate st' = St.currentDate st.
Proof.
  induction ps as [|p ps IH]; intro st; cbv zeta.
  - simpl. split; [reflexivity|]. exists []. rewrite app_nil_r.
    repeat split. constructor.
  - cbn [exitLoop map filter].
    destruct (exitLoop daysHeld params currentData ps st) as [rest' st1]
      eqn:E.
    specialize (IH st). cbv zeta in IH. rewrite E in IH. cbn [fst snd] in IH.
    destruct IH as (Hrest & closed & Hth & Hcl & Hcash & Hf & Hn & Hs & He
                    & Hd).
    destruct (binary64_exitBody_cases params currentData p st1)
      as [[Hno Hb] | (Hyes & t & st2 & Hb & Hx & Hth2 & Hcash2 & Hf2 & Hn2
                      & Hs2 & He2 & Hd2)];
      rewrite Hb; cbn [fst snd].
    + rewrite Hno. cbn [negb]. split; [rewrite Hrest; reflexivity|].
      exists closed. repeat split; assumption.
    + rewrite Hyes. cbn [negb rev]. split; [exact Hrest|].
      exists (closed ++ [t]). split; [|split; [|split]].
      * rewrite Hth2, Hth, app_assoc. reflexivity.
      * apply Forall2_app; [exact Hcl|]. constructor; [exact Hx|constructor].
      * unfold cashAfter. rewrite fold_left_app. cbn [fold_left].
        fold (cashAfter closed (St.currentCapital st)).
        rewrite <- Hcash. exact Hcash2.
      * repeat split; congruence.
Qed.

(** ** The other stages leave the ledger alone *)

Lemma binary64_feeStage_ledger params date st :
  St.tradeHistory (feeStage params date st) = St.tradeHistory st.
Proof.
  unfold feeStage. destruct (dateChanged (St.currentDate st) date);
    [|reflexivity].
  destruct (feeLoop _ _ _ _ _) as [[ps c] f]. reflexivity.
Qed.

Lemma binary64_entryStage_spec params previousData currentData st :
  let st' := entryStage params previousData currentData st in
  St.activePositions st'
  = St.activePositions st ++ entered params previousData currentData st
  /\ St.tradeHistory st' = St.tradeHistory st.
Proof.
  unfold entryStage, entered.
  destruct (geb (St.currentCapital st) MIN_TRADING_CAPITAL); cbn [andb].
  - destruct (shouldOpenPosition _ _ _); cbn [andb].
    + destruct (geb (Pos.baseAmount _) 1); simpl; rewrite ?app_nil_r;
        split; reflexivity.
    + rewrite app_nil_r. split; reflexivity.
  - destruct (shouldOpenPosition _ _ _); simpl; rewrite app_nil_r;
      split; reflexivity.
Qed.

(** C2, as amended.  On a processed day, after the day's fees, the exit
    loop updates the high-water mark of every open position (to the day's
    high when that is above it) and applies the stop test to it:
    [useTrailingStop] is set and
    [stopLossDollar <= leveragedAmount * ((highest - low) / highest)],
    computed in that order.  The positions at which the test fires are
    exactly those that leave [activePositions], and exactly those for which
    an entry is appended to the ledger (from the last position to the
    first); the others stay, in order, with their mark updated.  An entry
    records the exit price [highest * (1 - stop / leveragedAmount)] and
    [pnl = leveragedAmount * ((exitPrice - entryPrice) / entryPrice)];
    each close adds [baseAmount + pnl] to cash, and the fees are left as
    they are.  With the flag unset nothing is closed.  The rest of the day
    only appends what the entry code opens, and the day loop runs this step
    on every row it reaches with cash or a position left. *)
Theorem trailing_stop_exit params previousData currentData st :
  let stop := Params.stopLossDollar params in
  let low := Price.lowestPrice currentData in
  let st1 := feeStage params (Price.date currentData) st in
  let marked := map (updateHighest currentData) (St.activePositions st1) in
  let hit := triggered params currentData in
  let st2 := exitStage daysHeld params currentData st1 in
  let st' := dayStep daysHeld params previousData currentData st in
  (forall p,
      updateHighest currentData p
      = Pos.setHighestPrice p
          (if Pos.highestPrice p <? Price.highestPrice currentData
           then Price.highestPrice currentData
           else Pos.highestPrice p))
  /\ (forall q,
         hit q
         = Params.useTrailingStop params
           && (stop <=? Pos.leveragedAmount q
                        * ((Pos.highestPrice q - low) / Pos.highestPrice q)))
  /\ St.activePositions st2 = filter (fun q => negb (hit q)) marked
  /\ (exists closed,
         St.tradeHistory st2 = St.tradeHistory st ++ closed
         /\ Forall2 (stopExitOf params currentData)
                    (rev (filter hit marked)) closed
         /\ St.currentCapital st2
            = cashAfter closed (St.currentCapital st1)
         /\ St.totalFees st2 = St.totalFees st1
         /\ St.tradeHistory st' = St.tradeHistory st ++ closed
         /\ St.activePositions st'
            = filter (fun q => negb (hit q)) marked
              ++ entered params previousData currentData st2)
  /\ (Params.useTrailingStop params = false ->
      St.activePositions st2 = marked
      /\ St.tradeHistory st2 = St.tradeHistory st
      /\ St.currentCapital st2 = St.currentCapital st1)
  /\ (forall rest,
         dayLoop daysHeld params previousData (currentData :: rest) st
         = if exhausted st then st
           else dayLoop daysHeld params currentData rest st').
Proof.
  intros stop low st1 marked hit st2 st'.
  assert (Hhit : forall q,
             hit q
             = Params.useTrailingStop params
               && (stop <=? Pos.leveragedAmount q
                            * ((Pos.highestPrice q - low)
                               / Pos.highestPrice q)))
    by (intro q; apply binary64_triggered).
  destruct (binary64_exitLoop_spec params currentData
              (St.activePositions st1) st1)
    as (Hps & closed & Hth & Hcl & Hcash & Hfees & _).
  fold marked in Hps, Hcl. fold hit in Hps, Hcl.
  assert (H2 : St.activePositions st2
               = filter (fun q => negb (hit q)) marked
               /\ St.tradeHistory st2 = St.tradeHistory st ++ closed
               /\ St.currentCapital st2
                  = cashAfter closed (St.currentCapital st1)
               /\ St.totalFees st2 = St.totalFees st1).
  { unfold st2, exitStage.
    destruct (exitLoop daysHeld params currentData (St.activePositions st1)
                       st1) as [ps s] eqn:E.
    cbn [fst snd] in *. simpl.
    assert (Hfee : St.tradeHistory st1 = St.tradeHistory st)
      by apply binary64_feeStage_ledger.
    rewrite Hth, Hfee. repeat split; assumption. }
  destruct H2 as (Ha & Hl & Hc & Hf).
  split.
  { intro p. unfold updateHighest, gtb.
    destruct (Pos.highestPrice p <? Price.highestPrice currentData);
      [reflexivity | destruct p; reflexivity]. }
  split; [exact Hhit|]. split; [exact Ha|]. split; [|split].
  - exists closed. split; [exact Hl|]. split; [exact Hcl|].
    split; [exact Hc|]. split; [exact Hf|].
    destruct (binary64_entryStage_spec params previousData currentData st2)
      as [Hn1 Hn2].
    unfold st', dayStep. fold st1. fold st2. unfold equityStage. simpl.
    rewrite Hn1, Hn2, Ha, Hl. split; reflexivity.
  - intro Hu.
    assert (Hnone : forall l, filter hit l = []).
    { induction l as [|q l IHl]; [reflexivity|]. simpl.
      rewrite Hhit, Hu. exact IHl. }
    assert (Hall : forall l, filter (fun q => negb (hit q)) l = l).
    { induction l as [|q l IHl]; [reflexivity|]. simpl.
      rewrite Hhit, Hu. simpl. rewrite IHl. reflexivity. }
    rewrite Hnone in Hcl. simpl in Hcl. inversion Hcl; subst.
    rewrite Ha, Hl, Hc, Hall, app_nil_r. repeat split.
  - intro rest. reflexivity.
Qed.

(** ** The entry code *)

(** C5, as amended.  The signal is the comparison the source makes,
    [(currentOpen - previousOpen) / previousOpen * 100 >= threshold],
    computed in that order.  A position is opened only when the signal
    fires and cash is at least the floor of 100, and then exactly when the
    sized base amount is at least 1; the open positions play no part in
    the decision, and the new position is appended to them.  When cash is
    not at least the floor (below it, or NaN) and the signal fires, the
    skipped-trade counter goes up by one and nothing else changes; without
    a signal nothing changes. *)
Theorem entry_rule params previousData currentData st :
  let signal :=
    shouldOpenPosition (Price.openingPrice currentData)
                       (Price.openingPrice previousData)
                       (Params.minPriceMovement params) in
  let cash := St.currentCapital st in
  let funded := MIN_TRADING_CAPITAL <=? cash in
  let p := newPosition params currentData cash in
  let sized := 1 <=? Pos.baseAmount p in
  let st' := entryStage params previousData currentData st in
  signal
  = (Params.minPriceMovement params
     <=? (Price.openingPrice currentData - Price.openingPrice previousData)
         / Price.openingPrice previousData * 100)
  /\ MIN_TRADING_CAPITAL = 100
  /\ St.activePositions st'
     = St.activePositions st ++ entered params previousData currentData st
  /\ (entered params previousData currentData st <> [] ->
      signal = true /\ funded = true /\ sized = true)
  /\ (forall ps,
         entered params previousData currentData (St.setActive st ps)
         = entered params previousData currentData st)
  /\ (signal = true -> funded = true -> sized = true ->
      entered params previousData currentData st = [p]
      /\ St.currentCapital st' = cash - Pos.baseAmount p
      /\ St.tradesExecuted st' = S (St.tradesExecuted st)
      /\ St.skippedTrades st' = St.skippedTrades st)
  /\ (signal = true -> funded = true -> sized = false -> st' = st)
  /\ (signal = true -> funded = false ->
      st' = St.skipTrade st
      /\ St.skippedTrades st' = S (St.skippedTrades st)
      /\ St.activePositions st' = St.activePositions st
      /\ St.tradesExecuted st' = St.tradesExecuted st
      /\ St.currentCapital st' = cash)
  /\ (signal = true -> (cash <? MIN_TRADING_CAPITAL) = true ->
      St.skippedTrades st' = S (St.skippedTrades st)
      /\ St.activePositions st' = St.activePositions st)
  /\ (signal = false -> st' = st).
Proof.
  intros signal cash funded p sized st'.
  split; [reflexivity|]. split; [reflexivity|].
  split; [apply binary64_entryStage_spec|].
  assert (Hbelow : (cash <? MIN_TRADING_CAPITAL) = true -> funded = false)
    by apply binary64_ltb_not_leb.
  unfold st', entryStage, entered, geb.
  change (St.currentCapital (St.setActive st _)) with cash.
  fold cash. fold signal. fold funded. fold p. fold sized.
  destruct funded, signal, sized; cbn [andb];
    repeat split; try reflexivity; try discriminate; try congruence;
    match goal with
    | Hlt : (cash <? MIN_TRADING_CAPITAL) = true |- _ =>
        discriminate (Hbelow Hlt)
    end.
Qed.

End Binary64Properties.

(** ** Concrete runs over binary64 *)

Section Binary64Runs.

Import Binary64.
Local Open Scope float_scope.

(** C2 as stated fails in two ways.  With the trailing stop unticked, the
    position opened on d1 of [crashSeries] meets the stated condition on d2
    (10000 * (100 - 90) / 100 = 1000 >= 200) and is not closed.  With the
    stop ticked, the position of [boundarySeries] (exposure 3300, mark 22)
    meets the stated condition on d2, where the low is 19 and the stop 450:
    3300 * (22 - 19) / 22 is 450, in exact arithmetic and also in binary64
    from left to right.  The source divides first: (22 - 19) / 22 rounds
    below 3/22 and the product is 449.99999999999994, so the test fails and
    the position stays open.  The order matters for the recorded [pnl] too:
    on [dipSeries] the ledger holds -200.00000000000017, where the stated
    expression gives -200.0000000000002 from left to right. *)
Lemma trailing_stop_claim_cex :
  (let d0 := priceRow "d0" 99 99 99 99 in
   let d1 := priceRow "d1" 100 100 100 100 in
   let d2 := priceRow "d2" 100 100 90 95 in
   let st := dayStep noDays noTrailingParams d0 d1
                     (initialState noTrailingParams) in
   let st' := dayStep noDays noTrailingParams d1 d2 st in
   crashSeries = [d0; d1; d2]
   /\ validateParams noTrailingParams = true
   /\ Params.useTrailingStop noTrailingParams = false
   /\ Params.stopLossDollar noTrailingParams = 200
   /\ Price.lowestPrice d2 = 90
   /\ exists p,
       St.activePositions st = [p]
       /\ Pos.leveragedAmount (updateHighest d2 p) = 10000
       /\ Pos.highestPrice (updateHighest d2 p) = 100
       /\ stopCondition 200 10000 100 90
       /\ claimedTrigger noTrailingParams d2 (updateHighest d2 p) = true
       /\ map Pos.entryDate (St.activePositions st') = ["d1"%string]
       /\ St.tradeHistory st' = [])
  /\ (let d0 := priceRow "d0" 21 21 21 21 in
      let d1 := priceRow "d1" 22 22 22 22 in
      let d2 := priceRow "d2" 22 22 19 20 in
      let st := dayStep noDays boundaryParams d0 d1
                        (initialState boundaryParams) in
      let st' := dayStep noDays boundaryParams d1 d2 st in
      boundarySeries = [d0; d1; d2]
      /\ validateParams boundaryParams = true
      /\ Params.useTrailingStop boundaryParams = true
      /\ Params.stopLossDollar boundaryParams = 450
      /\ Price.lowestPrice d2 = 19
      /\ exists p,
          St.activePositions st = [p]
          /\ Pos.leveragedAmount (updateHighest d2 p) = 3300
          /\ Pos.highestPrice (updateHighest d2 p) = 22
          /\ stopCondition 450 3300 22 19
          /\ claimedTrigger boundaryParams d2 (updateHighest d2 p) = true
          /\ triggered boundaryParams d2 (updateHighest d2 p) = false
          /\ map Pos.entryDate (St.activePositions st') = ["d1"%string]
          /\ St.tradeHistory st' = [])
  /\ (let st' := loopFinal noDays defaultParams (priceRow "d0" 11 11 11 11)
                           (tl dipSeries) in
      exists t,
        St.tradeHistory st' = [t]
        /\ Trade.exit t = "d2"%string
        /\ (claimedPnl t <? Trade.pnl t) = true).
Proof.
  split; [|split].
  - cbv zeta. split; [reflexivity|]. split; [reflexivity|].
    split; [reflexivity|]. split; [reflexivity|]. split; [reflexivity|].
    eexists. split; [vm_compute; reflexivity|].
    split; [vm_compute; reflexivity|]. split; [vm_compute; reflexivity|].
    split; [unfold stopCondition; apply Qle_bool_iff; vm_compute; reflexivity|].
    repeat split; vm_compute; reflexivity.
  - cbv zeta. split; [reflexivity|]. split; [reflexivity|].
    split; [reflexivity|]. split; [reflexivity|]. split; [reflexivity|].
    eexists.
    split; [vm_compute; reflexivity|].
    split; [vm_compute; reflexivity|]. split; [vm_compute; reflexivity|].
    split; [unfold stopCondition; apply Qle_bool_iff; vm_compute; reflexivity|].
    repeat split; vm_compute; reflexivity.
  - cbv zeta. eexists. split; [vm_compute; reflexivity|].
    split; vm_compute; reflexivity.
Qed.

(** C5 as stated fails: after the fees and exits of d2 the position opened
    on d1 is still open, cash is 495, and the entry code opens a second
    position. *)
Lemma entry_with_open_position_cex :
  let d0 := priceRow "d0" 100 100 100 100 in
  let d1 := priceRow "d1" 100 100 100 100 in
  let d2 := priceRow "d2" 100 100 100 100 in
  let st := exitStage noDays twoEntriesParams d2
              (feeStage twoEntriesParams (Price.date d2)
                 (dayStep noDays twoEntriesParams d0 d1
                          (initialState twoEntriesParams))) in
  validateParams twoEntriesParams = true
  /\ List.length (St.activePositions st) = 1%nat
  /\ St.currentCapital st = 495
  /\ List.length
       (St.activePositions (entryStage twoEntriesParams d1 d2 st)) = 2%nat
  /\ ~ entryOnlyWhenFlat twoEntriesParams d1 d2 st.
Proof.
  intros d0 d1 d2 st. split; [reflexivity|].
  split; [vm_compute; reflexivity|]. split; [vm_compute; reflexivity|].
  split; [vm_compute; reflexivity|].
  unfold entryOnlyWhenFlat. intro H.
  assert (Hopen : St.activePositions st <> []).
  { vm_compute. discriminate. }
  apply H in Hopen. vm_compute in Hopen. discriminate Hopen.
Qed.


(** The step of d2 on [dipSeries]: one position is open, the stop test
    fires at it, and the ledger grows by its entry. *)
Lemma trailing_stop_exit_witness :
  let d0 := priceRow "d0" 11 11 11 11 in
  let d1 := priceRow "d1" 12 12 12 12 in
  let d2 := priceRow "d2" 12 12 11 11.5 in
  let st := dayStep noDays defaultParams d0 d1 (initialState defaultParams) in
  let marked :=
    map (updateHighest d2)
        (St.activePositions (feeStage defaultParams (Price.date d2) st)) in
  exists closed,
    St.tradeHistory (dayStep noDays defaultParams d1 d2 st)
    = St.tradeHistory st ++ closed
    /\ Forall2 (stopExitOf defaultParams d2)
               (rev (filter (triggered defaultParams d2) marked)) closed
    /\ List.length closed = 1%nat.
Proof.
  intros d0 d1 d2 st marked.
  destruct (trailing_stop_exit noDays defaultParams d1 d2 st)
    as (_ & _ & _ & (closed & _ & Hcl & _ & _ & Hth & _) & _).
  exists closed. split; [exact Hth|]. split; [exact Hcl|].
  apply Forall2_length in Hcl. rewrite <- Hcl. vm_compute. reflexivity.
Defined.

(** The entry code on d2 of the run with two entries: the signal fires,
    cash is 495 and a second position is added to the one already open. *)
Lemma entry_rule_witness :
  let d0 := priceRow "d0" 100 100 100 100 in
  let d1 := priceRow "d1" 100 100 100 100 in
  let d2 := priceRow "d2" 100 100 100 100 in
  let st := exitStage noDays twoEntriesParams d2
              (feeStage twoEntriesParams (Price.date d2)
                 (dayStep noDays twoEntriesParams d0 d1
                          (initialState twoEntriesParams))) in
  shouldOpenPosition (Price.openingPrice d2) (Price.openingPrice d1)
                     (Params.minPriceMovement twoEntriesParams) = true
  /\ (MIN_TRADING_CAPITAL <=? St.currentCapital st) = true
  /\ St.activePositions (entryStage twoEntriesParams d1 d2 st)
     = St.activePositions st
       ++ [newPosition twoEntriesParams d2 (St.currentCapital st)].
Proof.
  intros d0 d1 d2 st.
  assert (Hs : shouldOpenPosition (Price.openingPrice d2)
                 (Price.openingPrice d1)
                 (Params.minPriceMovement twoEntriesParams) = true)
    by (vm_compute; reflexivity).
  assert (Hc : (MIN_TRADING_CAPITAL <=? St.currentCapital st) = true)
    by (vm_compute; reflexivity).
  assert (Hb : (1 <=? Pos.baseAmount
                        (newPosition twoEntriesParams d2
                                     (St.currentCapital st))) = true)
    by (vm_compute; reflexivity).
  split; [exact Hs|]. split; [exact Hc|].
  destruct (entry_rule twoEntriesParams d1 d2 st)
    as (_ & _ & Happ & _ & _ & Hopen & _).
  destruct (Hopen Hs Hc Hb) as (Hentered & _).
  rewrite Happ, Hentered. reflexivity.
Defined.

End Binary64Runs.

(** Where the exact embedding and the source part: at a boundary the
    rounded value decides, and a quotient by zero is an infinity.  The
    entry test at opens 129 after 100 with threshold 29 computes a movement
    of 28.999999999999996 and does not fire; after a previous open of 0 it
    computes Infinity and fires; the stop test at exposure 3300, mark 22,
    low 19 and stop 450 computes 449.99999999999994 and does not fire.  The
    exact embedding answers the other way in all three. *)
Lemma binary64_boundary_values :
  Binary64.shouldOpenPosition 129 100 29 = false
  /\ shouldOpenPosition 129 100 29 = true
  /\ Binary64.shouldOpenPosition 5 0 29 = true
  /\ shouldOpenPosition 5 0 29 = false
  /\ Binary64.isStopLossTriggered 19 22 3300 450 true = false
  /\ isStopLossTriggered 19 22 3300 450 true = true.
Proof. repeat split; vm_compute; reflexivity. Qed.

(** * Further properties of the helpers *)

(** ** Entry threshold and stop price *)

(** X1.  For a positive previous open, the entry test is monotone: once it
    fires at a current open it fires at every higher one, and once it
    fires for a threshold it fires for every lower one.  A fall of the open
    never fires it for a threshold that is not negative, and an open that
    did not fall always fires it for a threshold that is not positive. *)
Theorem shouldOpenPosition_monotone previousPrice :
  0 < previousPrice ->
  (forall currentPrice higher threshold,
      currentPrice <= higher ->
      shouldOpenPosition currentPrice previousPrice threshold = true ->
      shouldOpenPosition higher previousPrice threshold = true)
  /\ (forall currentPrice threshold lower,
         lower <= threshold ->
         shouldOpenPosition currentPrice previousPrice threshold = true ->
         shouldOpenPosition currentPrice previousPrice lower = true)
  /\ (forall currentPrice threshold,
         currentPrice < previousPrice -> 0 <= threshold ->
         shouldOpenPosition currentPrice previousPrice threshold = false)
  /\ (forall currentPrice threshold,
         previousPrice <= currentPrice -> threshold <= 0 ->
         shouldOpenPosition currentPrice previousPrice threshold = true).
Proof.
  intro Hp.
  assert (Hdiv : forall a b, a <= b ->
                   (a - previousPrice) / previousPrice
                   <= (b - previousPrice) / previousPrice).
  { intros a b Hab. unfold Qdiv. apply Qmult_le_compat_r; [lra|].
    apply Qlt_le_weak, Qinv_lt_0_compat, Hp. }
  assert (Hzero : (previousPrice - previousPrice) / previousPrice == 0).
  { unfold Qdiv. setoid_replace (previousPrice - previousPrice) with 0 by ring.
    ring. }
  split; [|split; [|split]].
  - intros c h t Hch. unfold shouldOpenPosition. rewrite !Qgeb_true.
    intro Ht. pose proof (Hdiv _ _ Hch) as Hd. lra.
  - intros c t l Hlt. unfold shouldOpenPosition. rewrite !Qgeb_true.
    intro Ht. lra.
  - intros c t Hc Ht. unfold shouldOpenPosition. apply Qgeb_false.
    assert (Hneg : (c - previousPrice) / previousPrice < 0).
    { apply Qlt_shift_div_r; [exact Hp | lra]. }
    lra.
  - intros c t Hc Ht. unfold shouldOpenPosition. apply Qgeb_true.
    pose proof (Hdiv _ _ Hc) as Hd. rewrite Hzero in Hd. lra.
Qed.

Lemma shouldOpenPosition_monotone_witness :
  0 < 100
  /\ (101 <= 102 ->
      shouldOpenPosition 101 100 0.3 = true ->
      shouldOpenPosition 102 100 0.3 = true)
  /\ shouldOpenPosition 99 100 0 = false.
Proof.
  assert (Hp : 0 < 100) by reflexivity.
  destruct (shouldOpenPosition_monotone 100 Hp) as (Hup & _ & Hfall & _).
  split; [exact Hp|]. split.
  - intros Hle Hfire. exact (Hup 101 102 0.3 Hle Hfire).
  - apply Hfall; [reflexivity | discriminate].
Defined.

(** X2.  For a positive high-water mark and exposure and a stop that is
    not negative, the synthetic exit price is at most the high-water mark,
    and the mark itself for a stop of zero; it falls as the stop grows, and
    it is not negative as long as the stop is at most the exposure. *)
Theorem stop_price_bounds highest leveragedAmount stopLoss :
  0 < highest -> 0 < leveragedAmount -> 0 <= stopLoss ->
  calculateStopLossPrice highest leveragedAmount stopLoss <= highest
  /\ calculateStopLossPrice highest leveragedAmount 0 == highest
  /\ (forall larger,
         stopLoss <= larger ->
         calculateStopLossPrice highest leveragedAmount larger
         <= calculateStopLossPrice highest leveragedAmount stopLoss)
  /\ (stopLoss <= leveragedAmount ->
      0 <= calculateStopLossPrice highest leveragedAmount stopLoss).
Proof.
  intros Hh Hl Hs. unfold calculateStopLossPrice.
  assert (Hdiv : forall a b, a <= b ->
                   a / leveragedAmount <= b / leveragedAmount).
  { intros a b Hab. unfold Qdiv. apply Qmult_le_compat_r; [exact Hab|].
    apply Qlt_le_weak, Qinv_lt_0_compat, Hl. }
  assert (Hzero : 0 / leveragedAmount == 0) by (unfold Qdiv; ring).
  assert (Hmul : forall a b, a <= b -> highest * a <= highest * b).
  { intros a b Hab. apply Qmult_le_l; assumption. }
  assert (Hd : 0 <= stopLoss / leveragedAmount).
  { rewrite <- Hzero. apply Hdiv, Hs. }
  split; [|split; [|split]].
  - pose proof (Hmul (1 - stopLoss / leveragedAmount) 1) as H.
    rewrite Qmult_1_r in H. apply H. lra.
  - rewrite Hzero. ring.
  - intros larger Hle. apply Hmul. pose proof (Hdiv _ _ Hle). lra.
  - intro Hle.
    assert (H1 : stopLoss / leveragedAmount <= 1).
    { apply Qle_shift_div_r; [exact Hl | lra]. }
    pose proof (Hmul 0 (1 - stopLoss / leveragedAmount)) as H.
    rewrite Qmult_0_r in H. apply H. lra.
Qed.

Lemma stop_price_bounds_witness :
  0 < 100 /\ 0 < 10000 /\ 0 <= 200
  /\ calculateStopLossPrice 100 10000 200 <= 100
  /\ 0 <= calculateStopLossPrice 100 10000 200.
Proof.
  split; [reflexivity|]. split; [reflexivity|]. split; [discriminate|].
  destruct (stop_price_bounds 100 10000 200)
    as (Hhigh & _ & _ & Hlow); [reflexivity | reflexivity | discriminate |].
  split; [exact Hhigh | apply Hlow; discriminate].
Defined.

(** X3.  The stop test never fires when the trailing stop is off, nor, for
    a positive stop, while the price is at or above the high-water mark;
    and once it fires at a price it fires at every lower price. *)
Theorem isStopLossTriggered_monotone highest leveragedAmount stopLoss :
  0 < highest -> 0 <= leveragedAmount -> 0 < stopLoss ->
  (forall price,
      isStopLossTriggered price highest leveragedAmount stopLoss false
      = false)
  /\ (forall price,
         highest <= price ->
         isStopLossTriggered price highest leveragedAmount stopLoss true
         = false)
  /\ (forall price lower,
         lower <= price ->
         isStopLossTriggered price highest leveragedAmount stopLoss true
         = true ->
         isStopLossTriggered lower highest leveragedAmount stopLoss true
         = true).
Proof.
  intros Hh Hl Hs. split; [reflexivity|].
  assert (Hdiv : forall a b, a <= b ->
                   (highest - b) / highest <= (highest - a) / highest).
  { intros a b Hab. unfold Qdiv. apply Qmult_le_compat_r; [lra|].
    apply Qlt_le_weak, Qinv_lt_0_compat, Hh. }
  split.
  - intros price Hp. unfold isStopLossTriggered. simpl. apply Qgeb_false.
    assert (H0 : (highest - price) / highest <= 0).
    { apply Qle_shift_div_r; lra. }
    assert (leveragedAmount * ((highest - price) / highest)
            <= leveragedAmount * 0).
    { destruct (Qle_lt_or_eq _ _ Hl) as [Hlt | Heq].
      - apply Qmult_le_l; assumption.
      - rewrite <- Heq. lra. }
    lra.
  - intros price lower Hlp. unfold isStopLossTriggered. simpl.
    rewrite !Qgeb_true. intro Ht.
    assert (leveragedAmount * ((highest - price) / highest)
            <= leveragedAmount * ((highest - lower) / highest)).
    { destruct (Qle_lt_or_eq _ _ Hl) as [Hlt | Heq].
      - apply Qmult_le_l; [exact Hlt | apply Hdiv, Hlp].
      - rewrite <- Heq. lra. }
    lra.
Qed.

Lemma isStopLossTriggered_monotone_witness :
  0 < 100 /\ 0 <= 10000 /\ 0 < 200
  /\ isStopLossTriggered 100 100 10000 200 true = false.
Proof.
  split; [reflexivity|]. split; [discriminate|]. split; [reflexivity|].
  destruct (isStopLossTriggered_monotone 100 10000 200)
    as (_ & Hno & _); [reflexivity | discriminate | reflexivity |].
  apply Hno. discriminate.
Defined.

(** ** The fee loop *)

Lemma dailyFee_nonneg pct (p : Pos.t) :
  0 <= pct -> 0 <= Pos.baseAmount p -> 0 <= pct / 100 * Pos.baseAmount p.
Proof.
  intros Hp Hb. apply Qmult_le_0_compat; [|exact Hb].
  apply Qle_shift_div_l; lra.
Qed.




(** X5.  While cash is not negative (fee rate and base amounts not
    negative), the fee loop never takes more than the cash there is: cash
    stays non-negative and does not grow, [totalFees] does not shrink, and
    what leaves cash is what enters [totalFees]. *)
Theorem fee_loop_nonnegative pct date ps :
  0 <= pct -> Forall (fun p => 0 <= Pos.baseAmount p) ps ->
  forall cash fees ps' cash' fees',
    0 <= cash ->
    feeLoop pct date ps cash fees = (ps', cash', fees') ->
    0 <= cash' /\ cash' <= cash /\ fees <= fees'
    /\ cash - cash' == fees' - fees.
Proof.
  intros Hp. induction 1 as [|p ps Hb Hps IH]; simpl;
    intros cash fees ps' cash' fees' Hc H.
  - inversion H; subst. repeat split; lra.
  - pose proof (dailyFee_nonneg pct p Hp Hb) as Hfee.
    destruct (negb (String.eqb (Pos.lastFeeDate p) date)).
    + destruct (Qgeb cash (pct / 100 * Pos.baseAmount p)) eqn:E.
      * apply Qgeb_true in E.
        destruct (feeLoop pct date ps _ _) as [[r c] f] eqn:El.
        inversion H; subst.
        apply IH in El as (E1 & E2 & E3 & E4); [|lra].
        repeat split; lra.
      * inversion H; subst. repeat split; lra.
    + destruct (feeLoop pct date ps _ _) as [[r c] f] eqn:El.
      inversion H; subst. apply IH in El as (E1 & E2 & E3 & E4); [|lra].
      repeat split; lra.
Qed.

Lemma fee_loop_nonnegative_witness :
  let p := newPosition defaultParams (priceRow "d1" 100 100 100 100) 10000 in
  0 <= 0.1
  /\ Forall (fun p => 0 <= Pos.baseAmount p) [p; p]
  /\ 0 <= 0.05
  /\ 0 <= snd (fst (feeLoop 0.1 "d2" [p; p] 0.05 0)).
Proof.
  intro p.
  assert (H1 : 0 <= 0.1) by qcompute.
  assert (H2 : Forall (fun p => 0 <= Pos.baseAmount p) [p; p]).
  { repeat constructor; qcompute. }
  assert (H3 : 0 <= 0.05) by qcompute.
  split; [exact H1|]. split; [exact H2|]. split; [exact H3|].
  destruct (feeLoop 0.1 "d2" [p; p] 0.05 0) as [[ps' c'] f'] eqn:E.
  destruct (fee_loop_nonnegative 0.1 "d2" [p; p] H1 H2 _ _ _ _ _ H3 E)
    as (Hc & _).
  exact Hc.
Defined.

(** ** Drawdown *)

Lemma drop_ratio_mono p p' e :
  0 < p -> p <= p' -> 0 <= e -> (p - e) / p <= (p' - e) / p'.
Proof.
  intros Hp Hpp He.
  assert (Hp' : 0 < p') by lra.
  set (z := e / p').
  assert (Hz : z * p' == e) by (unfold z; field; lra).
  assert (Hz0 : 0 <= z) by (apply Qle_shift_div_l; lra).
  assert (Hy : (p' - e) / p' == 1 - z) by (unfold z; field; lra).
  rewrite Hy. apply Qle_shift_div_r; [exact Hp|].
  assert (H0 : 0 <= z * (p' - p)) by (apply Qmult_le_0_compat; lra).
  assert (H1 : z * (p' - p) == z * p' - z * p) by ring.
  assert (H2 : (1 - z) * p == p - z * p) by ring.
  rewrite H2. set (zp := z * p) in *. lra.
Qed.

Lemma drawdown_fold l :
  forall m pk,
    0 <= m -> 0 < pk -> Forall (fun e => 0 < Equity.equity e) l ->
    let r := fold_left drawdownStep l (m, pk) in
    m <= fst r
    /\ pk <= snd r
    /\ (m < 1 -> fst r < 1)
    /\ (forall b, In b l ->
        forall p0, 0 < p0 -> p0 <= pk ->
                   (p0 - Equity.equity b) / p0 <= fst r)
    /\ (forall l1 a l2 b l3,
           l = l1 ++ a :: l2 ++ b :: l3 ->
           (Equity.equity a - Equity.equity b) / Equity.equity a <= fst r).
Proof.
  induction l as [|x l IH]; intros m pk Hm Hpk Hpos.
  - simpl. repeat split; try lra.
    + intros b [].
    + intros l1 a l2 b l3 H. destruct l1; discriminate H.
  - apply Forall_cons_iff in Hpos as [Hx Hl]. simpl.
    destruct (Qgtb (Equity.equity x) pk) eqn:E.
    + apply Qgtb_true in E.
      destruct (IH m (Equity.equity x) Hm Hx Hl) as (I1 & I2 & I3 & I4 & I5).
      split; [exact I1|]. split; [lra|]. split; [exact I3|]. split.
      * intros b [Hb | Hb] p0 H0 Hp0.
        -- subst b.
           assert ((p0 - Equity.equity x) / p0 <= 0).
           { apply Qle_shift_div_r; lra. }
           lra.
        -- apply I4; [exact Hb | exact H0 | lra].
      * intros l1 a l2 b l3 H. destruct l1 as [|y l1]; simpl in H.
        -- injection H as Ha Hl'. subst a.
           apply I4; [rewrite Hl'; apply in_elt | exact Hx | lra].
        -- injection H as _ Hl'. eapply I5. exact Hl'.
    + apply Qgtb_false in E.
      set (d := (pk - Equity.equity x) / pk).
      assert (Hd : d < 1).
      { unfold d. apply Qlt_shift_div_r; lra. }
      assert (Hm1 : 0 <= Qmax m d).
      { eapply Qle_trans; [exact Hm | apply Q.le_max_l]. }
      destruct (IH (Qmax m d) pk Hm1 Hpk Hl) as (I1 & I2 & I3 & I4 & I5).
      pose proof (Q.le_max_l m d) as Hml.
      pose proof (Q.le_max_r m d) as Hmr.
      split; [lra|]. split; [exact I2|]. split; [|split].
      * intro Hlt. apply I3. apply Q.max_lub_lt; assumption.
      * intros b [Hb | Hb] p0 H0 Hp0.
        -- subst b.
           pose proof (drop_ratio_mono p0 pk (Equity.equity x) H0 Hp0
                         (Qlt_le_weak _ _ Hx)) as Hmono.
           fold d in Hmono. lra.
        -- apply I4; assumption.
      * intros l1 a l2 b l3 H. destruct l1 as [|y l1]; simpl in H.
        -- injection H as Ha Hl'. subst a.
           apply I4; [rewrite Hl'; apply in_elt | exact Hx | exact E].
        -- injection H as _ Hl'. eapply I5. exact Hl'.
Qed.

Lemma drawdown_attained l :
  forall m pk,
    let r := fold_left drawdownStep l (m, pk) in
    fst r == m
    \/ (exists l2 b l3,
           l = l2 ++ b :: l3 /\ fst r == (pk - Equity.equity b) / pk)
    \/ (exists l1 a l2 b l3,
           l = l1 ++ a :: l2 ++ b :: l3
           /\ fst r
              == (Equity.equity a - Equity.equity b) / Equity.equity a).
Proof.
  induction l as [|x l IH]; intros m pk; simpl.
  - left. reflexivity.
  - destruct (Qgtb (Equity.equity x) pk).
    + destruct (IH m (Equity.equity x))
        as [H | [(l2 & b & l3 & H1 & H2)
                | (l1 & a & l2 & b & l3 & H1 & H2)]].
      * left. exact H.
      * right. right. exists [], x, l2, b, l3. simpl.
        split; [rewrite H1; reflexivity | exact H2].
      * right. right. exists (x :: l1), a, l2, b, l3. simpl.
        split; [rewrite H1; reflexivity | exact H2].
    + destruct (IH (Qmax m ((pk - Equity.equity x) / pk)) pk)
        as [H | [(l2 & b & l3 & H1 & H2)
                | (l1 & a & l2 & b & l3 & H1 & H2)]].
      * destruct (Q.max_dec m ((pk - Equity.equity x) / pk)) as [Hd | Hd].
        -- left. rewrite H. exact Hd.
        -- right. left. exists [], x, l. simpl.
           split; [reflexivity | rewrite H; exact Hd].
      * right. left. exists (x :: l2), b, l3. simpl.
        split; [rewrite H1; reflexivity | exact H2].
      * right. right. exists (x :: l1), a, l2, b, l3. simpl.
        split; [rewrite H1; reflexivity | exact H2].
Qed.

Lemma StronglySorted_suffix {A} (R : A -> A -> Prop) (l l' : list A) :
  StronglySorted R (l ++ l') -> StronglySorted R l'.
Proof.
  induction l as [|a l IH]; simpl; intro H; [exact H|].
  apply StronglySorted_inv in H as [H _]. apply IH, H.
Qed.

(** X6.  On an equity curve of positive values [calculateDrawdown] is the
    largest relative drop from a point of the curve to a later point, or 0
    when there is none: it is at least 0 and below 1, it bounds
    [(a - b) / a] for every point [a] followed later by a point [b], it is
    0 or one of these ratios, and it is 0 on a curve that never falls. *)
Theorem max_drawdown_is_largest_drop equityCurve :
  Forall (fun e => 0 < Equity.equity e) equityCurve ->
  let dd := calculateDrawdown equityCurve in
  0 <= dd /\ dd < 1
  /\ (forall l1 a l2 b l3,
         equityCurve = l1 ++ a :: l2 ++ b :: l3 ->
         (Equity.equity a - Equity.equity b) / Equity.equity a <= dd)
  /\ (dd == 0
      \/ exists l1 a l2 b l3,
          equityCurve = l1 ++ a :: l2 ++ b :: l3
          /\ dd == (Equity.equity a - Equity.equity b) / Equity.equity a)
  /\ (StronglySorted (fun a b => Equity.equity a <= Equity.equity b)
                     equityCurve ->
      dd == 0).
Proof.
  intros Hpos dd.
  assert (Hmain :
            0 <= dd /\ dd < 1
            /\ (forall l1 a l2 b l3,
                   equityCurve = l1 ++ a :: l2 ++ b :: l3 ->
                   (Equity.equity a - Equity.equity b) / Equity.equity a
                   <= dd)
            /\ (dd == 0
                \/ exists l1 a l2 b l3,
                    equityCurve = l1 ++ a :: l2 ++ b :: l3
                    /\ dd == (Equity.equity a - Equity.equity b)
                             / Equity.equity a)).
  { unfold dd, calculateDrawdown.
    destruct equityCurve as [|first rest].
    - split; [lra|]. split; [lra|]. split; [|left; reflexivity].
      intros l1 a l2 b l3 H. destruct l1; discriminate H.
    - pose proof Hpos as Hall. apply Forall_cons_iff in Hpos as [Hf _].
      destruct (drawdown_fold (first :: rest) 0 (Equity.equity first)
                              (Qle_refl 0) Hf Hall)
        as (I1 & _ & I3 & _ & I5).
      split; [exact I1|]. split; [apply I3; lra|]. split; [exact I5|].
      destruct (drawdown_attained (first :: rest) 0 (Equity.equity first))
        as [H | [(l2 & b & l3 & H1 & H2)
                | (l1 & a & l2 & b & l3 & H1 & H2)]].
      + left. exact H.
      + destruct l2 as [|y l2]; simpl in H1.
        * injection H1 as Hb _. subst b. left. rewrite H2.
          unfold Qdiv. ring.
        * injection H1 as Hy Hr. subst y. right.
          exists [], first, l2, b, l3. simpl.
          split; [rewrite Hr; reflexivity | exact H2].
      + right. exists l1, a, l2, b, l3. split; assumption. }
  destruct Hmain as (H0 & H1 & Hub & Hatt).
  split; [exact H0|]. split; [exact H1|]. split; [exact Hub|].
  split; [exact Hatt|].
  intro Hs. destruct Hatt as [Hz | (l1 & a & l2 & b & l3 & Hc & Hd)];
    [exact Hz|].
  assert (Hab : Equity.equity a <= Equity.equity b).
  { rewrite Hc in Hs. apply StronglySorted_suffix in Hs.
    apply StronglySorted_inv in Hs as [_ Hfa].
    rewrite Forall_forall in Hfa. apply Hfa, in_elt. }
  assert (Ha : 0 < Equity.equity a).
  { rewrite Forall_forall in Hpos. apply Hpos. rewrite Hc. apply in_elt. }
  assert ((Equity.equity a - Equity.equity b) / Equity.equity a <= 0).
  { apply Qle_shift_div_r; lra. }
  lra.
Qed.

Lemma max_drawdown_is_largest_drop_witness :
  let curve := [Equity.mk "d1" 100; Equity.mk "d2" 80; Equity.mk "d3" 120] in
  Forall (fun e => 0 < Equity.equity e) curve
  /\ (100 - 80) / 100 <= calculateDrawdown curve.
Proof.
  intro curve.
  assert (Hpos : Forall (fun e => 0 < Equity.equity e) curve).
  { repeat constructor. }
  split; [exact Hpos|].
  destruct (max_drawdown_is_largest_drop curve Hpos) as (_ & _ & Hub & _).
  apply (Hub [] (Equity.mk "d1" 100) [] (Equity.mk "d2" 80)
             [Equity.mk "d3" 120]).
  reflexivity.
Defined.

Lemma Qmax_scale m d : Qmax (100 * m) (d * 100) == 100 * Qmax m d.
Proof.
  destruct (Qlt_le_dec m d) as [H | H].
  - rewrite (Q.max_r m d) by lra.
    rewrite (Q.max_r (100 * m) (d * 100)) by lra. ring.
  - rewrite (Q.max_l m d) by lra.
    rewrite (Q.max_l (100 * m) (d * 100)) by lra. ring.
Qed.

Lemma drawdownPercent_fold l :
  forall m1 m2 pk,
    0 <= m1 -> m2 == 100 * m1 ->
    fst (fold_left drawdownPercentStep l (m2, pk))
    == 100 * fst (fold_left drawdownStep l (m1, pk)).
Proof.
  induction l as [|x l IH]; intros m1 m2 pk Hm Heq; simpl.
  - exact Heq.
  - destruct (Qgtb (Equity.equity x) pk).
    + apply IH; [exact Hm|].
      assert (Hz : (Equity.equity x - Equity.equity x) / Equity.equity x
                   * 100 == 0).
      { unfold Qdiv. ring. }
      rewrite <- Heq. apply Q.max_l. lra.
    + apply IH.
      * eapply Qle_trans; [exact Hm | apply Q.le_max_l].
      * rewrite <- Qmax_scale.
        destruct (Qlt_le_dec (100 * m1)
                             ((pk - Equity.equity x) / pk * 100)) as [H | H].
        -- rewrite !Q.max_r by lra. reflexivity.
        -- rewrite !Q.max_l by lra. exact Heq.
Qed.

(** X7.  The drawdown of the second component is the drawdown of the first
    as a percentage: on a non-empty curve of positive values it returns 100
    times [calculateDrawdown].  On an empty curve it throws (it reads
    [equityCurve[0].equity]) where the first returns 0. *)
Theorem drawdown_percent_is_scaled equityCurve :
  calculateDrawdownPercent [] = None
  /\ calculateDrawdown [] = 0
  /\ (equityCurve <> [] ->
      Forall (fun e => 0 < Equity.equity e) equityCurve ->
      exists v,
        calculateDrawdownPercent equityCurve = Some v
        /\ v == 100 * calculateDrawdown equityCurve).
Proof.
  split; [reflexivity|]. split; [reflexivity|].
  intros Hne _. destruct equityCurve as [|first rest]; [congruence|].
  eexists. split; [reflexivity|].
  unfold calculateDrawdown. apply drawdownPercent_fold; [apply Qle_refl|].
  ring.
Qed.

Lemma drawdown_percent_is_scaled_witness :
  let curve := [Equity.mk "d1" 100; Equity.mk "d2" 80] in
  curve <> []
  /\ exists v,
      calculateDrawdownPercent curve = Some v
      /\ v == 100 * calculateDrawdown curve.
Proof.
  intro curve. split; [discriminate|].
  destruct (drawdown_percent_is_scaled curve) as (_ & _ & H).
  apply H; [discriminate | repeat constructor].
Defined.

(** ** Longest run of losses *)

Lemma runFrom_upper {A} (f : A -> bool) (l : list A) :
  forall best current,
    (current <= best)%nat ->
    (best <= runFrom f best current l)%nat
    /\ (forall run after,
           l = run ++ after -> Forall (fun x => f x = true) run ->
           (current + List.length run <= runFrom f best current l)%nat)
    /\ (forall run, isRunOf f l run ->
                    (List.length run <= runFrom f best current l)%nat).
Proof.
  induction l as [|x l IH]; intros best current Hc; simpl.
  - split; [lia|]. split.
    + intros run after H _. destruct run; [simpl; lia | discriminate H].
    + intros run [(before & after & H) _].
      destruct before; [destruct run; [simpl; lia | discriminate H]
                       | discriminate H].
  - destruct (f x) eqn:E.
    + destruct (IH (Nat.max best (S current)) (S current))
        as (I1 & I2 & I3); [lia|].
      split; [lia|].
      assert (Hpre : forall run after,
                 x :: l = run ++ after -> Forall (fun y => f y = true) run ->
                 (current + List.length run
                  <= runFrom f (Nat.max best (S current)) (S current) l)%nat).
      { intros run after H Hr. destruct run as [|y run]; simpl in *; [lia|].
        injection H as _ H. apply Forall_cons_iff in Hr as [_ Hr].
        specialize (I2 run after H Hr). lia. }
      split; [exact Hpre|].
      intros run [(before & after & H) Hr].
      destruct before as [|y before]; simpl in H.
      * specialize (Hpre run after H Hr). lia.
      * injection H as _ H. apply I3. split; [|exact Hr].
        exists before, after. exact H.
    + destruct (IH best 0%nat) as (I1 & I2 & I3); [lia|].
      split; [exact I1|].
      assert (Hpre : forall run after,
                 x :: l = run ++ after -> Forall (fun y => f y = true) run ->
                 run = []).
      { intros run after H Hr. destruct run as [|y run]; [reflexivity|].
        simpl in H. injection H as Hy _. subst y.
        apply Forall_cons_iff in Hr as [Hx _]. congruence. }
      split.
      * intros run after H Hr. rewrite (Hpre run after H Hr). simpl. lia.
      * intros run [(before & after & H) Hr].
        destruct before as [|y before]; simpl in H.
        -- rewrite (Hpre run after H Hr). simpl. lia.
        -- injection H as _ H. apply I3. split; [|exact Hr].
           exists before, after. exact H.
Qed.

Lemma runFrom_attained {A} (f : A -> bool) (l : list A) :
  forall best current,
    runFrom f best current l = best
    \/ (exists run after,
           l = run ++ after /\ Forall (fun x => f x = true) run
           /\ runFrom f best current l = (current + List.length run)%nat)
    \/ (exists run, isRunOf f l run
                    /\ runFrom f best current l = List.length run).
Proof.
  induction l as [|x l IH]; intros best current; simpl.
  - left. reflexivity.
  - destruct (f x) eqn:E.
    + destruct (IH (Nat.max best (S current)) (S current))
        as [H | [(run & after & H1 & H2 & H3) | (run & [Hd Hr] & H3)]].
      * destruct (Nat.max_spec best (S current)) as [[_ Hm] | [_ Hm]].
        -- right. left. exists [x], l. simpl.
           split; [reflexivity|]. split; [repeat constructor; exact E|].
           lia.
        -- left. lia.
      * right. left. exists (x :: run), after. simpl.
        split; [rewrite H1; reflexivity|].
        split; [constructor; assumption | lia].
      * right. right. exists run. split; [|exact H3]. split; [|exact Hr].
        destruct Hd as (before & after & Hd). exists (x :: before), after.
        rewrite Hd. reflexivity.
    + destruct (IH best 0%nat)
        as [H | [(run & after & H1 & H2 & H3) | (run & [Hd Hr] & H3)]].
      * left. exact H.
      * right. right. exists run. split; [|exact H3]. split; [|exact H2].
        exists [x], after. rewrite H1. reflexivity.
      * right. right. exists run. split; [|exact H3]. split; [|exact Hr].
        destruct Hd as (before & after & Hd). exists (x :: before), after.
        rewrite Hd. reflexivity.
Qed.

Lemma runFrom_longest {A} (f : A -> bool) (l : list A) :
  isLongestRun f l (runFrom f 0 0 l).
Proof.
  split.
  - destruct (runFrom_attained f l 0%nat 0%nat)
      as [H | [(run & after & H1 & H2 & H3) | (run & Hr & H3)]].
    + exists []. split; [|simpl; lia]. split; [|constructor].
      exists [], l. reflexivity.
    + exists run. split; [|simpl in H3; lia]. split; [|exact H2].
      exists [], after. exact H1.
    + exists run. split; [exact Hr | lia].
  - intros run Hr.
    destruct (runFrom_upper f l 0%nat 0%nat) as (_ & _ & H); [lia|].
    apply H, Hr.
Qed.

Lemma consecutiveLossesFrom_runFrom ts :
  forall best current,
    Utils.consecutiveLossesFrom best current ts
    = runFrom (fun t => Utils.nlt (Utils.pnl t) (Utils.Fin 0)) best current
              ts.
Proof.
  induction ts as [|t ts IH]; intros best current;
    cbn [Utils.consecutiveLossesFrom runFrom]; [reflexivity|].
  destruct (Utils.nlt (Utils.pnl t) (Utils.Fin 0)); apply IH.
Qed.

(** X8.  [calculateMaxConsecutiveLosses] returns the length of the longest
    run of consecutive trades with [pnl < 0]: the ledger contains a run of
    losing trades of that length, and none that is longer.  (A trade whose
    [pnl] is NaN counts as not losing.) *)
Theorem calculateMaxConsecutiveLosses_longest tradeHistory :
  isLongestRun (fun t => Utils.nlt (Utils.pnl t) (Utils.Fin 0)) tradeHistory
               (Utils.calculateMaxConsecutiveLosses tradeHistory).
Proof.
  unfold Utils.calculateMaxConsecutiveLosses.
  rewrite consecutiveLossesFrom_runFrom. apply runFrom_longest.
Qed.

(** ** Metrics of utils.ts on ledgers that are not empty *)

Lemma filter_length_le {A} (f : A -> bool) (l : list A) :
  (List.length (filter f l) <= List.length l)%nat.
Proof.
  induction l as [|x l IH]; simpl; [lia|]. destruct (f x); simpl; lia.
Qed.

Lemma ofNat_pos n : (0 < n)%nat -> 0 < ofNat n.
Proof.
  intro H. unfold ofNat. change 0 with (inject_Z 0). rewrite <- Zlt_Qlt. lia.
Qed.

Lemma ofNat_le n m : (n <= m)%nat -> ofNat n <= ofNat m.
Proof. intro H. unfold ofNat. rewrite <- Zle_Qle. lia. Qed.

Lemma Qeq_bool_pos q : 0 < q -> Qeq_bool q 0 = false.
Proof.
  intro H. apply not_true_iff_false. intro E. apply Qeq_bool_iff in E. lra.
Qed.

(** X9.  On a ledger that is not empty [winRate] is a finite number
    between 0 and 1: the share of trades with [pnl > 0]. *)
Theorem winRate_defined (sqrt : Utils.number -> Utils.number)
        tradeHistory equityCurve :
  tradeHistory <> [] ->
  exists q,
    Utils.winRate
      (Utils.calculatePerformanceMetrics sqrt tradeHistory equityCurve)
    = Utils.Fin q
    /\ 0 <= q /\ q <= 1
    /\ q == ofNat (List.length
                     (filter (fun t => Utils.ngt (Utils.pnl t) (Utils.Fin 0))
                             tradeHistory))
            / ofNat (List.length tradeHistory).
Proof.
  intro Hne.
  set (wins := filter (fun t => Utils.ngt (Utils.pnl t) (Utils.Fin 0))
                      tradeHistory).
  assert (Hlen : (0 < List.length tradeHistory)%nat).
  { destruct tradeHistory; [congruence | simpl; lia]. }
  pose proof (ofNat_pos _ Hlen) as Hpos.
  pose proof (ofNat_le _ _ (filter_length_le
                              (fun t => Utils.ngt (Utils.pnl t) (Utils.Fin 0))
                              tradeHistory)) as Hle.
  fold wins in Hle.
  exists (ofNat (List.length wins) / ofNat (List.length tradeHistory)).
  split; [|split; [|split]].
  - unfold Utils.calculatePerformanceMetrics. cbn [Utils.winRate].
    fold wins. unfold Utils.ofLength, Utils.ndiv.
    rewrite (Qeq_bool_pos _ Hpos). reflexivity.
  - apply Qle_shift_div_l; [exact Hpos|].
    assert (0 <= ofNat (List.length wins)).
    { change 0 with (ofNat 0). apply ofNat_le. lia. }
    lra.
  - apply Qle_shift_div_r; [exact Hpos | lra].
  - reflexivity.
Qed.

Lemma winRate_defined_witness :
  map recordWithPnl [10; 10; 10; -10] <> []
  /\ exists q,
      Utils.winRate
        (Utils.calculatePerformanceMetrics (fun x => x)
           (map recordWithPnl [10; 10; 10; -10]) [])
      = Utils.Fin q
      /\ 0 <= q /\ q <= 1.
Proof.
  split; [discriminate|].
  destruct (winRate_defined (fun x => x)
              (map recordWithPnl [10; 10; 10; -10]) [])
    as (q & H1 & H2 & H3 & _); [discriminate|].
  exists q. split; [exact H1|]. split; [exact H2 | exact H3].
Defined.

Lemma ndiv_by_zero_not_finite x d q :
  Qeq_bool d 0 = true -> Utils.ndiv x (Utils.Fin d) <> Utils.Fin q.
Proof.
  intro Hd. destruct x as [a| | |]; simpl; rewrite ?Hd.
  - destruct (a ?= 0); discriminate.
  - destruct (Qltb d 0); discriminate.
  - destruct (Qltb d 0); discriminate.
  - discriminate.
Qed.

Lemma ndiv_by_NaN x : Utils.ndiv x Utils.NaN = Utils.NaN.
Proof. destruct x; reflexivity. Qed.

Lemma filter_none {A} (f : A -> bool) (l : list A) :
  Forall (fun x => f x = false) l -> filter f l = [].
Proof.
  induction 1 as [|x l Hx _ IH]; simpl; [reflexivity|]. rewrite Hx. exact IH.
Qed.

(** X10.  On a ledger without a losing trade [profitFactor] is never a
    finite number: [averageLoss] is 0, so the quotient is NaN or an
    infinity, whatever the wins and the equity curve are. *)
Theorem profitFactor_undefined_without_losses
        (sqrt : Utils.number -> Utils.number) tradeHistory equityCurve :
  Forall (fun t => Utils.nlt (Utils.pnl t) (Utils.Fin 0) = false)
         tradeHistory ->
  let m := Utils.calculatePerformanceMetrics sqrt tradeHistory equityCurve in
  Utils.averageLoss m = Utils.Fin 0
  /\ forall q, Utils.profitFactor m <> Utils.Fin q.
Proof.
  intros Hno m. unfold m, Utils.calculatePerformanceMetrics.
  cbn [Utils.averageLoss Utils.profitFactor].
  rewrite (filter_none _ _ Hno). cbn [List.length Nat.ltb Nat.leb].
  split; [reflexivity|]. intro q.
  set (winRate := Utils.ndiv _ (Utils.ofLength tradeHistory)).
  set (num := Utils.nmul _ winRate).
  destruct (Utils.nsub (Utils.Fin 1) winRate) as [r| | |];
    cbn [Utils.nmul Utils.infOfSign Utils.flipSign Qcompare CompOpp].
  - apply ndiv_by_zero_not_finite. apply Qeq_bool_iff. ring.
  - rewrite ndiv_by_NaN. discriminate.
  - rewrite ndiv_by_NaN. discriminate.
  - rewrite ndiv_by_NaN. discriminate.
Qed.

Lemma profitFactor_undefined_without_losses_witness :
  Forall (fun t => Utils.nlt (Utils.pnl t) (Utils.Fin 0) = false)
         (map recordWithPnl [10; 20])
  /\ forall q,
      Utils.profitFactor
        (Utils.calculatePerformanceMetrics (fun x => x)
           (map recordWithPnl [10; 20]) [])
      <> Utils.Fin q.
Proof.
  assert (H : Forall (fun t => Utils.nlt (Utils.pnl t) (Utils.Fin 0) = false)
                     (map recordWithPnl [10; 20])).
  { repeat constructor. }
  split; [exact H|].
  apply (profitFactor_undefined_without_losses (fun x => x) _ [] H).
Defined.

(** ** [validateRiskManagement] *)

(** X11.  With finite limits, [validateRiskManagement] rejects every
    capital of 0 or less, whatever the market value.  For a positive
    capital it is monotone in the market value: when a market value is
    accepted, so is every smaller one; and a market value of 0 is accepted
    whenever the position size and the leverage limit are not negative. *)
Theorem validateRiskManagement_monotone params positionSize leverage capital :
  Utils.positionSize params = Utils.Fin positionSize ->
  Utils.leverage params = Utils.Fin leverage ->
  (capital <= 0 ->
   forall marketValue,
     Utils.validateRiskManagement (Utils.Fin capital) marketValue params
     = false)
  /\ (0 < capital ->
      forall marketValue smaller,
        smaller <= marketValue ->
        Utils.validateRiskManagement (Utils.Fin capital)
                                     (Utils.Fin marketValue) params = true ->
        Utils.validateRiskManagement (Utils.Fin capital)
                                     (Utils.Fin smaller) params = true)
  /\ (0 < capital -> 0 <= positionSize -> 0 <= leverage ->
      Utils.validateRiskManagement (Utils.Fin capital) (Utils.Fin 0) params
      = true).
Proof.
  intros Hps Hlv.
  assert (Hunfold : 0 < capital ->
            forall marketValue,
              Utils.validateRiskManagement (Utils.Fin capital)
                                           (Utils.Fin marketValue) params
              = negb (Qgtb (marketValue / capital) leverage)
                && negb (Qgtb marketValue
                              (capital * (positionSize / 100) * leverage))).
  { intros Hc mv. unfold Utils.validateRiskManagement. rewrite Hps, Hlv.
    cbn [Utils.nle].
    assert (Ec : Qleb capital 0 = false) by (apply (Qgeb_false 0), Hc).
    rewrite Ec. cbn [Utils.ndiv]. rewrite (Qeq_bool_pos _ Hc).
    change (Qeq_bool 100 0) with false. cbn [Utils.ngt Utils.nmul].
    destruct (Qgtb (mv / capital) leverage); [reflexivity|].
    destruct (Qgtb mv (capital * (positionSize / 100) * leverage));
      reflexivity. }
  split; [|split].
  - intros Hc mv. unfold Utils.validateRiskManagement. cbn [Utils.nle].
    assert (Ec : Qleb capital 0 = true) by (apply Qle_bool_iff, Hc).
    rewrite Ec. reflexivity.
  - intros Hc mv smaller Hle. rewrite !(Hunfold Hc).
    rewrite !andb_true_iff, !negb_true_iff, !Qgtb_false.
    intros [H1 H2]. split; [|lra].
    assert (smaller / capital <= mv / capital); [|lra].
    unfold Qdiv. apply Qmult_le_compat_r; [exact Hle|].
    apply Qlt_le_weak, Qinv_lt_0_compat, Hc.
  - intros Hc Hs Hl. rewrite (Hunfold Hc).
    rewrite andb_true_iff, !negb_true_iff, !Qgtb_false. split.
    + assert (H0 : 0 / capital == 0) by (unfold Qdiv; ring). lra.
    + apply Qmult_le_0_compat; [|exact Hl].
      apply Qmult_le_0_compat; [lra|].
      apply Qle_shift_div_l; lra.
Qed.

Lemma validateRiskManagement_monotone_witness :
  0 < 10000 /\ 1000000 <= 1500000
  /\ Utils.validateRiskManagement (Utils.Fin 10000) (Utils.Fin 1500000)
                                  (riskParams 15 1000) = true
  /\ Utils.validateRiskManagement (Utils.Fin 10000) (Utils.Fin 1000000)
                                  (riskParams 15 1000) = true.
Proof.
  assert (Hc : 0 < 10000) by reflexivity.
  assert (Hle : 1000000 <= 1500000) by discriminate.
  assert (Ha : Utils.validateRiskManagement (Utils.Fin 10000)
                 (Utils.Fin 1500000) (riskParams 15 1000) = true)
    by reflexivity.
  split; [exact Hc|]. split; [exact Hle|]. split; [exact Ha|].
  destruct (validateRiskManagement_monotone (riskParams 15 1000) 15 1000
              10000 eq_refl eq_refl) as (_ & Hmono & _).
  exact (Hmono Hc 1500000 1000000 Hle Ha).
Defined.

(** X12.  A NaN slips through [validateRiskManagement]: every comparison
    with NaN is false, so a NaN capital is accepted whatever the market
    value and the parameters are, and so is a NaN market value once the
    capital passes the first test. *)
Theorem validateRiskManagement_accepts_NaN params :
  (forall marketValue,
      Utils.validateRiskManagement Utils.NaN marketValue params = true)
  /\ (forall capital,
         Utils.nle capital (Utils.Fin 0) = false ->
         Utils.validateRiskManagement capital Utils.NaN params = true).
Proof.
  split.
  - intro mv. unfold Utils.validateRiskManagement. cbn [Utils.nle].
    rewrite ndiv_by_NaN. cbn [Utils.ngt Utils.nmul].
    destruct mv; reflexivity.
  - intros c Hc. unfold Utils.validateRiskManagement. rewrite Hc.
    reflexivity.
Qed.

Lemma validateRiskManagement_accepts_NaN_witness :
  Utils.nle Utils.PosInf (Utils.Fin 0) = false
  /\ Utils.validateRiskManagement Utils.PosInf Utils.NaN (riskParams 15 1000)
     = true.
Proof.
  split; [reflexivity|].
  destruct (validateRiskManagement_accepts_NaN (riskParams 15 1000))
    as [_ H].
  apply H. reflexivity.
Defined.

(** ** [validateParams] and NaN *)

Section FormParameters.

Import Binary64.
Local Open Scope float_scope.

(** X13.  [validateParams] rejects exactly when one of its eight
    comparisons holds.  Every comparison with NaN is false, so a NaN never
    causes a rejection: replacing any numeric field of an accepted record
    by NaN leaves it accepted, and the record whose numeric fields are all
    NaN (what the form stores for empty inputs) is accepted. *)
Theorem validateParams_ignores_NaN r :
  (validateParams r = true
   <-> (Params.investmentCapital r <=? 0) = false
       /\ (Params.positionSizePercent r <=? 0) = false
       /\ (100 <? Params.positionSizePercent r) = false
       /\ (Params.leverage r <=? 0) = false
       /\ (200 <? Params.leverage r) = false
       /\ (Params.stopLossDollar r <=? 0) = false
       /\ (Params.minPriceMovement r <? 0) = false
       /\ (Params.dailyFeePercent r <? 0) = false)
  /\ (validateParams r = true ->
      validateParams (withCapital r PrimFloat.nan) = true
      /\ validateParams (withPositionSize r PrimFloat.nan) = true
      /\ validateParams (withLeverage r PrimFloat.nan) = true
      /\ validateParams (withStopLoss r PrimFloat.nan) = true
      /\ validateParams (withPriceMovement r PrimFloat.nan) = true
      /\ validateParams (withDailyFee r PrimFloat.nan) = true)
  /\ validateParams emptyForm = true.
Proof.
  assert (Hiff : forall r,
             validateParams r = true
             <-> (Params.investmentCapital r <=? 0) = false
                 /\ (Params.positionSizePercent r <=? 0) = false
                 /\ (100 <? Params.positionSizePercent r) = false
                 /\ (Params.leverage r <=? 0) = false
                 /\ (200 <? Params.leverage r) = false
                 /\ (Params.stopLossDollar r <=? 0) = false
                 /\ (Params.minPriceMovement r <? 0) = false
                 /\ (Params.dailyFeePercent r <? 0) = false).
  { intro r0. unfold validateParams, gtb.
    destruct (Params.investmentCapital r0 <=? 0);
      [split; [discriminate | intros (H & _); discriminate H]|].
    destruct (Params.positionSizePercent r0 <=? 0);
      [split; [discriminate | intros (_ & H & _); discriminate H]|].
    destruct (100 <? Params.positionSizePercent r0);
      [split; [discriminate | intros (_ & _ & H & _); discriminate H]|].
    destruct (Params.leverage r0 <=? 0);
      [split; [discriminate | intros (_ & _ & _ & H & _); discriminate H]|].
    destruct (200 <? Params.leverage r0);
      [split; [discriminate
              | intros (_ & _ & _ & _ & H & _); discriminate H]|].
    destruct (Params.stopLossDollar r0 <=? 0);
      [split; [discriminate
              | intros (_ & _ & _ & _ & _ & H & _); discriminate H]|].
    destruct (Params.minPriceMovement r0 <? 0);
      [split; [discriminate
              | intros (_ & _ & _ & _ & _ & _ & H & _); discriminate H]|].
    destruct (Params.dailyFeePercent r0 <? 0);
      [split; [discriminate
              | intros (_ & _ & _ & _ & _ & _ & _ & H); discriminate H]|].
    simpl. repeat split. }
  split; [apply Hiff|]. split; [|reflexivity].
  intro Hv. apply Hiff in Hv.
  destruct Hv as (H1 & H2 & H3 & H4 & H5 & H6 & H7 & H8).
  repeat split; apply Hiff; cbn [withCapital withPositionSize withLeverage
    withStopLoss withPriceMovement withDailyFee Params.investmentCapital
    Params.positionSizePercent Params.leverage Params.stopLossDollar
    Params.minPriceMovement Params.dailyFeePercent];
    repeat split; try assumption; reflexivity.
Qed.

End FormParameters.

(** * Further properties of the run *)

Lemma validateParams_acceptable params :
  validateParams params = true <-> acceptable params.
Proof.
  split.
  - intro H. apply validateParams_true in H.
    destruct H as (H1 & [H2 H3] & [H4 H5] & H6 & H7 & H8).
    repeat split; assumption.
  - intros (H1 & H2 & H3 & H4 & H5 & H6 & H7 & H8). unfold validateParams.
    assert (E1 : Qleb (Params.investmentCapital params) 0 = false)
      by (apply (Qgeb_false 0), H1).
    assert (E2 : Qleb (Params.positionSizePercent params) 0 = false)
      by (apply (Qgeb_false 0), H2).
    assert (E3 : Qgtb (Params.positionSizePercent params) 100 = false)
      by (apply Qgtb_false, H3).
    assert (E4 : Qleb (Params.leverage params) 0 = false)
      by (apply (Qgeb_false 0), H4).
    assert (E5 : Qgtb (Params.leverage params) 200 = false)
      by (apply Qgtb_false, H5).
    assert (E6 : Qleb (Params.stopLossDollar params) 0 = false)
      by (apply (Qgeb_false 0), H6).
    assert (E7 : Qltb (Params.minPriceMovement params) 0 = false)
      by (apply Qltb_false, H7).
    assert (E8 : Qltb (Params.dailyFeePercent params) 0 = false)
      by (apply Qltb_false, H8).
    rewrite E1, E2, E3, E4, E5, E6, E7, E8. reflexivity.
Qed.

Section RunProperties.

Variable daysHeld : string -> string -> Q.

(** ** Sizing of every ledger entry *)

Lemma sized_by_key params p t :
  keyOfTrade t = keyOfPos p -> sizedPos params p -> sizedTrade params t.
Proof.
  unfold keyOfTrade, keyOfPos, sizedPos, sizedTrade.
  intros H. injection H as _ _ -> -> ->. auto.
Qed.

Lemma sized_by_pos_key params p q :
  keyOfPos q = keyOfPos p -> sizedPos params p -> sizedPos params q.
Proof.
  unfold keyOfPos, sizedPos. intros H. injection H as _ _ -> -> ->. auto.
Qed.

Lemma sameTrade_sized params ps qs :
  Forall2 sameTrade ps qs -> Forall (sizedPos params) ps ->
  Forall (sizedPos params) qs.
Proof.
  induction 1 as [|p q ps qs Hpq _ IH]; intro H; [constructor|].
  apply Forall_cons_iff in H as [Hp Hps]. constructor; [|auto].
  destruct Hpq as (E1 & E2 & _ & E3 & E4 & E5).
  apply (sized_by_pos_key params p); [|exact Hp].
  unfold keyOfPos. congruence.
Qed.

Lemma entered_sized params previousData currentData st :
  acceptable params ->
  Forall (sizedPos params) (entered params previousData currentData st).
Proof.
  intros (_ & Hp0 & Hp1 & _). unfold entered, entryDecision.
  destruct (Qgeb (St.currentCapital st) MIN_TRADING_CAPITAL) eqn:Ec;
    [|constructor].
  destruct (shouldOpenPosition _ _ _); [|constructor].
  destruct (Qgeb _ 1) eqn:Eb; constructor; [|constructor].
  apply Qgeb_true in Ec, Eb. unfold MIN_TRADING_CAPITAL in Ec.
  unfold sizedPos, newPosition in *.
  cbn [Pos.baseAmount Pos.remainingCapitalAtEntry Pos.leveragedAmount] in *.
  split; [exact Ec|]. split; [|split].
  - apply Q.min_l.
    assert (H1 : Params.positionSizePercent params / 100 <= 1).
    { apply Qle_shift_div_r; lra. }
    assert (H2 : 0 <= (1 - Params.positionSizePercent params / 100)
                      * St.currentCapital st).
    { apply Qmult_le_0_compat; lra. }
    assert (H3 : (1 - Params.positionSizePercent params / 100)
                 * St.currentCapital st
                 == St.currentCapital st
                    - Params.positionSizePercent params / 100
                      * St.currentCapital st) by ring.
    lra.
  - exact Eb.
  - reflexivity.
Qed.

Lemma dayStep_sized params previousData currentData st :
  acceptable params ->
  Forall (sizedPos params) (St.activePositions st)
  /\ Forall (sizedTrade params) (St.tradeHistory st) ->
  let st' := dayStep daysHeld params previousData currentData st in
  Forall (sizedPos params) (St.activePositions st')
  /\ Forall (sizedTrade params) (St.tradeHistory st').
Proof.
  intros Hacc [Ha Ht]. unfold dayStep.
  set (st1 := feeStage params (Price.date currentData) st).
  set (st2 := exitStage daysHeld params currentData st1).
  set (st3 := entryStage params previousData currentData st2).
  destruct (feeStage_spec params (Price.date currentData) st)
    as (_ & F2 & F3 & _). fold st1 in F2, F3.
  destruct (exitStage_spec daysHeld params currentData st1)
    as (closed & X1 & _ & _ & _ & X5 & X6 & _). fold st2 in X1, X6.
  destruct (entryStage_spec params previousData currentData st2)
    as (N1 & _ & _ & N4 & _). fold st3 in N1, N4.
  pose proof (sameTrade_sized params _ _ F2 Ha) as Ha1.
  rewrite Forall_forall in Ha1.
  unfold equityStage. simpl. rewrite N1, N4, X1, F3. split.
  - apply Forall_app. split; [|apply entered_sized, Hacc].
    eapply Forall_impl; [|exact X6].
    intros q (p0 & Hin & Hq). subst q.
    destruct (updateHighest_sameKey currentData p0) as (Hk & _).
    apply (sized_by_pos_key params p0); [exact Hk | apply Ha1, Hin].
  - apply Forall_app. split; [exact Ht|].
    eapply Forall_impl; [|exact X5].
    intros t (p0 & Hin & Hx).
    destruct Hx as (_ & _ & _ & _ & _ & _ & Hk).
    apply (sized_by_key params p0); [exact Hk | apply Ha1, Hin].
Qed.

(** X14.  Every entry of the final ledger was sized by the entry rule: cash
    at entry was at least 100, the base amount is [positionSizePercent]
    percent of that cash and at least 1, and the exposure is the base
    amount times the leverage. *)
Theorem ledger_entries_sized params first rest :
  validateParams params = true ->
  exists r,
    runSimulation daysHeld params (first :: rest) = Completed r
    /\ Forall
         (fun t =>
            100 <= Trade.capitalAtEntry t
            /\ Trade.baseAmount t
               == Params.positionSizePercent params / 100
                  * Trade.capitalAtEntry t
            /\ 1 <= Trade.baseAmount t
            /\ Trade.leveragedAmount t
               = Trade.baseAmount t * Params.leverage params)
         (Results.tradeHistory r).
Proof.
  intro Hv. pose proof (proj1 (validateParams_acceptable params) Hv) as Hacc.
  destruct (runSimulation_spec daysHeld params first rest Hv)
    as (r & closed & Hr & Hth & _ & _ & Hliq & _).
  exists r. split; [exact Hr|].
  assert (Hinv :
            Forall (sizedPos params)
                   (St.activePositions (loopFinal daysHeld params first rest))
            /\ Forall (sizedTrade params)
                      (St.tradeHistory
                         (loopFinal daysHeld params first rest))).
  { unfold loopFinal.
    apply (dayLoop_invariant daysHeld
             (fun st => Forall (sizedPos params) (St.activePositions st)
                        /\ Forall (sizedTrade params) (St.tradeHistory st))
             (fun _ => True)).
    - intros prev cur st _ Hi. apply dayStep_sized; assumption.
    - apply Forall_True.
    - simpl. split; constructor. }
  destruct Hinv as [Ha Ht]. rewrite Hth. apply Forall_app. split.
  - exact Ht.
  - clear Hth. induction Hliq as [|p t ps ts Hpt _ IH]; [constructor|].
    apply Forall_cons_iff in Ha as [Hp Hps]. constructor; [|apply IH, Hps].
    destruct Hpt as (_ & _ & _ & _ & Hk).
    apply (sized_by_key params p); assumption.
Qed.

(** ** The consecutive-loss counters *)

Lemma lossRunFrom_fold ts :
  forall best current,
    lossRunFrom best current ts
    = fst (fold_left lossStep ts (best, current)).
Proof.
  induction ts as [|t ts IH]; intros best current; simpl; [reflexivity|].
  unfold lossStep at 2. simpl. destruct (Qltb (Trade.pnl t) 0); apply IH.
Qed.

Lemma lossRunFrom_runFrom ts :
  forall best current,
    lossRunFrom best current ts
    = runFrom (fun t => Qltb (Trade.pnl t) 0) best current ts.
Proof.
  induction ts as [|t ts IH]; intros best current; simpl; [reflexivity|].
  destruct (Qltb (Trade.pnl t) 0); apply IH.
Qed.

Lemma exitBody_tracks params currentData p st :
  tracksLosses st ->
  tracksLosses (snd (exitBody daysHeld params currentData p st)).
Proof.
  intro H. unfold exitBody.
  destruct (isStopLossTriggered _ _ _ _ _); [|exact H].
  unfold tracksLosses in *. simpl. rewrite fold_left_app. simpl.
  rewrite <- H. unfold lossStep. simpl.
  destruct (Qltb _ 0); reflexivity.
Qed.

Lemma exitLoop_tracks params currentData ps :
  forall st,
    tracksLosses st ->
    tracksLosses (snd (exitLoop daysHeld params currentData ps st)).
Proof.
  induction ps as [|p ps IH]; simpl; intros st H; [exact H|].
  destruct (exitLoop daysHeld params currentData ps st) as [rest' st1] eqn:E.
  specialize (IH st H). rewrite E in IH. simpl in IH.
  pose proof (exitBody_tracks params currentData p st1 IH) as Hb.
  destruct (exitBody daysHeld params currentData p st1) as [[q|] st2];
    exact Hb.
Qed.

Lemma dayStep_tracks params previousData currentData st :
  tracksLosses st ->
  tracksLosses (dayStep daysHeld params previousData currentData st).
Proof.
  intro H. unfold dayStep.
  assert (H1 : tracksLosses (feeStage params (Price.date currentData) st)).
  { unfold feeStage. destruct (dateChanged _ _); [|exact H].
    destruct (feeLoop _ _ _ _ _) as [[ps c] f]. exact H. }
  set (st1 := feeStage params (Price.date currentData) st) in *.
  assert (H2 : tracksLosses (exitStage daysHeld params currentData st1)).
  { unfold exitStage.
    pose proof (exitLoop_tracks params currentData
                  (St.activePositions st1) st1 H1) as Hx.
    destruct (exitLoop daysHeld params currentData
                       (St.activePositions st1) st1) as [ps st'].
    exact Hx. }
  set (st2 := exitStage daysHeld params currentData st1) in *.
  unfold entryStage.
  destruct (Qgeb (St.currentCapital st2) MIN_TRADING_CAPITAL).
  - destruct (shouldOpenPosition _ _ _); [|exact H2].
    destruct (Qgeb _ 1); exact H2.
  - destruct (shouldOpenPosition _ _ _); exact H2.
Qed.

(** X15.  The [maxConsecutiveLosses] a run reports is the longest run of
    consecutive losing trades among the trades closed by the stop, in the
    order they were closed (the ledger as it is when the day loop ends);
    the liquidations appended after the loop are not scanned. *)
Theorem reported_losses_are_stop_exits params first rest :
  validateParams params = true ->
  let stopped := St.tradeHistory (loopFinal daysHeld params first rest) in
  exists r liquidated,
    runSimulation daysHeld params (first :: rest) = Completed r
    /\ Results.tradeHistory r = stopped ++ liquidated
    /\ Results.maxConsecutiveLosses r = longestLossRun stopped
    /\ isLongestRun (fun t => Qltb (Trade.pnl t) 0) stopped
                    (Results.maxConsecutiveLosses r).
Proof.
  intros Hv stopped.
  destruct (runSimulation_spec daysHeld params first rest Hv)
    as (r & closed & Hr & Hth & _ & _ & _ & _ & _ & _ & Hm & _).
  exists r, closed. split; [exact Hr|]. split; [exact Hth|].
  assert (Ht : tracksLosses (loopFinal daysHeld params first rest)).
  { unfold loopFinal.
    apply (dayLoop_invariant daysHeld tracksLosses (fun _ => True)).
    - intros prev cur st _. apply dayStep_tracks.
    - apply Forall_True.
    - reflexivity. }
  assert (Heq : Results.maxConsecutiveLosses r = longestLossRun stopped).
  { rewrite Hm. unfold longestLossRun. rewrite lossRunFrom_fold.
    fold stopped in Ht. unfold tracksLosses in Ht. fold stopped in Ht.
    rewrite <- Ht. reflexivity. }
  split; [exact Heq|].
  rewrite Heq. unfold longestLossRun. rewrite lossRunFrom_runFrom.
  apply runFrom_longest.
Qed.

(** ** Runs without the trailing stop *)

Lemma exitLoop_without_stop params currentData ps :
  Params.useTrailingStop params = false ->
  forall st,
    snd (exitLoop daysHeld params currentData ps st) = st.
Proof.
  intro Hu. induction ps as [|p ps IH]; simpl; intro st; [reflexivity|].
  specialize (IH st).
  destruct (exitLoop daysHeld params currentData ps st) as [rest' st1].
  simpl in IH. subst st1. unfold exitBody, isStopLossTriggered.
  rewrite Hu. reflexivity.
Qed.

Lemma dayStep_without_stop params previousData currentData st :
  Params.useTrailingStop params = false ->
  St.tradeHistory st = [] /\ St.maxConsecutiveLosses st = 0%nat ->
  let st' := dayStep daysHeld params previousData currentData st in
  St.tradeHistory st' = [] /\ St.maxConsecutiveLosses st' = 0%nat.
Proof.
  intros Hu H. unfold dayStep.
  assert (H1 : St.tradeHistory (feeStage params (Price.date currentData) st)
               = []
               /\ St.maxConsecutiveLosses
                    (feeStage params (Price.date currentData) st) = 0%nat).
  { unfold feeStage. destruct (dateChanged _ _); [|exact H].
    destruct (feeLoop _ _ _ _ _) as [[ps c] f]. exact H. }
  set (st1 := feeStage params (Price.date currentData) st) in *.
  assert (H2 : St.tradeHistory (exitStage daysHeld params currentData st1)
               = []
               /\ St.maxConsecutiveLosses
                    (exitStage daysHeld params currentData st1) = 0%nat).
  { unfold exitStage.
    pose proof (exitLoop_without_stop params currentData
                  (St.activePositions st1) Hu st1) as Hx.
    destruct (exitLoop daysHeld params currentData
                       (St.activePositions st1) st1) as [ps st'].
    simpl in Hx. subst st'. exact H1. }
  set (st2 := exitStage daysHeld params currentData st1) in *.
  unfold entryStage.
  destruct (Qgeb (St.currentCapital st2) MIN_TRADING_CAPITAL).
  - destruct (shouldOpenPosition _ _ _); [|exact H2].
    destruct (Qgeb _ 1); exact H2.
  - destruct (shouldOpenPosition _ _ _); exact H2.
Qed.

Lemma Forall2_Forall_r {A B} (R : A -> B -> Prop) (P : B -> Prop) l l' :
  (forall a b, R a b -> P b) -> Forall2 R l l' -> Forall P l'.
Proof.
  intros H. induction 1 as [|a b l l' Hab _ IH]; constructor.
  - eapply H, Hab.
  - exact IH.
Qed.

(** X16.  With the trailing stop unticked nothing is closed before the end
    of the series: every entry of the final ledger is a liquidation at the
    close and on the date of the last row, the positions reported as open
    are as many as the trades executed, and the reported
    [maxConsecutiveLosses] is 0. *)
Theorem without_stop_all_liquidated params first rest :
  validateParams params = true ->
  Params.useTrailingStop params = false ->
  let lastData := List.last (first :: rest) first in
  exists r,
    runSimulation daysHeld params (first :: rest) = Completed r
    /\ Forall
         (fun t =>
            Trade.exit t = Price.date lastData
            /\ Trade.exitPrice t = Price.currentPrice lastData
            /\ Trade.pnl t
               = realizedPnl (Trade.leveragedAmount t)
                             (Price.currentPrice lastData)
                             (Trade.entryPrice t))
         (Results.tradeHistory r)
    /\ List.length (Results.openPositions r) = Results.totalTrades r
    /\ Results.maxConsecutiveLosses r = 0%nat.
Proof.
  intros Hv Hu lastData.
  destruct (runSimulation_spec daysHeld params first rest Hv)
    as (r & closed & Hr & Hth & _ & _ & Hliq & Hn & _ & _ & Hm & _ & Ho & _).
  fold lastData in Hliq.
  assert (Hinv :
            St.tradeHistory (loopFinal daysHeld params first rest) = []
            /\ St.maxConsecutiveLosses
                 (loopFinal daysHeld params first rest) = 0%nat).
  { unfold loopFinal.
    apply (dayLoop_invariant daysHeld
             (fun st => St.tradeHistory st = []
                        /\ St.maxConsecutiveLosses st = 0%nat)
             (fun _ => True)).
    - intros prev cur st _ Hi. apply dayStep_without_stop; assumption.
    - apply Forall_True.
    - split; reflexivity. }
  destruct Hinv as [Hnil Hzero].
  exists r. split; [exact Hr|]. rewrite Hnil in Hth. simpl in Hth.
  split; [|split].
  - rewrite Hth. eapply Forall2_Forall_r; [|exact Hliq].
    intros p t (H1 & H2 & H3 & _ & Hk).
    unfold keyOfTrade, keyOfPos in Hk. injection Hk as _ He _ Hl _.
    rewrite He, Hl. repeat split; assumption.
  - destruct (dayLoop_committed daysHeld params rest first
                                (initialState params)) as [HP HC].
    fold (loopFinal daysHeld params first rest) in HP, HC.
    unfold committed in HP. rewrite Hnil in HP. simpl in HP, HC.
    apply Permutation_length in HP. rewrite !length_map in HP.
    rewrite Ho, Hn, HC. exact HP.
  - rewrite Hm. exact Hzero.
Qed.

(** ** Runs in which nothing is opened *)

(** Reduction of the state projections, and nothing else. *)
Ltac st_cbn :=
  cbn [St.currentDate St.activePositions St.currentCapital St.totalFees
       St.totalProfitLoss St.tradesExecuted St.consecutiveLosses
       St.maxConsecutiveLosses St.skippedTrades St.equityCurve
       St.tradeHistory feeLoop exitLoop St.setFees St.setActive
       St.skipTrade St.pushEquity St.openTrade fold_left negb].

Lemma dayStep_idle params previousData currentData st :
  idle params st ->
  St.currentCapital st < MIN_TRADING_CAPITAL
  \/ shouldOpenPosition (Price.openingPrice currentData)
                        (Price.openingPrice previousData)
                        (Params.minPriceMovement params) = false ->
  let st' := dayStep daysHeld params previousData currentData st in
  idle params st'
  /\ St.skippedTrades st'
     = (St.skippedTrades st
        + if Qltb (St.currentCapital st) MIN_TRADING_CAPITAL
          then (if shouldOpenPosition (Price.openingPrice currentData)
                                      (Price.openingPrice previousData)
                                      (Params.minPriceMovement params)
                then 1 else 0)
          else 0)%nat
  /\ St.equityCurve st'
     = St.equityCurve st
       ++ [Equity.mk (Price.date currentData) (St.currentCapital st + 0)].
Proof.
  destruct st as [cap tpl te tf cl mcl sk ec th ap cd].
  unfold idle. simpl. intros (Hc & -> & -> & -> & -> & -> & ->) Hor.
  unfold dayStep, feeStage, exitStage, entryStage, equityStage, equityOf.
  unfold Qltb. change (Qle_bool MIN_TRADING_CAPITAL cap)
    with (Qgeb cap MIN_TRADING_CAPITAL).
  assert (Hcase :
            Qgeb cap MIN_TRADING_CAPITAL = false
            \/ shouldOpenPosition (Price.openingPrice currentData)
                 (Price.openingPrice previousData)
                 (Params.minPriceMovement params) = false).
  { destruct Hor as [H | H]; [left; apply Qgeb_false, H | right; exact H]. }
  clear Hor. st_cbn.
  destruct (dateChanged cd (Price.date currentData)); st_cbn;
    destruct (Qgeb cap MIN_TRADING_CAPITAL) eqn:Eg;
    destruct (shouldOpenPosition _ _ _) eqn:Es; st_cbn;
    try (destruct Hcase; discriminate);
    rewrite ?Nat.add_0_r, ?Nat.add_1_r;
    (split; [repeat split; exact Hc | split; reflexivity]).
Qed.

Lemma dayLoop_idle params rows :
  0 < Params.investmentCapital params ->
  forall previousData st,
    idle params st ->
    Params.investmentCapital params < MIN_TRADING_CAPITAL
    \/ signalCount params previousData rows = 0%nat ->
    let st' := dayLoop daysHeld params previousData rows st in
    idle params st'
    /\ St.skippedTrades st'
       = (St.skippedTrades st
          + if Qltb (Params.investmentCapital params) MIN_TRADING_CAPITAL
            then signalCount params previousData rows else 0)%nat
    /\ map Equity.date (St.equityCurve st')
       = map Equity.date (St.equityCurve st) ++ map Price.date rows
    /\ (Forall (fun e => Equity.equity e == Params.investmentCapital params)
               (St.equityCurve st) ->
        Forall (fun e => Equity.equity e == Params.investmentCapital params)
               (St.equityCurve st')).
Proof.
  intro Hpos. induction rows as [|r rows IH]; intros prev st Hi Hor.
  - simpl. rewrite app_nil_r.
    destruct (Qltb _ _); rewrite Nat.add_0_r;
      (split; [exact Hi|]); repeat split; auto.
  - assert (Hcap : St.currentCapital st = Params.investmentCapital params)
      by apply Hi.
    assert (Hex : exhausted st = false).
    { unfold exhausted. rewrite Hcap.
      replace (Qleb (Params.investmentCapital params) 0) with false;
        [reflexivity|].
      symmetry. apply (Qgeb_false 0), Hpos. }
    cbn [dayLoop signalCount]. rewrite Hex.
    assert (Hstep :
              St.currentCapital st < MIN_TRADING_CAPITAL
              \/ shouldOpenPosition (Price.openingPrice r)
                   (Price.openingPrice prev)
                   (Params.minPriceMovement params) = false).
    { destruct Hor as [H | H]; [left; rewrite Hcap; exact H|].
      right. cbn [signalCount] in H.
      destruct (shouldOpenPosition _ _ _); [simpl in H; lia | reflexivity]. }
    assert (Hrest :
              Params.investmentCapital params < MIN_TRADING_CAPITAL
              \/ signalCount params r rows = 0%nat).
    { destruct Hor as [H | H]; [left; exact H|].
      right. cbn [signalCount] in H. lia. }
    destruct (dayStep_idle params prev r st Hi Hstep) as (S1 & S2 & S3).
    destruct (IH r _ S1 Hrest) as (I1 & I2 & I3 & I4).
    split; [exact I1|]. split; [|split].
    + rewrite I2, S2, Hcap.
      destruct (Qltb (Params.investmentCapital params) MIN_TRADING_CAPITAL);
        lia.
    + rewrite I3, S3, map_app, <- app_assoc. reflexivity.
    + intro Hf. apply I4. rewrite S3. apply Forall_app. split; [exact Hf|].
      constructor; [|constructor]. simpl. rewrite Hcap. lra.
Qed.

Lemma idle_run params first rest :
  validateParams params = true ->
  Params.investmentCapital params < MIN_TRADING_CAPITAL
  \/ signalCount params first rest = 0%nat ->
  exists r,
    runSimulation daysHeld params (first :: rest) = Completed r
    /\ Results.tradeHistory r = []
    /\ Results.totalTrades r = 0%nat
    /\ Results.finalCapital r == Params.investmentCapital params
    /\ Results.totalFees r = 0
    /\ Results.maxConsecutiveLosses r = 0%nat
    /\ Results.skippedTrades r
       = (if Qltb (Params.investmentCapital params) MIN_TRADING_CAPITAL
          then signalCount params first rest else 0%nat)
    /\ map Equity.date (Results.equityCurve r) = map Price.date rest
    /\ Forall (fun e => Equity.equity e == Params.investmentCapital params)
              (Results.equityCurve r).
Proof.
  intros Hv Hor.
  destruct (validateParams_true params Hv) as (Hpos & _).
  destruct (runSimulation_spec daysHeld params first rest Hv)
    as (r & closed & Hr & Hth & Hcap & _ & Hliq & Hn & Hf & He & Hm & Hs & _).
  assert (Hidle0 : idle params (initialState params)).
  { unfold idle. simpl. repeat split. }
  destruct (dayLoop_idle params rest Hpos first (initialState params)
                         Hidle0 Hor)
    as (I1 & I2 & I3 & I4).
  fold (loopFinal daysHeld params first rest) in I1, I2, I3, I4.
  destruct I1 as (C1 & C2 & C3 & C4 & _ & C6 & C7).
  rewrite C2 in Hliq. inversion Hliq; subst closed.
  exists r. split; [exact Hr|].
  rewrite Hth, Hn, Hf, Hm, Hs, He, C3, C4, C6, C7, I2, I3.
  rewrite C1, C2 in Hcap. simpl in Hcap.
  split; [reflexivity|]. split; [reflexivity|]. split; [lra|].
  split; [reflexivity|]. split; [reflexivity|]. split; [reflexivity|].
  split; [reflexivity|]. apply I4. constructor.
Qed.

(** X17.  With a starting capital below the floor of 100 the run never
    opens a position: the ledger stays empty, no fee is paid, the final
    capital is the starting capital, every row after the first is
    processed and gets an equity point equal to the starting capital, and
    [skippedTrades] counts the rows on which the entry signal fired. *)
Theorem below_floor_never_trades params first rest :
  validateParams params = true ->
  Params.investmentCapital params < 100 ->
  exists r,
    runSimulation daysHeld params (first :: rest) = Completed r
    /\ Results.tradeHistory r = []
    /\ Results.totalTrades r = 0%nat
    /\ Results.finalCapital r == Params.investmentCapital params
    /\ Results.totalFees r = 0
    /\ Results.skippedTrades r = signalCount params first rest
    /\ map Equity.date (Results.equityCurve r) = map Price.date rest
    /\ Forall (fun e => Equity.equity e == Params.investmentCapital params)
              (Results.equityCurve r).
Proof.
  intros Hv Hlow.
  destruct (idle_run params first rest Hv (or_introl Hlow))
    as (r & H1 & H2 & H3 & H4 & H5 & _ & H7 & H8 & H9).
  assert (E : Qltb (Params.investmentCapital params) MIN_TRADING_CAPITAL
              = true) by (apply Qltb_true, Hlow).
  rewrite E in H7. exists r. repeat split; assumption.
Qed.

(** X18.  On a series on which the entry signal never fires the run opens
    nothing and skips nothing: empty ledger, no trade, no skipped trade, no
    fee, final capital equal to the starting capital, and a flat equity
    curve with one point per row after the first. *)
Theorem flat_series_never_trades params first rest :
  validateParams params = true ->
  signalCount params first rest = 0%nat ->
  exists r,
    runSimulation daysHeld params (first :: rest) = Completed r
    /\ Results.tradeHistory r = []
    /\ Results.totalTrades r = 0%nat
    /\ Results.skippedTrades r = 0%nat
    /\ Results.finalCapital r == Params.investmentCapital params
    /\ Results.totalFees r = 0
    /\ map Equity.date (Results.equityCurve r) = map Price.date rest
    /\ Forall (fun e => Equity.equity e == Params.investmentCapital params)
              (Results.equityCurve r).
Proof.
  intros Hv Hflat.
  destruct (idle_run params first rest Hv (or_intror Hflat))
    as (r & H1 & H2 & H3 & H4 & H5 & _ & H7 & H8 & H9).
  rewrite Hflat in H7.
  assert (E : Results.skippedTrades r = 0%nat).
  { rewrite H7. destruct (Qltb _ _); reflexivity. }
  exists r. repeat split; assumption.
Qed.

(** ** Counters and the equity curve *)

Lemma entryStage_counts params previousData currentData st :
  let st' := entryStage params previousData currentData st in
  (St.tradesExecuted st' + St.skippedTrades st'
   <= S (St.tradesExecuted st + St.skippedTrades st))%nat
  /\ (St.tradesExecuted st <= St.tradesExecuted st')%nat
  /\ (St.skippedTrades st <= St.skippedTrades st')%nat.
Proof.
  unfold entryStage.
  destruct (Qgeb (St.currentCapital st) MIN_TRADING_CAPITAL).
  - destruct (shouldOpenPosition _ _ _); [|simpl; lia].
    destruct (Qgeb _ 1); simpl; lia.
  - destruct (shouldOpenPosition _ _ _); simpl; lia.
Qed.

Lemma dayStep_counts params previousData currentData st :
  (St.tradesExecuted st + St.skippedTrades st
   <= List.length (St.equityCurve st))%nat ->
  let st' := dayStep daysHeld params previousData currentData st in
  (St.tradesExecuted st' + St.skippedTrades st'
   <= List.length (St.equityCurve st'))%nat.
Proof.
  intro H. unfold dayStep.
  set (st1 := feeStage params (Price.date currentData) st).
  set (st2 := exitStage daysHeld params currentData st1).
  set (st3 := entryStage params previousData currentData st2).
  destruct (feeStage_spec params (Price.date currentData) st)
    as (_ & _ & _ & _ & F5 & F6 & F7). fold st1 in F5, F6, F7.
  destruct (exitStage_spec daysHeld params currentData st1)
    as (closed & _ & _ & _ & _ & _ & _ & _ & X8 & X9 & X10 & _).
  fold st2 in X8, X9, X10.
  destruct (entryStage_spec params previousData currentData st2)
    as (_ & _ & _ & _ & _ & _ & N7). fold st3 in N7.
  destruct (entryStage_counts params previousData currentData st2)
    as (C1 & _). fold st3 in C1.
  unfold equityStage. simpl. rewrite length_app, N7, X10, F7. simpl.
  rewrite X8, X9, F5, F6 in C1. lia.
Qed.

(** X19.  Each processed row is counted at most once as an executed or a
    skipped trade: [totalTrades + skippedTrades] is at most the number of
    equity points, which is at most the number of rows after the first. *)
Theorem trades_bounded_by_days params first rest :
  validateParams params = true ->
  exists r,
    runSimulation daysHeld params (first :: rest) = Completed r
    /\ (Results.totalTrades r + Results.skippedTrades r
        <= List.length (Results.equityCurve r))%nat
    /\ (List.length (Results.equityCurve r) <= List.length rest)%nat.
Proof.
  intro Hv.
  destruct (runSimulation_spec daysHeld params first rest Hv)
    as (r & closed & Hr & _ & _ & _ & _ & Hn & _ & He & _ & Hs & _).
  exists r. split; [exact Hr|]. rewrite Hn, Hs, He. split.
  - unfold loopFinal.
    apply (dayLoop_invariant daysHeld
             (fun st => (St.tradesExecuted st + St.skippedTrades st
                         <= List.length (St.equityCurve st))%nat)
             (fun _ => True)).
    + intros prev cur st _. apply dayStep_counts.
    + apply Forall_True.
    + simpl. lia.
  - unfold loopFinal. rewrite dayLoop_equity. simpl. rewrite length_map.
    destruct (trace_prefix daysHeld params rest first (initialState params))
      as [u Hu].
    rewrite Hu at 2. rewrite length_app, length_map. lia.
Qed.

Lemma markToMarket_split close ps :
  markToMarket close ps == sumBase ps + unrealized close ps.
Proof.
  induction ps as [|p ps IH]; simpl; [lra|]. rewrite IH. lra.
Qed.

Lemma trace_balanced params rows :
  forall previousData st,
    balanced params st ->
    Forall (fun x => balanced params (snd x))
           (trace daysHeld params previousData rows st).
Proof.
  induction rows as [|r rows IH]; simpl; intros prev st H; [constructor|].
  destruct (exhausted st); [constructor|].
  pose proof (dayStep_balanced daysHeld params prev r st H) as H'.
  constructor; [exact H' | apply IH, H'].
Qed.

(** X20.  Every equity point is the starting capital plus the P&L realized
    so far (the ledger after that row) minus the fees paid so far plus the
    unrealized P&L of the positions open after the row, at the row's
    close. *)
Theorem equity_is_capital_plus_pnl params first rest :
  validateParams params = true ->
  exists r,
    runSimulation daysHeld params (first :: rest) = Completed r
    /\ Forall2
         (fun x e =>
            Equity.date e = Price.date (fst x)
            /\ Equity.equity e
               == Params.investmentCapital params
                  + sumPnl (St.tradeHistory (snd x))
                  - St.totalFees (snd x)
                  + unrealized (Price.currentPrice (fst x))
                               (St.activePositions (snd x)))
         (trace daysHeld params first rest (initialState params))
         (Results.equityCurve r).
Proof.
  intro Hv.
  destruct (runSimulation_spec daysHeld params first rest Hv)
    as (r & closed & Hr & _ & _ & _ & _ & _ & _ & He & _).
  exists r. split; [exact Hr|]. rewrite He. unfold loopFinal.
  rewrite dayLoop_equity. simpl.
  pose proof (trace_balanced params rest first (initialState params)
                (balanced_initial params)) as Hb.
  induction Hb as [|x xs [Hw _] _ IH]; simpl; constructor; [|exact IH].
  split; [reflexivity|]. simpl.
  rewrite equityOf_markToMarket, markToMarket_split. lra.
Qed.

Lemma liquidation_value lastPrice lastDate ps closed :
  Forall2 (liquidationOf lastPrice lastDate) ps closed ->
  sumBase ps + sumPnl closed == markToMarket lastPrice ps.
Proof.
  induction 1 as [|p t ps closed Hpt _ IH]; simpl; [lra|].
  destruct Hpt as (_ & _ & Hpnl & _). rewrite Hpnl. unfold realizedPnl.
  rewrite Qmul_div_assoc. lra.
Qed.

Lemma trace_last params rows :
  forall previousData st,
    trace daysHeld params previousData rows st <> [] ->
    exists front row stl,
      trace daysHeld params previousData rows st = front ++ [(row, stl)]
      /\ dayLoop daysHeld params previousData rows st = stl
      /\ (St.activePositions stl = []
          \/ exists before, rows = before ++ [row]).
Proof.
  induction rows as [|r rows IH]; simpl; intros prev st Hne; [congruence|].
  destruct (exhausted st); [congruence|].
  set (st1 := dayStep daysHeld params prev r st) in *.
  destruct (trace daysHeld params r rows st1) as [|x xs] eqn:E.
  - exists [], r, st1. split; [reflexivity|].
    destruct rows as [|r2 rows]; simpl in *.
    + split; [reflexivity|]. right. exists []. reflexivity.
    + destruct (exhausted st1) eqn:Ex; [|discriminate E].
      split; [reflexivity|]. left.
      unfold exhausted in Ex. apply andb_true_iff in Ex as [_ Ex].
      apply Nat.eqb_eq in Ex. apply length_zero_iff_nil, Ex.
  - destruct (IH r st1) as (front & row & stl & H1 & H2 & H3).
    + rewrite E. discriminate.
    + exists ((r, st1) :: front), row, stl. rewrite <- E, H1.
      split; [reflexivity|]. split; [exact H2|].
      destruct H3 as [H3 | [before H3]]; [left; exact H3|].
      right. exists (r :: before). rewrite H3. reflexivity.
Qed.

(** X21.  When the series has more than one row, the final capital is the
    equity of the last point of the equity curve: either the loop ran to
    the last row, and the liquidation at that row's close realizes exactly
    the value the point marks the open positions at, or the loop stopped
    early with nothing open, and both are the cash. *)
Theorem final_capital_is_last_equity params first rest :
  validateParams params = true ->
  rest <> [] ->
  exists r front e,
    runSimulation daysHeld params (first :: rest) = Completed r
    /\ Results.equityCurve r = front ++ [e]
    /\ Results.finalCapital r == Equity.equity e.
Proof.
  intros Hv Hne.
  destruct (validateParams_true params Hv) as (Hpos & _).
  destruct (runSimulation_spec daysHeld params first rest Hv)
    as (r & closed & Hr & _ & Hcap & _ & Hliq & _ & _ & He & _).
  assert (Htr : trace daysHeld params first rest (initialState params)
                <> []).
  { destruct rest as [|r1 rest1]; [congruence|]. simpl.
    replace (exhausted (initialState params)) with false; [discriminate|].
    symmetry. unfold exhausted. simpl.
    replace (Qleb (Params.investmentCapital params) 0) with false;
      [reflexivity|].
    symmetry. apply (Qgeb_false 0), Hpos. }
  destruct (trace_last params rest first (initialState params) Htr)
    as (front & row & stl & H1 & H2 & H3).
  fold (loopFinal daysHeld params first rest) in H2.
  assert (Hcurve : St.equityCurve (loopFinal daysHeld params first rest)
                   = map pointOf front ++ [pointOf (row, stl)]).
  { unfold loopFinal. rewrite dayLoop_equity, H1, map_app. reflexivity. }
  rewrite H2 in Hcap, Hliq, He, Hcurve.
  exists r, (map pointOf front), (pointOf (row, stl)).
  split; [exact Hr|]. split.
  - rewrite He. exact Hcurve.
  - unfold pointOf. simpl. rewrite equityOf_markToMarket, Hcap.
    destruct H3 as [Hnil | [before Hlast]].
    + rewrite Hnil in *. inversion Hliq; subst closed. simpl. lra.
    + assert (Hrow : List.last (first :: rest) first = row).
      { rewrite Hlast. change (first :: before ++ [row])
          with ((first :: before) ++ [row]). apply last_last. }
      rewrite Hrow in Hliq.
      pose proof (liquidation_value _ _ _ _ Hliq) as Hval. lra.
Qed.

End RunProperties.

(** ** Concrete instances of the properties of the run *)
Lemma ledger_entries_sized_witness :
  validateParams overdrawnParams = true
  /\ exists r,
      runSimulation noDays overdrawnParams overdrawnSeries = Completed r
      /\ Forall (fun t => 1 <= Trade.baseAmount t) (Results.tradeHistory r).
Proof.
  split; [reflexivity|].
  change overdrawnSeries
    with (priceRow "d0" 100 100 100 100 :: tl overdrawnSeries).
  destruct (ledger_entries_sized noDays overdrawnParams
              (priceRow "d0" 100 100 100 100) (tl overdrawnSeries) eq_refl)
    as (r & Hr & Hs).
  exists r. split; [exact Hr|].
  eapply Forall_impl; [|exact Hs]. intros t (_ & _ & H & _). exact H.
Defined.

Lemma reported_losses_are_stop_exits_witness :
  validateParams defaultParams = true
  /\ exists r,
      runSimulation noDays defaultParams crashSeries = Completed r
      /\ Results.maxConsecutiveLosses r
         = longestLossRun
             (St.tradeHistory
                (loopFinal noDays defaultParams (priceRow "d0" 99 99 99 99)
                           (tl crashSeries))).
Proof.
  split; [reflexivity|].
  change crashSeries with (priceRow "d0" 99 99 99 99 :: tl crashSeries).
  destruct (reported_losses_are_stop_exits noDays defaultParams
              (priceRow "d0" 99 99 99 99) (tl crashSeries) eq_refl)
    as (r & liq & Hr & _ & Hm & _).
  exists r. split; [exact Hr | exact Hm].
Defined.

Lemma without_stop_all_liquidated_witness :
  validateParams noTrailingParams = true
  /\ Params.useTrailingStop noTrailingParams = false
  /\ exists r,
      runSimulation noDays noTrailingParams crashSeries = Completed r
      /\ Results.maxConsecutiveLosses r = 0%nat.
Proof.
  split; [reflexivity|]. split; [reflexivity|].
  change crashSeries with (priceRow "d0" 99 99 99 99 :: tl crashSeries).
  destruct (without_stop_all_liquidated noDays noTrailingParams
              (priceRow "d0" 99 99 99 99) (tl crashSeries) eq_refl eq_refl)
    as (r & Hr & _ & _ & Hm).
  exists r. split; [exact Hr | exact Hm].
Defined.

Lemma below_floor_never_trades_witness :
  let params := Params.mk 50 50 10 1000 0 1 true in
  validateParams params = true
  /\ Params.investmentCapital params < 100
  /\ exists r,
      runSimulation noDays params
                    (priceRow "d0" 100 100 100 100 :: tl overdrawnSeries)
      = Completed r
      /\ Results.tradeHistory r = []
      /\ Results.skippedTrades r = 3%nat.
Proof.
  intro params.
  assert (Hlow : Params.investmentCapital params < 100) by reflexivity.
  split; [reflexivity|]. split; [exact Hlow|].
  destruct (below_floor_never_trades noDays params
              (priceRow "d0" 100 100 100 100) (tl overdrawnSeries)
              eq_refl Hlow)
    as (r & Hr & Hth & _ & _ & _ & Hs & _).
  exists r. split; [exact Hr|]. split; [exact Hth|]. rewrite Hs.
  reflexivity.
Defined.

Lemma flat_series_never_trades_witness :
  let first := priceRow "d0" 100 100 100 100 in
  let rest := [priceRow "d1" 100 101 99 100; priceRow "d2" 100.2 101 99 100] in
  validateParams defaultParams = true
  /\ signalCount defaultParams first rest = 0%nat
  /\ exists r,
      runSimulation noDays defaultParams (first :: rest) = Completed r
      /\ Results.tradeHistory r = []
      /\ Results.skippedTrades r = 0%nat.
Proof.
  intros first rest.
  assert (Hflat : signalCount defaultParams first rest = 0%nat)
    by reflexivity.
  split; [reflexivity|]. split; [exact Hflat|].
  destruct (flat_series_never_trades noDays defaultParams first rest
              eq_refl Hflat)
    as (r & Hr & Hth & _ & Hs & _).
  exists r. split; [exact Hr|]. split; [exact Hth | exact Hs].
Defined.

Lemma trades_bounded_by_days_witness :
  validateParams overdrawnParams = true
  /\ exists r,
      runSimulation noDays overdrawnParams
                    (priceRow "d0" 100 100 100 100 :: tl overdrawnSeries)
      = Completed r
      /\ (Results.totalTrades r + Results.skippedTrades r <= 4)%nat.
Proof.
  split; [reflexivity|].
  destruct (trades_bounded_by_days noDays overdrawnParams
              (priceRow "d0" 100 100 100 100) (tl overdrawnSeries) eq_refl)
    as (r & Hr & H1 & H2).
  exists r. split; [exact Hr|]. simpl in H2. lia.
Defined.

Lemma equity_is_capital_plus_pnl_witness :
  validateParams overdrawnParams = true
  /\ exists r,
      runSimulation noDays overdrawnParams
                    (priceRow "d0" 100 100 100 100 :: tl overdrawnSeries)
      = Completed r
      /\ List.length (Results.equityCurve r)
         = List.length
             (trace noDays overdrawnParams (priceRow "d0" 100 100 100 100)
                    (tl overdrawnSeries) (initialState overdrawnParams)).
Proof.
  split; [reflexivity|].
  destruct (equity_is_capital_plus_pnl noDays overdrawnParams
              (priceRow "d0" 100 100 100 100) (tl overdrawnSeries) eq_refl)
    as (r & Hr & H).
  exists r. split; [exact Hr|]. symmetry. eapply Forall2_length. exact H.
Defined.

Lemma final_capital_is_last_equity_witness :
  validateParams overdrawnParams = true
  /\ tl overdrawnSeries <> []
  /\ exists r front e,
      runSimulation noDays overdrawnParams
                    (priceRow "d0" 100 100 100 100 :: tl overdrawnSeries)
      = Completed r
      /\ Results.equityCurve r = front ++ [e]
      /\ Results.finalCapital r == Equity.equity e.
Proof.
  split; [reflexivity|]. split; [discriminate|].
  apply (final_capital_is_last_equity noDays overdrawnParams
           (priceRow "d0" 100 100 100 100) (tl overdrawnSeries) eq_refl).
  discriminate.
Defined.

(** * The second simulator component *)

Lemma second_validateParams_true params :
  Second.validateParams params = true ->
  0 < Params.investmentCapital params
  /\ 0 <= Params.dailyFeePercent params.
Proof.
  unfold Second.validateParams.
  destruct (Qleb (Params.investmentCapital params) 0) eqn:E1; [discriminate|].
  destruct (_ || _); [discriminate|]. destruct (_ || _); [discriminate|].
  destruct (Qleb (Params.stopLossDollar params) 0); [discriminate|].
  destruct (Qltb (Params.minPriceMovement params) 0); [discriminate|].
  destruct (Qltb (Params.dailyFeePercent params) 0) eqn:E8; [discriminate|].
  intros _. split; [apply (Qgeb_false 0), E1 | apply Qltb_false, E8].
Qed.

Lemma second_feeMarks_spec pct date ps :
  0 <= pct -> Forall (fun p => 0 <= Pos.baseAmount p) ps ->
  forall total ps' total',
    Second.feeMarks pct date ps total = (ps', total') ->
    total <= total' /\ Forall (fun p => 0 <= Pos.baseAmount p) ps'.
Proof.
  intros Hp. induction 1 as [|p ps Hb _ IH]; simpl;
    intros total ps' total' H.
  - inversion H; subst. split; [lra | constructor].
  - pose proof (dailyFee_nonneg pct p Hp Hb) as Hfee.
    destruct (negb (String.eqb (Pos.lastFeeDate p) date)).
    + destruct (Second.feeMarks pct date ps _) as [r t] eqn:E.
      inversion H; subst. apply IH in E as [E1 E2].
      split; [lra | constructor; [exact Hb | exact E2]].
    + destruct (Second.feeMarks pct date ps _) as [r t] eqn:E.
      inversion H; subst. apply IH in E as [E1 E2].
      split; [lra | constructor; [exact Hb | exact E2]].
Qed.

Lemma second_feeStage_nonNegative params date st :
  0 <= Params.dailyFeePercent params ->
  nonNegative st -> nonNegative (Second.feeStage params date st).
Proof.
  intros Hp (H1 & H2 & H3 & H4). unfold Second.feeStage.
  destruct (dateChanged _ _); [|repeat split; assumption].
  destruct (Second.feeMarks _ _ _ _) as [ps total] eqn:E.
  apply (second_feeMarks_spec _ _ _ Hp H3) in E as [E1 E2].
  destruct (Qgeb (St.currentCapital st) total) eqn:Eg.
  - apply Qgeb_true in Eg. unfold nonNegative. simpl.
    repeat split; try assumption; lra.
  - destruct (Qgtb (St.currentCapital st) 0); unfold nonNegative; simpl;
      repeat split; try assumption; lra.
Qed.

Lemma second_amountToReturn_nonneg p pnl : 0 <= Second.amountToReturn p pnl.
Proof. unfold Second.amountToReturn. apply Q.le_max_l. Qed.

Lemma second_equity_fold close ps :
  forall acc,
    acc <= fold_left
             (fun sum pos =>
                sum + Second.amountToReturn pos
                        (Pos.leveragedAmount pos
                         * ((close - Pos.entryPrice pos)
                            / Pos.entryPrice pos)))
             ps acc.
Proof.
  induction ps as [|p ps IH]; simpl; intro acc; [lra|].
  eapply Qle_trans; [|apply IH].
  pose proof (second_amountToReturn_nonneg p
                (Pos.leveragedAmount p
                 * ((close - Pos.entryPrice p) / Pos.entryPrice p))).
  lra.
Qed.

Lemma second_entryStage_nonNegative params previousData currentData st :
  nonNegative st ->
  nonNegative (Second.entryStage params previousData currentData st).
Proof.
  intros (H1 & H2 & H3 & H4). unfold Second.entryStage.
  destruct (Qgeb (St.currentCapital st) MIN_TRADING_CAPITAL);
    [|destruct (shouldOpenPosition _ _ _); repeat split; assumption].
  destruct (shouldOpenPosition _ _ _); [|repeat split; assumption].
  destruct (Qgeb _ 1) eqn:Eb; [|repeat split; assumption].
  apply Qgeb_true in Eb. unfold nonNegative. simpl in *.
  pose proof (Q.le_min_r (Params.positionSizePercent params / 100
                          * St.currentCapital st)
                         (St.currentCapital st)) as Hmin.
  repeat split; try assumption; [lra|].
  apply Forall_app. split; [exact H3|]. constructor; [simpl; lra|].
  constructor.
Qed.

Lemma second_equityStage_nonNegative currentData st :
  nonNegative st -> nonNegative (Second.equityStage currentData st).
Proof.
  intros (H1 & H2 & H3 & H4). unfold nonNegative, Second.equityStage. simpl.
  repeat split; try assumption.
  apply Forall_app. split; [exact H4|]. constructor; [|constructor].
  simpl. unfold Second.equityOf.
  pose proof (second_equity_fold (Price.currentPrice currentData)
                                 (St.activePositions st) 0).
  lra.
Qed.

Section SecondProperties.

Variable daysHeld : string -> string -> Q.

Lemma second_exitBody_nonNegative params currentData p st :
  0 <= Pos.baseAmount p ->
  0 <= St.currentCapital st /\ 0 <= St.totalFees st
  /\ Forall (fun e => 0 <= Equity.equity e) (St.equityCurve st) ->
  let r := Second.exitBody daysHeld params currentData p st in
  (0 <= St.currentCapital (snd r) /\ 0 <= St.totalFees (snd r)
   /\ Forall (fun e => 0 <= Equity.equity e) (St.equityCurve (snd r)))
  /\ match fst r with
     | Some q => 0 <= Pos.baseAmount q
     | None => True
     end.
Proof.
  intros Hb (H1 & H2 & H3). unfold Second.exitBody.
  destruct (_ || _).
  - destruct (isStopLossTriggered _ _ _ _ _); simpl;
      (split; [|exact I]); (split; [|split; assumption]).
    + pose proof (second_amountToReturn_nonneg
                    (updateHighest currentData p)
                    (Pos.leveragedAmount (updateHighest currentData p)
                     * ((Pos.highestPrice (updateHighest currentData p)
                         * (1 - Params.stopLossDollar params
                                / Pos.leveragedAmount
                                    (updateHighest currentData p))
                         - Pos.entryPrice (updateHighest currentData p))
                        / Pos.entryPrice (updateHighest currentData p)))).
      lra.
    + pose proof (second_amountToReturn_nonneg
                    (updateHighest currentData p)
                    (Pos.leveragedAmount (updateHighest currentData p)
                     * ((Price.currentPrice currentData
                         - Pos.entryPrice (updateHighest currentData p))
                        / Pos.entryPrice (updateHighest currentData p)))).
      lra.
  - simpl. split; [repeat split; assumption|].
    destruct (updateHighest_sameKey currentData p) as (_ & Hbase & _).
    rewrite Hbase. exact Hb.
Qed.

Lemma second_exitLoop_nonNegative params currentData ps :
  Forall (fun p => 0 <= Pos.baseAmount p) ps ->
  forall st,
    0 <= St.currentCapital st /\ 0 <= St.totalFees st
    /\ Forall (fun e => 0 <= Equity.equity e) (St.equityCurve st) ->
    let r := Second.exitLoop daysHeld params currentData ps st in
    (0 <= St.currentCapital (snd r) /\ 0 <= St.totalFees (snd r)
     /\ Forall (fun e => 0 <= Equity.equity e) (St.equityCurve (snd r)))
    /\ Forall (fun p => 0 <= Pos.baseAmount p) (fst r).
Proof.
  induction 1 as [|p ps Hb _ IH]; simpl; intros st H.
  - split; [exact H | constructor].
  - specialize (IH st H).
    destruct (Second.exitLoop daysHeld params currentData ps st)
      as [rest' st1].
    simpl in IH. destruct IH as [I1 I2].
    pose proof (second_exitBody_nonNegative params currentData p st1 Hb I1)
      as Hx.
    destruct (Second.exitBody daysHeld params currentData p st1)
      as [[q|] st2]; simpl in *; destruct Hx as [X1 X2].
    + split; [exact X1 | constructor; assumption].
    + split; [exact X1 | exact I2].
Qed.

Lemma second_exitStage_nonNegative params currentData st :
  nonNegative st ->
  nonNegative (Second.exitStage daysHeld params currentData st).
Proof.
  intros (H1 & H2 & H3 & H4). unfold Second.exitStage.
  pose proof (second_exitLoop_nonNegative params currentData
                (St.activePositions st) H3 st (conj H1 (conj H2 H4))) as Hx.
  destruct (Second.exitLoop daysHeld params currentData
                            (St.activePositions st) st) as [ps st'].
  simpl in Hx. destruct Hx as ((X1 & X2 & X3) & X4).
  unfold nonNegative. simpl. repeat split; assumption.
Qed.

Lemma second_dayLoop_nonNegative params rows :
  0 <= Params.dailyFeePercent params ->
  forall previousData st,
    nonNegative st ->
    nonNegative (Second.dayLoop daysHeld params previousData rows st).
Proof.
  intro Hp. induction rows as [|r rows IH]; simpl; intros prev st H;
    [exact H|].
  pose proof (second_exitStage_nonNegative params r _
                (second_feeStage_nonNegative params (Price.date r) st Hp H))
    as H2.
  destruct (exhausted _); [exact H2|].
  apply IH, second_equityStage_nonNegative, second_entryStage_nonNegative, H2.
Qed.

Lemma second_closeAtEnd_nonneg lastPrice lastDate ps :
  forall capital tpl th ops,
    0 <= capital ->
    0 <= fst (fst (fst (fold_left (Second.closeAtEnd daysHeld lastPrice
                                                     lastDate)
                                  ps (capital, tpl, th, ops)))).
Proof.
  induction ps as [|p ps IH]; simpl; intros capital tpl th ops Hc;
    [exact Hc|].
  apply IH.
  pose proof (second_amountToReturn_nonneg p
                (Pos.leveragedAmount p
                 * ((lastPrice - Pos.entryPrice p) / Pos.entryPrice p))).
  lra.
Qed.

Lemma second_first_point params first row rows :
  0 < Params.investmentCapital params ->
  St.equityCurve (Second.loopFinal daysHeld params first (row :: rows))
  <> [].
Proof.
  intro Hpos. unfold Second.loopFinal. cbn [Second.dayLoop].
  assert (Hst : Second.exitStage daysHeld params row
                  (Second.feeStage params (Price.date row)
                                   (initialState params))
                = St.setFees (initialState params)
                             (Params.investmentCapital params - 0) (0 + 0)
                             [] (Price.date row)).
  { unfold Second.feeStage, Second.exitStage. simpl.
    assert (Hge : Qgeb (Params.investmentCapital params) 0 = true)
      by (apply Qgeb_true; lra).
    rewrite Hge. reflexivity. }
  rewrite Hst.
  assert (Hex : exhausted
                  (St.setFees (initialState params)
                              (Params.investmentCapital params - 0) (0 + 0)
                              [] (Price.date row)) = false).
  { unfold exhausted. simpl.
    replace (Qleb (Params.investmentCapital params - 0) 0) with false;
      [reflexivity|].
    symmetry. apply (Qgeb_false 0). lra. }
  rewrite Hex.
  set (st1 := Second.equityStage row _).
  assert (Hne : St.equityCurve st1 <> []).
  { unfold st1, Second.equityStage. simpl.
    destruct (St.equityCurve _); discriminate. }
  clearbody st1. clear Hst Hex. revert row st1 Hne.
  induction rows as [|r rows IH]; simpl; intros row st1 Hne; [exact Hne|].
  set (st2 := Second.exitStage daysHeld params r _).
  assert (H2 : St.equityCurve st2 = St.equityCurve st1).
  { unfold st2, Second.exitStage.
    assert (Hloop : forall ps st,
               St.equityCurve
                 (snd (Second.exitLoop daysHeld params r ps st))
               = St.equityCurve st).
    { induction ps as [|p ps IHp]; simpl; intro st; [reflexivity|].
      specialize (IHp st).
      destruct (Second.exitLoop daysHeld params r ps st) as [rest' s1].
      simpl in IHp. unfold Second.exitBody.
      destruct (_ || _); [|simpl; exact IHp].
      destruct (isStopLossTriggered _ _ _ _ _); simpl; exact IHp. }
    specialize (Hloop (St.activePositions
                         (Second.feeStage params (Price.date r) st1))
                      (Second.feeStage params (Price.date r) st1)).
    destruct (Second.exitLoop daysHeld params r _ _) as [ps st'].
    simpl in *. rewrite Hloop. unfold Second.feeStage.
    destruct (dateChanged _ _); [|reflexivity].
    destruct (Second.feeMarks _ _ _ _) as [ps0 total].
    destruct (Qgeb _ total); [reflexivity|].
    destruct (Qgtb _ 0); reflexivity. }
  destruct (exhausted st2); [rewrite H2; exact Hne|].
  apply IH. unfold Second.equityStage. simpl.
  intro Hc. apply app_eq_nil in Hc as [_ Hc]. discriminate Hc.
Qed.

Lemma second_run_spec params first row rows :
  Second.validateParams params = true ->
  let st := Second.loopFinal daysHeld params first (row :: rows) in
  let lastData := List.last (first :: row :: rows) first in
  exists r,
    Second.runSimulation daysHeld params (first :: row :: rows)
    = Completed r
    /\ Results.finalCapital r
       = fst (fst (fst (fold_left
                          (Second.closeAtEnd daysHeld
                             (Price.currentPrice lastData)
                             (Price.date lastData))
                          (St.activePositions st)
                          (St.currentCapital st, St.totalProfitLoss st,
                           St.tradeHistory st, []))))
    /\ Results.totalFees r = St.totalFees st
    /\ Results.equityCurve r = St.equityCurve st.
Proof.
  intros Hv st lastData.
  destruct (second_validateParams_true params Hv) as [Hpos _].
  pose proof (second_first_point params first row rows Hpos) as Hne.
  fold st in Hne.
  unfold Second.runSimulation. rewrite Hv. cbn [negb].
  fold st. fold lastData.
  destruct (fold_left _ _ _) as [[[c t] th] ops].
  destruct (calculateDrawdownPercent (St.equityCurve st)) as [dd|] eqn:Ed.
  - eexists. split; [reflexivity|]. simpl. repeat split.
  - unfold calculateDrawdownPercent in Ed.
    destruct (St.equityCurve st); [congruence | discriminate Ed].
Qed.

(** X22.  The second component never reports a negative amount: for
    accepted parameters and a series of at least two rows the run
    completes with a final capital, a fee total and equity points that are
    all at least 0.  (Fees are only taken from cash that is there, and a
    close returns [max(0, baseAmount + pnl - accumulatedFees)].) *)
Theorem second_never_negative params first row rows :
  Second.validateParams params = true ->
  exists r,
    Second.runSimulation daysHeld params (first :: row :: rows)
    = Completed r
    /\ 0 <= Results.finalCapital r
    /\ 0 <= Results.totalFees r
    /\ Forall (fun e => 0 <= Equity.equity e) (Results.equityCurve r).
Proof.
  intro Hv. destruct (second_validateParams_true params Hv) as [Hpos Hfee].
  destruct (second_run_spec params first row rows Hv)
    as (r & Hr & Hcap & Hfees & Hcurve).
  assert (Hinv : nonNegative
                   (Second.loopFinal daysHeld params first (row :: rows))).
  { apply second_dayLoop_nonNegative; [exact Hfee|].
    unfold nonNegative. simpl.
    split; [lra|]. split; [lra|]. split; constructor. }
  destruct Hinv as (H1 & H2 & _ & H4).
  exists r. split; [exact Hr|]. rewrite Hcap, Hfees, Hcurve.
  split; [|split; assumption].
  apply second_closeAtEnd_nonneg, H1.
Qed.

(** X23.  The second component cannot run a series of one row: the day
    loop pushes no equity point, and its drawdown reads the first point of
    the curve, so the run throws, as it does on the empty series; with two
    rows or more it completes.  (The first component completes on one
    row.) *)
Theorem second_needs_two_rows params goldPriceHistory :
  Second.validateParams params = true ->
  ((exists r,
       Second.runSimulation daysHeld params goldPriceHistory = Completed r)
   <-> (2 <= List.length goldPriceHistory)%nat)
  /\ ((List.length goldPriceHistory <= 1)%nat ->
      Second.runSimulation daysHeld params goldPriceHistory = TypeError).
Proof.
  intro Hv.
  assert (Hshort : (List.length goldPriceHistory <= 1)%nat ->
                   Second.runSimulation daysHeld params goldPriceHistory
                   = TypeError).
  { intro Hl. unfold Second.runSimulation. rewrite Hv. cbn [negb].
    destruct goldPriceHistory as [|first [|row rows]];
      [reflexivity | reflexivity | simpl in Hl; lia]. }
  split; [|exact Hshort]. split.
  - intros [r Hr].
    destruct (Nat.le_gt_cases 2 (List.length goldPriceHistory)) as [H | H];
      [exact H|].
    rewrite Hshort in Hr by lia. discriminate Hr.
  - intro Hl. destruct goldPriceHistory as [|first [|row rows]];
      [simpl in Hl; lia | simpl in Hl; lia |].
    destruct (second_run_spec params first row rows Hv) as (r & Hr & _).
    exists r. exact Hr.
Qed.

End SecondProperties.

Lemma second_never_negative_witness :
  Second.validateParams defaultParams = true
  /\ exists r,
      Second.runSimulation noDays defaultParams
        (priceRow "d0" 99 99 99 99 :: priceRow "d1" 100 100 100 100
           :: [priceRow "d2" 100 100 90 95])
      = Completed r
      /\ 0 <= Results.finalCapital r.
Proof.
  split; [reflexivity|].
  destruct (second_never_negative noDays defaultParams
              (priceRow "d0" 99 99 99 99) (priceRow "d1" 100 100 100 100)
              [priceRow "d2" 100 100 90 95] eq_refl)
    as (r & Hr & Hc & _).
  exists r. split; [exact Hr | exact Hc].
Defined.

Lemma second_needs_two_rows_witness :
  Second.validateParams defaultParams = true
  /\ Second.runSimulation noDays defaultParams
       [priceRow "d0" 100 100 100 100] = TypeError.
Proof.
  split; [reflexivity|].
  destruct (second_needs_two_rows noDays defaultParams
              [priceRow "d0" 100 100 100 100] eq_refl) as [_ H].
  apply H. simpl. lia.
Defined.

(** * Reported ratios *)

Lemma successRateOf_bounds ts :
  0 <= successRateOf ts /\ successRateOf ts <= 1
  /\ successRateOf ts * ofNat (List.length ts)
     == ofNat (List.length (filter (fun t => Qgtb (Trade.pnl t) 0) ts)).
Proof.
  unfold successRateOf.
  pose proof (ofNat_le _ _ (filter_length_le
                              (fun t => Qgtb (Trade.pnl t) 0) ts)) as Hle.
  assert (H0 : 0 <= ofNat (List.length
                             (filter (fun t => Qgtb (Trade.pnl t) 0) ts))).
  { change 0 with (ofNat 0). apply ofNat_le. lia. }
  destruct (0 <? List.length ts)%nat eqn:E.
  - apply Nat.ltb_lt in E. pose proof (ofNat_pos _ E) as Hpos.
    split; [apply Qle_shift_div_l; lra|].
    split; [apply Qle_shift_div_r; lra|].
    field. lra.
  - apply Nat.ltb_ge in E.
    assert (Hnil : ts = []) by (destruct ts; [reflexivity | simpl in E; lia]).
    subst ts. simpl. split; [lra|]. split; [lra|]. reflexivity.
Qed.

Section Ratios.

Variable daysHeld : string -> string -> Q.

(** X24.  The ratios a run reports are consistent with its counts:
    [successRate] lies between 0 and 1 and, times the length of the
    ledger, is the number of trades with [pnl > 0]; [avgProfitPerTrade]
    times [totalTrades] is [totalProfitLoss] (also when no trade was
    executed, where both sides are 0). *)
Theorem reported_ratios params first rest :
  validateParams params = true ->
  exists r,
    runSimulation daysHeld params (first :: rest) = Completed r
    /\ 0 <= Results.successRate r /\ Results.successRate r <= 1
    /\ Results.successRate r * ofNat (List.length (Results.tradeHistory r))
       == ofNat (List.length
                   (filter (fun t => Qgtb (Trade.pnl t) 0)
                           (Results.tradeHistory r)))
    /\ Results.avgProfitPerTrade r * ofNat (Results.totalTrades r)
       == Results.totalProfitLoss r.
Proof.
  intro Hv.
  set (st := loopFinal daysHeld params first rest).
  destruct (loopFinal_balanced daysHeld params first rest) as [_ Htpl].
  fold st in Htpl.
  destruct (dayLoop_committed daysHeld params rest first
                              (initialState params)) as [HP HC].
  fold (loopFinal daysHeld params first rest) in HP, HC. fold st in HP, HC.
  simpl in HP, HC.
  unfold runSimulation. rewrite Hv. cbn [negb]. fold st.
  set (lastData := List.last (first :: rest) first).
  destruct (fold_left _ _ _) as [[[c t] th] ops] eqn:E.
  apply closeAtEnd_spec in E as (closed & H1 & _ & H3 & H4 & _).
  eexists. split; [reflexivity|]. cbn [Results.successRate
    Results.tradeHistory Results.avgProfitPerTrade Results.totalTrades
    Results.totalProfitLoss].
  destruct (successRateOf_bounds th) as (B1 & B2 & B3).
  split; [exact B1|]. split; [exact B2|]. split; [exact B3|].
  destruct (St.tradesExecuted st) as [|n] eqn:En.
  - assert (Hopen : openedPositions daysHeld params first rest
                                    (initialState params) = []).
    { apply length_zero_iff_nil. lia. }
    rewrite Hopen in HP. simpl in HP. apply Permutation_sym in HP.
    apply Permutation_nil in HP.
    unfold committed in HP. apply app_eq_nil in HP as [Hth Hact].
    apply map_eq_nil in Hth, Hact. rewrite Hact in H4.
    inversion H4; subst closed. rewrite Hth in Htpl. simpl in *.
    unfold ofNat. simpl. change (inject_Z 0) with 0.
    rewrite Qmult_0_r. lra.
  - unfold orOne. field.
    assert (0 < ofNat (S n)) by (apply ofNat_pos; lia). lra.
Qed.

End Ratios.

Lemma reported_ratios_witness :
  validateParams overdrawnParams = true
  /\ exists r,
      runSimulation noDays overdrawnParams
                    (priceRow "d0" 100 100 100 100 :: tl overdrawnSeries)
      = Completed r
      /\ Results.avgProfitPerTrade r * ofNat (Results.totalTrades r)
         == Results.totalProfitLoss r.
Proof.
  split; [reflexivity|].
  destruct (reported_ratios noDays overdrawnParams
              (priceRow "d0" 100 100 100 100) (tl overdrawnSeries) eq_refl)
    as (r & Hr & _ & _ & _ & Havg).
  exists r. split; [exact Hr | exact Havg].
Defined.

(** * The drawdown of utils.ts *)

Lemma utils_drawdownStep_finite m pk (x : Equity.t) :
  0 < pk -> 0 < Equity.equity x ->
  let peak := if Qgtb (Equity.equity x) pk then Equity.equity x else pk in
  let drawdown := (peak + - Equity.equity x) / peak in
  Utils.drawdownStep (Utils.Fin m, Utils.Fin pk) (finitePoint x)
  = (Utils.Fin (if Qgtb drawdown m then drawdown else m), Utils.Fin peak).
Proof.
  intros Hpk Hx. unfold Utils.drawdownStep, finitePoint.
  cbn [Utils.equity Utils.ngt].
  destruct (Qgtb (Equity.equity x) pk);
    cbn [Utils.nsub Utils.nneg Utils.nadd Utils.ndiv];
    rewrite Qeq_bool_pos by assumption; cbn [Utils.ngt];
    cbv zeta; destruct (Qgtb _ m); reflexivity.
Qed.

Lemma utils_drawdown_fold l :
  forall m1 m2 pk,
    0 < pk -> 0 <= m2 -> m1 == m2 ->
    Forall (fun e => 0 < Equity.equity e) l ->
    exists q,
      fst (fold_left Utils.drawdownStep (map finitePoint l)
                     (Utils.Fin m1, Utils.Fin pk))
      = Utils.Fin q
      /\ q == fst (fold_left drawdownStep l (m2, pk)).
Proof.
  induction l as [|x l IH]; intros m1 m2 pk Hpk Hm Heq Hpos.
  - exists m1. split; [reflexivity | exact Heq].
  - apply Forall_cons_iff in Hpos as [Hx Hl].
    cbn [map fold_left]. rewrite (utils_drawdownStep_finite m1 pk x Hpk Hx).
    cbv zeta. unfold drawdownStep at 2.
    destruct (Qgtb (Equity.equity x) pk) eqn:E.
    + assert (Hz : (Equity.equity x + - Equity.equity x) / Equity.equity x
                   == 0) by (unfold Qdiv; ring).
      assert (Hno : Qgtb ((Equity.equity x + - Equity.equity x)
                          / Equity.equity x) m1 = false).
      { apply Qgtb_false. lra. }
      rewrite Hno. apply IH; assumption.
    + set (d := (pk + - Equity.equity x) / pk).
      assert (Hd : d == (pk - Equity.equity x) / pk) by reflexivity.
      pose proof (Q.le_max_l m2 ((pk - Equity.equity x) / pk)) as Hml.
      pose proof (Q.le_max_r m2 ((pk - Equity.equity x) / pk)) as Hmr.
      apply IH; try assumption; [lra|].
      destruct (Qgtb d m1) eqn:Eg.
      * apply Qgtb_true in Eg. rewrite Q.max_r by lra. exact Hd.
      * apply Qgtb_false in Eg. rewrite Q.max_l by lra. exact Heq.
Qed.

(** X25.  On an equity curve of positive finite values the [maxDrawdown]
    of [calculatePerformanceMetrics] is a finite number and agrees with
    the component's [calculateDrawdown] (on the empty curve both are 0),
    whatever the ledger is. *)
Theorem utils_drawdown_agrees (sqrt : Utils.number -> Utils.number)
        tradeHistory equityCurve :
  Forall (fun e => 0 < Equity.equity e) equityCurve ->
  exists q,
    Utils.maxDrawdown
      (Utils.calculatePerformanceMetrics sqrt tradeHistory
                                         (map finitePoint equityCurve))
    = Utils.Fin q
    /\ q == calculateDrawdown equityCurve.
Proof.
  intro Hpos. unfold Utils.calculatePerformanceMetrics.
  cbn [Utils.maxDrawdown].
  destruct equityCurve as [|first rest].
  - exists 0. split; reflexivity.
  - apply Forall_cons_iff in Hpos as [Hf Hr].
    unfold calculateDrawdown. cbn [map fold_left].
    assert (Hstep : Utils.drawdownStep (Utils.Fin 0, Utils.NegInf)
                                       (finitePoint first)
                    = (Utils.Fin 0, Utils.Fin (Equity.equity first))).
    { unfold Utils.drawdownStep, finitePoint.
      cbn [Utils.equity Utils.ngt Utils.nsub Utils.nneg Utils.nadd
           Utils.ndiv].
      rewrite Qeq_bool_pos by assumption. cbn [Utils.ngt].
      assert (Hno : Qgtb ((Equity.equity first + - Equity.equity first)
                          / Equity.equity first) 0 = false).
      { apply Qgtb_false.
        assert ((Equity.equity first + - Equity.equity first)
                / Equity.equity first == 0) by (unfold Qdiv; ring).
        lra. }
      rewrite Hno. reflexivity. }
    rewrite Hstep. unfold drawdownStep at 2.
    assert (Hsame : Qgtb (Equity.equity first) (Equity.equity first)
                    = false) by (apply Qgtb_false, Qle_refl).
    rewrite Hsame.
    assert (Hz : (Equity.equity first - Equity.equity first)
                 / Equity.equity first == 0) by (unfold Qdiv; ring).
    apply utils_drawdown_fold; try assumption.
    + apply Q.le_max_l.
    + rewrite Q.max_l by lra. reflexivity.
Qed.

Lemma utils_drawdown_agrees_witness :
  let curve := [Equity.mk "d1" 100; Equity.mk "d2" 80; Equity.mk "d3" 120] in
  Forall (fun e => 0 < Equity.equity e) curve
  /\ exists q,
      Utils.maxDrawdown
        (Utils.calculatePerformanceMetrics (fun x => x) []
                                           (map finitePoint curve))
      = Utils.Fin q
      /\ q == calculateDrawdown curve.
Proof.
  intro curve.
  assert (Hpos : Forall (fun e => 0 < Equity.equity e) curve)
    by (repeat constructor).
  split; [exact Hpos|].
  apply (utils_drawdown_agrees (fun x => x) [] curve Hpos).
Defined.
